(** * DGSHAPE dashboard: the data pipeline of [src/lib/dataLoader.ts]

    A shallow embedding of the CSV parser, the two record mappers and
    [processDataForTimeRange], with the properties the specification
    states about them; then the filters, the pagination, the page state
    and the export of the job list, [src/app/jobs/page.tsx], with further
    properties of both files.

    Modelling conventions.
    - A JavaScript string is a [string]; one character of the model is one
      UTF-16 code unit below 256.
    - An integer-valued number (a count, an hour, the result of
      [parseInt]) is a [Z], which is exact below 2^53; any other number is
      an IEEE 754 double, a [float] of the kernel, with the additions,
      products and quotients of the code as the operations on doubles, in
      the order the code has them. A [NaN] that a parser returns is
      [None].
    - A field that may be [undefined] or [null] is an [option].
    - A JavaScript [Map] keeps insertion order and is an association
      list, [JsMap]; a plain object used as a dictionary is a [gmap].
    - What the code takes from [date-fns] and from the JavaScript host
      (calendar arithmetic, date parsing and formatting, collation, number
      parsing) is a record of functions, [Host]; the clock reading
      [new Date()] is an explicit argument [now]. *)

From Stdlib Require Import ZArith QArith Qround List String Ascii Bool Lia.
From Stdlib Require Import Sorted Permutation OrdersEx.
From Stdlib Require Import PrimFloat SpecFloat FloatOps.
From stdpp Require Import gmap strings.
Import ListNotations.

Local Open Scope string_scope.
Local Open Scope Z_scope.

(** * Part I: the program *)

(** ** Strings *)

Module Str.

Definition dquote : ascii := Ascii.ascii_of_nat 34.
Definition comma : ascii := Ascii.ascii_of_nat 44.
Definition newline : ascii := Ascii.ascii_of_nat 10.

(** White space and line terminators of ECMAScript, among the code units
    below 256: TAB, LF, VT, FF, CR, SP and NBSP. *)
Definition is_white_space (c : ascii) : bool :=
  let n := Ascii.nat_of_ascii c in
  ((9 <=? n) && (n <=? 13) || (n =? 32) || (n =? 160))%nat.

Fixpoint trimStart (s : string) : string :=
  match s with
  | EmptyString => EmptyString
  | String c r => if is_white_space c then trimStart r else s
  end.

Fixpoint trimEnd (s : string) : string :=
  match s with
  | EmptyString => EmptyString
  | String c r =>
      match trimEnd r with
      | EmptyString =>
          if is_white_space c then EmptyString else String c EmptyString
      | r' => String c r'
      end
  end.

(** [String.prototype.trim] *)
Definition trim (s : string) : string := trimEnd (trimStart s).

(** [s.split('\n')]: always at least one piece. *)
Fixpoint split_lines (s : string) : list string :=
  match s with
  | EmptyString => [EmptyString]
  | String c r =>
      if Ascii.eqb c newline then EmptyString :: split_lines r
      else match split_lines r with
           | h :: t => String c h :: t
           | [] => [String c EmptyString]
           end
  end.

(** The code units of a string. *)
Definition chars (s : string) : list ascii := list_ascii_of_string s.

(** [Array.prototype.join] *)
Fixpoint join (sep : string) (l : list string) : string :=
  match l with
  | [] => EmptyString
  | [s] => s
  | s :: t => s +:+ sep +:+ join sep t
  end.

(** [l.includes(x)] on an array of strings. *)
Definition includes (l : list string) (x : string) : bool :=
  existsb (String.eqb x) l.

(** Truthiness of a string that may be [undefined] or [null]. *)
Definition truthy (o : option string) : bool :=
  match o with
  | Some s => negb (String.eqb s EmptyString)
  | None => false
  end.

End Str.

(** ** The tabular parser: [parseCSV] *)

(** The [for] loop of [parseCSV] from position [i] on: [line] is what is
    left of the line, and [values], [current], [inQuotes] are the three
    local variables. The first case is the [push] after the loop. *)
Fixpoint parseLine_loop (line : string) (values : list string)
    (current : string) (inQuotes : bool) : list string :=
  match line with
  | EmptyString => values ++ [Str.trim current]
  | String char rest =>
      if Ascii.eqb char Str.dquote then
        parseLine_loop rest values current (negb inQuotes)
      else if Ascii.eqb char Str.comma && negb inQuotes then
        parseLine_loop rest (values ++ [Str.trim current]) EmptyString inQuotes
      else
        parseLine_loop rest values (current +:+ String char EmptyString) inQuotes
  end.

(** The arrow function mapped over the lines. *)
Definition parseLine (line : string) : list string :=
  parseLine_loop line [] EmptyString false.

Definition parseCSV (csvText : string) : list (list string) :=
  let lines := Str.split_lines (Str.trim csvText) in
  List.map parseLine lines.

(** A cell of a line as the writer of a file produces it: bare, or wrapped
    in double quotes. *)
Inductive cell : Type :=
  | Bare (content : string)
  | Quoted (content : string).

Definition cell_content (c : cell) : string :=
  match c with Bare s => s | Quoted s => s end.

Definition cell_text (c : cell) : string :=
  match c with
  | Bare s => s
  | Quoted s => String Str.dquote (s +:+ String Str.dquote EmptyString)
  end.

(** A bare cell holds neither a comma nor a double quote; a quoted one
    holds no double quote, and may hold commas. *)
Definition cell_ok (c : cell) : Prop :=
  match c with
  | Bare s => ~ In Str.dquote (Str.chars s) /\ ~ In Str.comma (Str.chars s)
  | Quoted s => ~ In Str.dquote (Str.chars s)
  end.

Definition line_of_cells (cs : list cell) : string :=
  Str.join (String Str.comma EmptyString) (List.map cell_text cs).

(** ** The host: [date-fns] and the JavaScript built-ins

    A [Date] is its time value, milliseconds since the epoch; an invalid
    date is [None]. *)
Record Host : Type := {
  (** [parseISO(s)]; [None] is [Invalid Date]. *)
  parseISO : string -> option Z;
  (** [format(date, pattern)] on a valid date. *)
  format : Z -> string -> string;
  startOfWeek : Z -> Z;
  startOfMonth : Z -> Z;
  startOfYear : Z -> Z;
  subDays : Z -> Z -> Z;
  subWeeks : Z -> Z -> Z;
  subMonths : Z -> Z -> Z;
  subYears : Z -> Z -> Z;
  (** [new Date(s).getTime()]; [None] is [NaN]. *)
  getTime : string -> option Z;
  (** [a.localeCompare(b)]: negative, zero or positive. *)
  localeCompare : string -> string -> Z;
  (** [parseInt(s)] and [parseFloat(s)]; [None] is [NaN]. Integers that a
      double rounds, and the infinite ones, are outside the model. *)
  parseInt : string -> option Z;
  parseFloat : string -> option float
}.

(** ** JavaScript containers *)

(** [Map]: keys in insertion order; [set] on a key that is present keeps
    its place. *)
Module JsMap.
Section Ops.
Context {K V : Type} `{EqDecision K}.

Fixpoint get (k : K) (m : list (K * V)) : option V :=
  match m with
  | [] => None
  | (k', v) :: rest => if decide (k = k') then Some v else get k rest
  end.

Definition has (k : K) (m : list (K * V)) : bool :=
  match get k m with Some _ => true | None => false end.

Fixpoint set (k : K) (v : V) (m : list (K * V)) : list (K * V) :=
  match m with
  | [] => [(k, v)]
  | (k', v') :: rest =>
      if decide (k = k') then (k', v) :: rest else (k', v') :: set k v rest
  end.

Definition keys (m : list (K * V)) : list K := List.map fst m.

End Ops.
End JsMap.

(** [Array.prototype.sort(compare)]: stable; [x] moves past the elements
    it compares greater than. Where [compare] is not a consistent
    comparator ECMAScript leaves the order to the implementation, and this
    is then one such order. *)
Module JsArray.
Section Sort.
Context {A : Type} (compare : A -> A -> Z).

Fixpoint insert (x : A) (l : list A) : list A :=
  match l with
  | [] => [x]
  | y :: t => if 0 <? compare x y then y :: insert x t else x :: l
  end.

Definition sort (l : list A) : list A := fold_right insert [] l.

End Sort.

(** [l.forEach((x, index) => ...)] threading the state the callback
    updates. *)
Fixpoint forEach_from {A S : Type} (f : S -> A -> nat -> S) (l : list A)
    (index : nat) (s : S) : S :=
  match l with
  | [] => s
  | x :: t => forEach_from f t (Datatypes.S index) (f s x index)
  end.

Definition forEach {A S : Type} (f : S -> A -> nat -> S) (l : list A) (s : S) : S :=
  forEach_from f l 0%nat s.

End JsArray.

(** ** Numbers

    A Number is a double. [Number.of_Z] and [Number.of_Q] are the Number
    values for an integer and for a rational: the nearest double, ties to
    the even mantissa, as for a numeric literal; [Number.toQ] is the exact
    value of a finite double. *)
Module Number.

Definition of_Z (n : Z) : float :=
  SF2Prim (binary_normalize prec emax n 0 false).

(** The quotient is cut after 64 bits or more, with one more bit that
    tells whether anything was cut off, and then rounded once. *)
Definition of_Q (q : Q) : float :=
  let a := Z.abs (Qnum q) in
  let b := Z.pos (Qden q) in
  let s := Z.max 0 (Z.log2 b - Z.log2 a + 64) in
  let m := a * 2 ^ s / b in
  let sticky := if a * 2 ^ s mod b =? 0 then 0 else 1 in
  let r := SF2Prim (binary_normalize prec emax (2 * m + sticky) (- s - 1) false) in
  if Qnum q <? 0 then PrimFloat.opp r else r.

Definition toQ (x : float) : option Q :=
  match Prim2SF x with
  | S754_zero _ => Some 0%Q
  | S754_finite s m e =>
      let n := if s then Z.neg m else Z.pos m in
      Some (match e with
            | Z0 => inject_Z n
            | Z.pos p => inject_Z (n * 2 ^ Z.pos p)
            | Z.neg p => Qmake n (2 ^ p)
            end)
  | _ => None
  end.

(** [ToBoolean] gives false: [+0], [-0] and [NaN]. *)
Definition falsy (x : float) : bool :=
  PrimFloat.is_zero x || PrimFloat.is_nan x.

End Number.

(** [x || 0] on a number that may be [undefined] or [NaN]. *)
Definition or0 (o : option Z) : Z :=
  match o with Some n => n | None => 0 end.

(** [x || 0] on a Number that may be [undefined]. *)
Definition or0N (o : option float) : float :=
  match o with
  | Some x => if Number.falsy x then PrimFloat.zero else x
  | None => PrimFloat.zero
  end.

(** [Math.round]: a finite number that is not zero goes to the nearest
    integer, halves upwards, and to a zero of its own sign where that
    integer is 0; every other number is returned as it is. *)
Definition Math_round (x : float) : float :=
  match Prim2SF x, Number.toQ x with
  | S754_finite s _ _, Some q =>
      let n := Qfloor (q + (1 # 2)) in
      if n =? 0 then (if s then PrimFloat.neg_zero else PrimFloat.zero)
      else Number.of_Z n
  | _, _ => x
  end.

(** ** The data model: [src/types/dental.ts]

    Every field is optional in the model, since [obj as DailyData] and
    [obj as JobSession] are casts of an object that holds only the columns
    of the header. *)
Module DailyData.
Record t : Type := mk {
  start_date : option string;
  total_sessions : option Z;
  total_duration_minutes : option float;
  avg_duration_minutes : option float;
  completed_sessions : option Z;
  material_types : option Z;
  success_rate : option float;
  utilization_hours : option float;
  total_jobs : option Z
}.
End DailyData.

Module JobSession.
Record t : Type := mk {
  session_id : option Z;
  session_start : option string;
  start_date : option string;
  start_hour : option Z;
  material_type : option string;
  material_color : option string;
  status : option string;
  duration_minutes : option float;
  job_count : option Z
}.
End JobSession.

Module ChartData.
Record t : Type := mk {
  date : string;
  jobs : Z;
  success_rate : float;
  utilization : float
}.
End ChartData.

Inductive TimeRange : Type := daily | weekly | monthly | yearly.

(** ** The record mappers: [parseDailyData], [parseJobSessions] *)

(** A property value of the object a mapper builds. *)
Inductive value : Type :=
  | VInt (n : Z)
  | VReal (x : float)
  | VStr (s : string).

(** [obj[key] = v] on an ordinary object: an own property is written,
    except that assigning a primitive to [__proto__] changes nothing. *)
Definition obj_set (key : string) (v : value) (obj : gmap string value)
  : gmap string value :=
  if decide (key = "__proto__") then obj else <[key := v]> obj.

(** [row[index]?.trim() || ''] *)
Definition cell_value (row : list string) (index : nat) : string :=
  match nth_error row index with
  | Some s => Str.trim s
  | None => EmptyString
  end.

Definition get_int (obj : gmap string value) (key : string) : option Z :=
  match obj !! key with Some (VInt n) => Some n | _ => None end.

Definition get_real (obj : gmap string value) (key : string) : option float :=
  match obj !! key with Some (VReal x) => Some x | _ => None end.

Definition get_str (obj : gmap string value) (key : string) : option string :=
  match obj !! key with Some (VStr s) => Some s | _ => None end.

Definition daily_int_columns : list string :=
  ["total_sessions"; "completed_sessions"; "material_types"; "total_jobs"].

Definition daily_real_columns : list string :=
  ["total_duration_minutes"; "avg_duration_minutes"; "success_rate";
   "utilization_hours"].

Definition session_int_columns : list string :=
  ["session_id"; "start_hour"; "job_count"].

Definition session_real_columns : list string := ["duration_minutes"].

(** [obj as DailyData] *)
Definition asDailyData (obj : gmap string value) : DailyData.t :=
  {| DailyData.start_date := get_str obj "start_date";
     DailyData.total_sessions := get_int obj "total_sessions";
     DailyData.total_duration_minutes := get_real obj "total_duration_minutes";
     DailyData.avg_duration_minutes := get_real obj "avg_duration_minutes";
     DailyData.completed_sessions := get_int obj "completed_sessions";
     DailyData.material_types := get_int obj "material_types";
     DailyData.success_rate := get_real obj "success_rate";
     DailyData.utilization_hours := get_real obj "utilization_hours";
     DailyData.total_jobs := get_int obj "total_jobs" |}.

(** [obj as JobSession] *)
Definition asJobSession (obj : gmap string value) : JobSession.t :=
  {| JobSession.session_id := get_int obj "session_id";
     JobSession.session_start := get_str obj "session_start";
     JobSession.start_date := get_str obj "start_date";
     JobSession.start_hour := get_int obj "start_hour";
     JobSession.material_type := get_str obj "material_type";
     JobSession.material_color := get_str obj "material_color";
     JobSession.status := get_str obj "status";
     JobSession.duration_minutes := get_real obj "duration_minutes";
     JobSession.job_count := get_int obj "job_count" |}.

Section Mappers.
Context (host : Host).

(** The callback of [headers.forEach] in [parseDailyData]. *)
Definition dailyColumn (row : list string) (obj : gmap string value)
    (header : string) (index : nat) : gmap string value :=
  let cleanHeader := Str.trim header in
  let value := cell_value row index in
  if String.eqb cleanHeader "start_date" then
    obj_set cleanHeader (VStr value) obj
  else if Str.includes daily_int_columns cleanHeader then
    obj_set cleanHeader (VInt (or0 (parseInt host value))) obj
  else if Str.includes daily_real_columns cleanHeader then
    obj_set cleanHeader (VReal (or0N (parseFloat host value))) obj
  else obj.

(** The object built for one data row. *)
Definition dailyObject (headers row : list string) : gmap string value :=
  JsArray.forEach (dailyColumn row) headers ∅.

(** [rows] is never empty, see [parseCSV_nonempty]; on an empty [rows] the
    source would throw at [headers.forEach]. *)
Definition parseDailyData (csvText : string) : list DailyData.t :=
  let rows := parseCSV csvText in
  match rows with
  | [] => []
  | headers :: data =>
      List.map (fun row => asDailyData (dailyObject headers row)) data
  end.

(** The callback of [headers.forEach] in [parseJobSessions]. *)
Definition sessionColumn (row : list string) (obj : gmap string value)
    (header : string) (index : nat) : gmap string value :=
  let cleanHeader := Str.trim header in
  let value := cell_value row index in
  if Str.includes session_int_columns cleanHeader then
    obj_set cleanHeader (VInt (or0 (parseInt host value))) obj
  else if Str.includes session_real_columns cleanHeader then
    obj_set cleanHeader (VReal (or0N (parseFloat host value))) obj
  else
    obj_set cleanHeader (VStr value) obj.

Definition sessionObject (headers row : list string) : gmap string value :=
  JsArray.forEach (sessionColumn row) headers ∅.

Definition parseJobSessions (csvText : string) : list JobSession.t :=
  let rows := parseCSV csvText in
  match rows with
  | [] => []
  | headers :: data =>
      List.map (fun row => asJobSession (sessionObject headers row)) data
  end.

End Mappers.

(** ** [getMaterialColor] *)

(** What a property read on the object literal [colors] can give: one of
    its own strings, or a member inherited from [Object.prototype], which
    is a function or an object and not a string. *)
Inductive property : Type :=
  | PString (s : string)
  | PInherited (name : string).

Definition colors : list (string * string) :=
  [("Pan Dental", "#3b82f6"); ("Denture Care", "#10b981");
   ("hyperDENT", "#f59e0b"); ("Unknown", "#6b7280")].

(** The property names of [Object.prototype]. *)
Definition object_prototype_members : list string :=
  ["constructor"; "__defineGetter__"; "__defineSetter__"; "hasOwnProperty";
   "__lookupGetter__"; "__lookupSetter__"; "isPrototypeOf";
   "propertyIsEnumerable"; "toString"; "valueOf"; "__proto__";
   "toLocaleString"].

(** [colors[key]]: own properties first, then the prototype; [None] is
    [undefined]. *)
Definition colors_get (key : string) : option property :=
  match JsMap.get key colors with
  | Some c => Some (PString c)
  | None =>
      if Str.includes object_prototype_members key then Some (PInherited key)
      else None
  end.

Definition property_truthy (p : option property) : bool :=
  match p with
  | Some (PString s) => negb (String.eqb s EmptyString)
  | Some (PInherited _) => true
  | None => false
  end.

Definition getMaterialColor (material : string) : property :=
  if property_truthy (colors_get material) then
    match colors_get material with Some p => p | None => PString EmptyString end
  else
    match colors_get "Unknown" with Some p => p | None => PString EmptyString end.

Module MaterialEntry.
Record t : Type := mk {
  material : string;
  count : Z;
  color : property
}.
End MaterialEntry.

(** The object [processDataForTimeRange] returns. *)
Module Result.
Record t : Type := mk {
  totalJobs : Z;
  successRate : float;
  utilizationHours : float;
  materialTypes : Z;
  avgDuration : float;
  peakHour : Z;
  errorCount : Z;
  chartData : list ChartData.t;
  materialBreakdown : list MaterialEntry.t;
  recentSessions : list JobSession.t
}.
End Result.

(** ** The aggregation: [processDataForTimeRange] *)

Section Pipeline.
Context (host : Host).

(** The [switch] on [timeRange]: the start of the window ... *)
Definition startDate (timeRange : TimeRange) (now : Z) : Z :=
  match timeRange with
  | daily => subDays host now 30
  | weekly => subWeeks host now 12
  | monthly => subMonths host now 12
  | yearly => subYears host now 5
  end.

(** ... and the grouping key. *)
Definition groupBy (timeRange : TimeRange) (date : Z) : string :=
  match timeRange with
  | daily => format host date "MMM dd"
  | weekly => format host (startOfWeek host date) "MMM dd"
  | monthly => format host (startOfMonth host date) "MMM yyyy"
  | yearly => format host (startOfYear host date) "yyyy"
  end.

(** [parseISO(item.start_date)]; a missing field is not a string and gives
    [Invalid Date]. *)
Definition parseISO_field (start_date : option string) : option Z :=
  match start_date with
  | Some s => parseISO host s
  | None => None
  end.

(** [isWithinInterval(date, { start, end })] of date-fns: false on an
    invalid date. (The versions that throw on [start > end] are caught by
    the caller's [catch], which also answers false.) *)
Definition isWithinInterval (date : option Z) (start end_ : Z) : bool :=
  match date with
  | Some time => (start <=? time) && (time <=? end_)
  | None => false
  end.

(** The predicate of both [filter] calls. *)
Definition inWindow (timeRange : TimeRange) (now : Z)
    (start_date : option string) : bool :=
  isWithinInterval (parseISO_field start_date) (startDate timeRange now) now.

Definition filterDaily (timeRange : TimeRange) (now : Z)
    (dailyData : list DailyData.t) : list DailyData.t :=
  List.filter (fun item => inWindow timeRange now (DailyData.start_date item))
    dailyData.

Definition filterSessions (timeRange : TimeRange) (now : Z)
    (sessions : list JobSession.t) : list JobSession.t :=
  List.filter
    (fun session => inWindow timeRange now (JobSession.start_date session))
    sessions.

(** *** [groupDataByPeriod] *)

(** The callback of [data.forEach]: an item whose date does not parse is
    skipped, the others are pushed on the array of their key. *)
Definition groupItem (groupBy : Z -> string)
    (grouped : list (string * list DailyData.t)) (item : DailyData.t)
  : list (string * list DailyData.t) :=
  match parseISO_field (DailyData.start_date item) with
  | None => grouped
  | Some date =>
      let key := groupBy date in
      let grouped :=
        if JsMap.has key grouped then grouped else JsMap.set key [] grouped in
      match JsMap.get key grouped with
      | Some items => JsMap.set key (items ++ [item])%list grouped
      | None => grouped
      end
  end.

Definition sumInt (f : DailyData.t -> option Z) (items : list DailyData.t) : Z :=
  fold_left (fun sum item => sum + or0 (f item)) items 0.

(** [items.reduce((sum, item) => sum + (item.f || 0), 0)] on Numbers: the
    additions of doubles, from the left. *)
Definition sumReal {A : Type} (f : A -> option float) (items : list A)
  : float :=
  fold_left (fun sum item => (sum + or0N (f item))%float) items 0%float.

(** [Math.round(x * 10) / 10] *)
Definition round1 (x : float) : float := (Math_round (x * 10) / 10)%float.

(** The callback of [.map] over the entries of [grouped]. *)
Definition chartPoint (entry : string * list DailyData.t) : ChartData.t :=
  let '(date, items) := entry in
  let totalJobs := sumInt DailyData.total_sessions items in
  let totalCompleted := sumInt DailyData.completed_sessions items in
  let successRate :=
    if 0 <? totalJobs
    then (Number.of_Z totalCompleted / Number.of_Z totalJobs * 100)%float
    else 0%float in
  let utilization := sumReal DailyData.utilization_hours items in
  {| ChartData.date := date;
     ChartData.jobs := totalJobs;
     ChartData.success_rate := round1 successRate;
     ChartData.utilization := round1 utilization |}.

Definition groupDataByPeriod (data : list DailyData.t) (groupBy : Z -> string)
  : list ChartData.t :=
  let grouped := fold_left (groupItem groupBy) data [] in
  JsArray.sort
    (fun a b => localeCompare host (ChartData.date a) (ChartData.date b))
    (List.map chartPoint grouped).

(** *** Summary metrics *)

(** [s.status === name] *)
Definition statusIs (name : string) (s : JobSession.t) : bool :=
  match JobSession.status s with
  | Some x => String.eqb x name
  | None => false
  end.

(** The [forEach] that fills [materialCounts]; [if (session.material_type)]
    lets through a string that is not empty. *)
Definition countMaterial (materialCounts : list (string * Z))
    (session : JobSession.t) : list (string * Z) :=
  match JobSession.material_type session with
  | Some material_type =>
      if String.eqb material_type EmptyString then materialCounts
      else
        let current := or0 (JsMap.get material_type materialCounts) in
        JsMap.set material_type (current + 1) materialCounts
  | None => materialCounts
  end.

Definition materialEntry (entry : string * Z) : MaterialEntry.t :=
  let '(material, count) := entry in
  {| MaterialEntry.material := material;
     MaterialEntry.count := count;
     MaterialEntry.color := getMaterialColor material |}.

Definition breakdownOf (materialCounts : list (string * Z))
  : list MaterialEntry.t :=
  JsArray.sort (fun a b => MaterialEntry.count b - MaterialEntry.count a)
    (List.map materialEntry materialCounts).

(** [new Date(s.session_start || s.start_date).getTime()] *)
Definition sessionTime (s : JobSession.t) : option Z :=
  let effective :=
    if Str.truthy (JobSession.session_start s)
    then JobSession.session_start s else JobSession.start_date s in
  match effective with
  | Some text => getTime host text
  | None => None
  end.

(** The comparator of the recent-sessions sort; a [NaN] difference counts
    as zero in [sort]. *)
Definition compareRecent (a b : JobSession.t) : Z :=
  match sessionTime b, sessionTime a with
  | Some tb, Some ta => tb - ta
  | _, _ => 0
  end.

(** The [forEach] that fills [hourCounts]. *)
Definition countHour (hourCounts : list (Z * Z)) (session : JobSession.t)
  : list (Z * Z) :=
  match JobSession.start_hour session with
  | Some start_hour =>
      let current := or0 (JsMap.get start_hour hourCounts) in
      JsMap.set start_hour (current + 1) hourCounts
  | None => hourCounts
  end.

(** The [reduce] over the entries of [hourCounts], seeded with [[9, 0]]. *)
Definition peakOf (hourCounts : list (Z * Z)) : Z :=
  fst (fold_left
         (fun (max : Z * Z) (entry : Z * Z) =>
            let '(hour, count) := entry in
            if or0 (JsMap.get (fst max) hourCounts) <? count
            then (hour, count) else max)
         hourCounts (9, 0)).

(** [now] is the value of [new Date()] at the call. The sort of the recent
    sessions is in place: the statements after it read the sorted array.
    With a session whose time does not parse the comparator gives [NaN]
    and the order is the engine's, of which [JsArray.sort] is one; what is
    proved of an order below is proved where every kept session has a
    time. *)
Definition processDataForTimeRange (now : Z) (dailyData : list DailyData.t)
    (sessions : list JobSession.t) (timeRange : TimeRange) : Result.t :=
  let filteredDaily := filterDaily timeRange now dailyData in
  let filteredSessions := filterSessions timeRange now sessions in
  let groupedData := groupDataByPeriod filteredDaily (groupBy timeRange) in
  let totalJobs := Z.of_nat (length filteredSessions) in
  let completedJobs :=
    Z.of_nat (length (List.filter (statusIs "Completed") filteredSessions)) in
  let successRate :=
    if 0 <? totalJobs
    then (Number.of_Z completedJobs / Number.of_Z totalJobs * 100)%float
    else 0%float in
  let totalUtilization := sumReal DailyData.utilization_hours filteredDaily in
  let materialCounts := fold_left countMaterial filteredSessions [] in
  let materialBreakdown := breakdownOf materialCounts in
  let filteredSessions := JsArray.sort compareRecent filteredSessions in
  let recentSessions := firstn 10 filteredSessions in
  let totalDuration := sumReal JobSession.duration_minutes filteredSessions in
  let avgDuration :=
    if 0 <? totalJobs then (totalDuration / Number.of_Z totalJobs)%float
    else 0%float in
  let errorCount :=
    Z.of_nat (length (List.filter (statusIs "Incomplete") filteredSessions)) in
  let materialTypes := Z.of_nat (length materialCounts) in
  let hourCounts := fold_left countHour filteredSessions [] in
  let peakHour := peakOf hourCounts in
  {| Result.totalJobs := totalJobs;
     Result.successRate := successRate;
     Result.utilizationHours := totalUtilization;
     Result.materialTypes := materialTypes;
     Result.avgDuration := avgDuration;
     Result.peakHour := peakHour;
     Result.errorCount := errorCount;
     Result.chartData := groupedData;
     Result.materialBreakdown := materialBreakdown;
     Result.recentSessions := recentSessions |}.

End Pipeline.

(** ** A reference host

    One instance of [Host], on which the pipeline can be run: a host in the
    UTC time zone with the proleptic Gregorian calendar, English month
    names, weeks that start on Sunday and collation by code unit. It reads
    dates of the shapes [YYYY-MM-DD], [YYYY-MM-DDThh:mm:ss] and
    [YYYY-MM-DD hh:mm:ss], the last two with an optional [.sss] and an
    optional [Z]; it formats with the three patterns of
    [processDataForTimeRange] and with [HH:mm]; it reads integers in
    decimal or hexadecimal notation and Numbers in decimal notation with an
    optional exponent. It stands for the host in the witnesses and the
    examples only: every theorem is about any [Host]. *)
Module Utc.

Definition ms_per_day : Z := 86400000.

Definition days_from_civil (y m d : Z) : Z :=
  let y := if m <=? 2 then y - 1 else y in
  let era := y / 400 in
  let yoe := y - era * 400 in
  let mp := if 2 <? m then m - 3 else m + 9 in
  let doy := (153 * mp + 2) / 5 + d - 1 in
  let doe := yoe * 365 + yoe / 4 - yoe / 100 + doy in
  era * 146097 + doe - 719468.

Definition civil_from_days (z : Z) : Z * Z * Z :=
  let z := z + 719468 in
  let era := z / 146097 in
  let doe := z - era * 146097 in
  let yoe := (doe - doe / 1460 + doe / 36524 - doe / 146096) / 365 in
  let y := yoe + era * 400 in
  let doy := doe - (365 * yoe + yoe / 4 - yoe / 100) in
  let mp := (5 * doy + 2) / 153 in
  let d := doy - (153 * mp + 2) / 5 + 1 in
  let m := if mp <? 10 then mp + 3 else mp - 9 in
  (if m <=? 2 then y + 1 else y, m, d).

Definition is_leap (y : Z) : bool :=
  (y mod 4 =? 0) && (negb (y mod 100 =? 0) || (y mod 400 =? 0)).

Definition days_in_month (y m : Z) : Z :=
  if m =? 2 then (if is_leap y then 29 else 28)
  else if (m =? 4) || (m =? 6) || (m =? 9) || (m =? 11) then 30
  else 31.

(** The value of a digit in a radix up to 36. *)
Definition digit_in (radix : Z) (c : ascii) : option Z :=
  let n := Z.of_nat (Ascii.nat_of_ascii c) in
  let v :=
    if (48 <=? n) && (n <=? 57) then n - 48
    else if (97 <=? n) && (n <=? 122) then n - 87
    else if (65 <=? n) && (n <=? 90) then n - 55
    else 36 in
  if v <? radix then Some v else None.

(** The longest prefix of digits: its value and how many there are, and
    the rest of the string. *)
Fixpoint scan_digits (radix : Z) (s : string) (acc : Z) (n : nat)
  : Z * nat * string :=
  match s with
  | EmptyString => (acc, n, s)
  | String c r =>
      match digit_in radix c with
      | Some d => scan_digits radix r (acc * radix + d) (S n)
      | None => (acc, n, s)
      end
  end.

(** A field of exactly [width] decimal digits. *)
Definition fixed_number (s : string) (start width : nat) : option Z :=
  let '(v, n, rest) := scan_digits 10 (String.substring start width s) 0 0%nat in
  if (n =? width)%nat then Some v else None.

Definition char_is (s : string) (i : nat) (l : list string) : bool :=
  Str.includes l (String.substring i 1 s).

Definition parse_date (s : string) : option Z :=
  match fixed_number s 0 4, fixed_number s 5 2, fixed_number s 8 2 with
  | Some y, Some m, Some d =>
      if char_is s 4 ["-"] && char_is s 7 ["-"]
         && (1 <=? m) && (m <=? 12) && (1 <=? d) && (d <=? days_in_month y m)
      then Some (days_from_civil y m d * ms_per_day)
      else None
  | _, _, _ => None
  end.

Definition parse_time (s : string) : option Z :=
  match fixed_number s 11 2, fixed_number s 14 2, fixed_number s 17 2 with
  | Some h, Some mi, Some sec =>
      if char_is s 10 ["T"; " "] && char_is s 13 [":"] && char_is s 16 [":"]
         && (h <? 24) && (mi <? 60) && (sec <? 60)
      then Some ((h * 3600 + mi * 60 + sec) * 1000)
      else None
  | _, _, _ => None
  end.

(** The fraction of a second and the zone letter after the seconds: [.sss]
    or nothing, then [Z] or nothing. *)
Definition parse_tail (s : string) : option Z :=
  let tail := String.substring 19 (String.length s - 19) s in
  let '(millis, tail) :=
    if char_is tail 0 ["."] then
      match fixed_number tail 1 3 with
      | Some ms => (Some ms, String.substring 4 (String.length tail - 4) tail)
      | None => (None, tail)
      end
    else (Some 0, tail) in
  if Str.includes [EmptyString; "Z"] tail then millis else None.

Definition parse_timestamp (s : string) : option Z :=
  if (String.length s =? 10)%nat then parse_date s
  else if (19 <=? String.length s)%nat then
    match parse_date s, parse_time s, parse_tail s with
    | Some d, Some t, Some ms => Some (d + t + ms)
    | _, _, _ => None
    end
  else None.

Definition digit_char (n : Z) : ascii :=
  Ascii.ascii_of_nat (48 + Z.to_nat (n mod 10)).

Definition pad2 (n : Z) : string :=
  String (digit_char (n / 10)) (String (digit_char n) EmptyString).

Definition pad4 (n : Z) : string := pad2 (n / 100) +:+ pad2 n.

Definition month_name (m : Z) : string :=
  nth (Z.to_nat (m - 1))
    ["Jan"; "Feb"; "Mar"; "Apr"; "May"; "Jun";
     "Jul"; "Aug"; "Sep"; "Oct"; "Nov"; "Dec"] EmptyString.

Definition format (t : Z) (pattern : string) : string :=
  let '(y, m, d) := civil_from_days (t / ms_per_day) in
  if String.eqb pattern "MMM dd" then month_name m +:+ " " +:+ pad2 d
  else if String.eqb pattern "MMM yyyy" then month_name m +:+ " " +:+ pad4 y
  else if String.eqb pattern "yyyy" then pad4 y
  else if String.eqb pattern "HH:mm" then
    let ms := t mod ms_per_day in
    pad2 (ms / 3600000) +:+ ":" +:+ pad2 (ms / 60000 mod 60)
  else EmptyString.

Definition startOfWeek (t : Z) : Z :=
  let days := t / ms_per_day in
  (days - (days + 4) mod 7) * ms_per_day.

Definition startOfMonth (t : Z) : Z :=
  let '(y, m, _) := civil_from_days (t / ms_per_day) in
  days_from_civil y m 1 * ms_per_day.

Definition startOfYear (t : Z) : Z :=
  let '(y, _, _) := civil_from_days (t / ms_per_day) in
  days_from_civil y 1 1 * ms_per_day.

Definition addMonths (t amount : Z) : Z :=
  let '(y, m, d) := civil_from_days (t / ms_per_day) in
  let months := y * 12 + (m - 1) + amount in
  let y' := months / 12 in
  let m' := months mod 12 + 1 in
  let d' := Z.min d (days_in_month y' m') in
  days_from_civil y' m' d' * ms_per_day + t mod ms_per_day.

Definition subDays (t amount : Z) : Z := t - amount * ms_per_day.
Definition subWeeks (t amount : Z) : Z := subDays t (amount * 7).
Definition subMonths (t amount : Z) : Z := addMonths t (- amount).
Definition subYears (t amount : Z) : Z := subMonths t (amount * 12).

(** Comparison by code units. *)
Definition localeCompare (a b : string) : Z :=
  match String_as_OT.compare a b with
  | Lt => -1
  | Eq => 0
  | Gt => 1
  end.

Definition strip_sign (s : string) : bool * string :=
  match s with
  | String c r =>
      if Ascii.eqb c (Ascii.ascii_of_nat 45) then (true, r)
      else if Ascii.eqb c (Ascii.ascii_of_nat 43) then (false, r)
      else (false, s)
  | EmptyString => (false, s)
  end.

Definition parseInt (s : string) : option Z :=
  let '(negative, s) := strip_sign (Str.trimStart s) in
  let '(radix, s) :=
    if Str.includes ["0x"; "0X"] (String.substring 0 2 s)
    then (16, String.substring 2 (String.length s - 2) s) else (10, s) in
  let '(v, n, _) := scan_digits radix s 0 0%nat in
  if (n =? 0)%nat then None else Some (if negative then - v else v).

(** A decimal literal at the start of [s], with an optional fraction and
    an optional exponent; [Infinity] is not read. *)
Definition parseFloat (s : string) : option float :=
  let '(negative, s) := strip_sign (Str.trimStart s) in
  let '(whole, n, rest) := scan_digits 10 s 0 0%nat in
  let '(frac, k, rest) :=
    match rest with
    | String c r =>
        if Ascii.eqb c (Ascii.ascii_of_nat 46)
        then scan_digits 10 r 0 0%nat
        else (0, 0%nat, rest)
    | EmptyString => (0, 0%nat, rest)
    end in
  let exponent :=
    match rest with
    | String c r =>
        if Ascii.eqb c (Ascii.ascii_of_nat 101)
           || Ascii.eqb c (Ascii.ascii_of_nat 69)
        then
          let '(minus, r) := strip_sign r in
          let '(e, digits, _) := scan_digits 10 r 0 0%nat in
          if (digits =? 0)%nat then 0 else if minus then - e else e
        else 0
    | EmptyString => 0
    end in
  if (n + k =? 0)%nat then None
  else
    let mantissa := whole * 10 ^ Z.of_nat k + frac in
    let e10 := exponent - Z.of_nat k in
    let q :=
      if 0 <=? e10 then inject_Z (mantissa * 10 ^ e10)
      else Qmake mantissa (Z.to_pos (10 ^ (- e10))) in
    let x := Number.of_Q q in
    Some (if negative then PrimFloat.opp x else x).

Definition host : Host :=
  Build_Host parse_timestamp format startOfWeek startOfMonth startOfYear
    subDays subWeeks subMonths subYears parse_timestamp localeCompare
    parseInt parseFloat.

End Utc.

(** ** Notions the statements are written with *)

Section Notions.
Context (host : Host).

(** A date field lies in the window: it parses, to a time between the
    start of the window and [now], both included. *)
Definition in_window (timeRange : TimeRange) (now : Z)
    (start_date : option string) : Prop :=
  exists time : Z,
    parseISO_field host start_date = Some time
    /\ startDate host timeRange now <= time <= now.

(** The grouping key of a daily record, when its date parses. *)
Definition keyOf (groupBy : Z -> string) (item : DailyData.t) : option string :=
  match parseISO_field host (DailyData.start_date item) with
  | Some date => Some (groupBy date)
  | None => None
  end.

(** The keys of the records whose date parses, in input order. *)
Fixpoint keysOf (groupBy : Z -> string) (data : list DailyData.t)
  : list string :=
  match data with
  | [] => []
  | item :: rest =>
      match keyOf groupBy item with
      | Some k => k :: keysOf groupBy rest
      | None => keysOf groupBy rest
      end
  end.

(** The records of one bucket, in input order. *)
Definition bucket (groupBy : Z -> string) (key : string)
    (data : list DailyData.t) : list DailyData.t :=
  List.filter
    (fun item =>
       match keyOf groupBy item with
       | Some k => String.eqb k key
       | None => false
       end)
    data.

(** On the labels [keys] the collation of the host is the order of the
    code units. *)
Definition collates_by_code_unit (keys : list string) : Prop :=
  forall a b : string, In a keys -> In b keys ->
    (localeCompare host a b ?= 0) = String_as_OT.compare a b.

End Notions.

(** Ascending order of the labels, by code units. *)
Definition label_lt (a b : ChartData.t) : Prop :=
  String_as_OT.lt (ChartData.date a) (ChartData.date b).

(** A string without a double quote. *)
Definition quote_free (s : string) : Prop := ~ In Str.dquote (Str.chars s).

(** What [parseLine] gives for a line written from cells. *)
Definition cell_fields (cells : list cell) : list string :=
  List.map (fun c => Str.trim (cell_content c)) cells.

(** The counts of a daily record are natural numbers, as the data model
    has them. *)
Definition counts_nonnegative (item : DailyData.t) : Prop :=
  0 <= or0 (DailyData.total_sessions item)
  /\ 0 <= or0 (DailyData.completed_sessions item).

(** [n] is the integer nearest to [q], the greater of the two when [q] is
    half-way. *)
Definition nearest_integer (q : Q) (n : Z) : Prop :=
  (inject_Z n <= q + (1 # 2) < inject_Z n + 1)%Q.

(** [i] is the Number [y] rounded to an integer, as ECMAScript specifies
    [Math.round]: a zero, an infinity and [NaN] are left as they are; any
    other Number goes to the Number for the integer nearest to its exact
    value, and to the zero of its own sign where that integer is 0. *)
Definition rounds_to (y i : float) : Prop :=
  match Number.toQ y with
  | None => i = y
  | Some q =>
      if Qeq_bool q 0 then i = y
      else
        exists n : Z,
          nearest_integer q n
          /\ i = (if n =? 0
                  then (if Qle_bool 0 q then PrimFloat.zero
                        else PrimFloat.neg_zero)
                  else Number.of_Z n)
  end.

(** [r] is [x] to one decimal place, the way the code takes it: the double
    ten times [x], rounded to an integer, over ten in doubles. *)
Definition tenth_of (x r : float) : Prop :=
  exists i : float, rounds_to (x * 10)%float i /\ r = (i / 10)%float.

(** The sum of Numbers from the left, from 0: the order matters for
    doubles. *)
Definition sum_left (l : list float) : float :=
  fold_left PrimFloat.add l 0%float.

(** The sum of integers. *)
Definition sumZ (l : list Z) : Z := fold_right Z.add 0 l.

(** How many sessions have the status [name]. *)
Fixpoint count_status (name : string) (l : list JobSession.t) : Z :=
  match l with
  | [] => 0
  | s :: t =>
      (if decide (JobSession.status s = Some name) then 1 else 0)
      + count_status name t
  end.

(** The hours the sessions contribute, in order. *)
Fixpoint hoursOf (l : list JobSession.t) : list Z :=
  match l with
  | [] => []
  | s :: t =>
      match JobSession.start_hour s with
      | Some h => h :: hoursOf t
      | None => hoursOf t
      end
  end.

(** The material types that are neither missing nor blank, in order. *)
Fixpoint materialsOf (l : list JobSession.t) : list string :=
  match l with
  | [] => []
  | s :: t =>
      match JobSession.material_type s with
      | Some m => if String.eqb m EmptyString then materialsOf t
                  else m :: materialsOf t
      | None => materialsOf t
      end
  end.

(** Number of occurrences in a list. *)
Definition occurrences {K : Type} `{EqDecision K} (k : K) (l : list K) : Z :=
  Z.of_nat (length (List.filter (fun x => bool_decide (x = k)) l)).

(** The distinct elements of a list, in the order of their first
    appearance. *)
Fixpoint distinct {K : Type} `{EqDecision K} (l : list K) : list K :=
  match l with
  | [] => []
  | x :: t => x :: List.filter (fun y => negb (bool_decide (y = x))) (distinct t)
  end.

(** A [Map] of counters filled by one pass over [keys]: the shape of the
    two counting loops of [processDataForTimeRange]. *)
Definition tally_step {K : Type} `{EqDecision K} (m : list (K * Z)) (k : K)
  : list (K * Z) :=
  JsMap.set k (or0 (JsMap.get k m) + 1) m.

Definition tally {K : Type} `{EqDecision K} (keys : list K) : list (K * Z) :=
  fold_left tally_step keys [].

(** The association list that maps each key of [keys] to [f]. *)
Definition tabulate {K V : Type} (f : K -> V) (keys : list K) : list (K * V) :=
  List.map (fun k => (k, f k)) keys.

(** The peak hour as the specification words it: the hour with the highest
    count, the first to appear among equals, and 9 when there is none. *)
Definition firstAppearancePeak (hours : list Z) : Z :=
  match
    fold_left
      (fun (best : option Z) (h : Z) =>
         match best with
         | None => Some h
         | Some b => if occurrences b hours <? occurrences h hours
                     then Some h else best
         end)
      hours None
  with
  | Some h => h
  | None => 9
  end.


(** [index] is the last column of the header named [name]: the one whose
    cell the mapper keeps. *)
Definition last_column (headers : list string) (name : string) (index : nat)
  : Prop :=
  nth_error (List.map Str.trim headers) index = Some name
  /\ forall j : nat, (index < j)%nat ->
       nth_error (List.map Str.trim headers) j <> Some name.

(** ** Sample data *)

Module Sample.

(** 2024-03-15T12:00:00Z and 2024-06-15T12:00:00Z *)
Definition now : Z := 1710504000000.
Definition later : Z := 1718452800000.

Definition session (date : string) (hour : Z) (material : option string)
    (status : string) : JobSession.t :=
  {| JobSession.session_id := Some 1;
     JobSession.session_start := Some (date +:+ "T10:00:00");
     JobSession.start_date := Some date;
     JobSession.start_hour := Some hour;
     JobSession.material_type := material;
     JobSession.material_color := None;
     JobSession.status := Some status;
     JobSession.duration_minutes := Some 15%float;
     JobSession.job_count := Some 1 |}.

Definition day (date : string) (total completed : Z) (hours : float)
  : DailyData.t :=
  {| DailyData.start_date := Some date;
     DailyData.total_sessions := Some total;
     DailyData.total_duration_minutes := None;
     DailyData.avg_duration_minutes := None;
     DailyData.completed_sessions := Some completed;
     DailyData.material_types := None;
     DailyData.success_rate := None;
     DailyData.utilization_hours := Some hours;
     DailyData.total_jobs := None |}.

(** 2024-03-15T00:00:00Z *)
Definition midnight : Z := 1710460800000.

Definition text (lines : list string) : string :=
  Str.join (String Str.newline EmptyString) lines.

Definition daily_csv : string :=
  text ["start_date, total_sessions ,completed_sessions,utilization_hours";
        "2024-03-10,12,11,3.5";
        "2024-03-11,n/a";
        ""].

Definition sessions_csv : string :=
  text ["session_id,start_date,start_hour,material_type,status,duration_minutes";
        "7,2024-03-10,9,hyperDENT,Completed,42.5";
        "8,2024-03-11,14,,In Progress,";
        "x,2024-03-12"].

End Sample.

(** ** Notions for the rest of [dataLoader.ts] *)

(** A string without a line break. *)
Definition newline_free (s : string) : Prop := ~ In Str.newline (Str.chars s).

(** The text with every line break written as carriage return and line
    feed. *)
Fixpoint crlf (text : string) : string :=
  match text with
  | EmptyString => EmptyString
  | String c r =>
      if Ascii.eqb c Str.newline
      then String (Ascii.ascii_of_nat 13) (String Str.newline (crlf r))
      else String c (crlf r)
  end.

(** A string of white space only. *)
Definition blank (s : string) : Prop :=
  forall c : ascii, In c (Str.chars s) -> Str.is_white_space c = true.

(** The number of commas of a line. *)
Definition commas (line : string) : nat :=
  length (List.filter (Ascii.eqb Str.comma) (Str.chars line)).

Definition defined {A : Type} (o : option A) : bool :=
  match o with Some _ => true | None => false end.

(** The columns [parseDailyData] knows, and whether the record has the
    field of that name. *)
Definition daily_columns : list string :=
  "start_date" :: (daily_int_columns ++ daily_real_columns)%list.

Definition dailyField (name : string) (d : DailyData.t) : bool :=
  if String.eqb name "start_date" then defined (DailyData.start_date d)
  else if String.eqb name "total_sessions" then defined (DailyData.total_sessions d)
  else if String.eqb name "total_duration_minutes"
  then defined (DailyData.total_duration_minutes d)
  else if String.eqb name "avg_duration_minutes"
  then defined (DailyData.avg_duration_minutes d)
  else if String.eqb name "completed_sessions"
  then defined (DailyData.completed_sessions d)
  else if String.eqb name "material_types" then defined (DailyData.material_types d)
  else if String.eqb name "success_rate" then defined (DailyData.success_rate d)
  else if String.eqb name "utilization_hours"
  then defined (DailyData.utilization_hours d)
  else if String.eqb name "total_jobs" then defined (DailyData.total_jobs d)
  else false.

(** The fields of a [JobSession]. *)
Definition session_columns : list string :=
  ["session_id"; "session_start"; "start_date"; "start_hour"; "material_type";
   "material_color"; "status"; "duration_minutes"; "job_count"].

Definition sessionField (name : string) (s : JobSession.t) : bool :=
  if String.eqb name "session_id" then defined (JobSession.session_id s)
  else if String.eqb name "session_start" then defined (JobSession.session_start s)
  else if String.eqb name "start_date" then defined (JobSession.start_date s)
  else if String.eqb name "start_hour" then defined (JobSession.start_hour s)
  else if String.eqb name "material_type" then defined (JobSession.material_type s)
  else if String.eqb name "material_color"
  then defined (JobSession.material_color s)
  else if String.eqb name "status" then defined (JobSession.status s)
  else if String.eqb name "duration_minutes"
  then defined (JobSession.duration_minutes s)
  else if String.eqb name "job_count" then defined (JobSession.job_count s)
  else false.

(** The session none of whose fields is there. *)
Definition noFields : JobSession.t :=
  {| JobSession.session_id := None;
     JobSession.session_start := None;
     JobSession.start_date := None;
     JobSession.start_hour := None;
     JobSession.material_type := None;
     JobSession.material_color := None;
     JobSession.status := None;
     JobSession.duration_minutes := None;
     JobSession.job_count := None |}.

(** [sub] occurs in [s]. *)
Definition substring_of (sub s : string) : Prop :=
  exists pre post : string, s = pre +:+ sub +:+ post.

(** [a] is at least as recent as [b], where both have a time. *)
Definition not_older (host : Host) (a b : JobSession.t) : Prop :=
  forall ta tb : Z,
    sessionTime host a = Some ta -> sessionTime host b = Some tb -> tb <= ta.

(** The session has the time [time]. *)
Definition timed (host : Host) (time : Z) (s : JobSession.t) : bool :=
  match sessionTime host s with
  | Some t => t =? time
  | None => false
  end.

(** [order] is [kept] from the most recent session on, the sessions of one
    time in the order of [kept]: what a stable sort by descending time
    gives. *)
Definition recent_first (host : Host) (kept order : list JobSession.t)
  : Prop :=
  Permutation order kept
  /\ StronglySorted (not_older host) order
  /\ forall time : Z,
       List.filter (timed host time) order = List.filter (timed host time) kept.

(** ** The job list: [src/app/jobs/page.tsx]

    The arrow functions of [JobsPage] that do not touch the date filter:
    the material, status and search filters, the pagination, the handlers
    of the page state and the text of the export. *)
Module Jobs.

Definition ITEMS_PER_PAGE : Z := 25.

(** [String.prototype.toLowerCase], on the code units below 256: the
    letters A to Z and the capital letters of Latin-1. *)
Definition lower_char (c : ascii) : ascii :=
  let n := Ascii.nat_of_ascii c in
  if ((65 <=? n) && (n <=? 90)
      || (192 <=? n) && (n <=? 222) && negb (n =? 215))%nat
  then Ascii.ascii_of_nat (n + 32) else c.

Fixpoint toLowerCase (s : string) : string :=
  match s with
  | EmptyString => EmptyString
  | String c r => String (lower_char c) (toLowerCase r)
  end.

(** [s.includes(sub)] *)
Fixpoint includes (s sub : string) : bool :=
  if String.prefix sub s then true
  else match s with
       | EmptyString => false
       | String _ r => includes r sub
       end.

(** The decimal digits of a positive number, most significant first;
    [fuel] bounds their number. *)
Fixpoint digits (fuel : nat) (n : Z) (acc : string) : string :=
  let acc := String (Ascii.ascii_of_nat (48 + Z.to_nat (n mod 10))) acc in
  match fuel with
  | O => acc
  | S fuel' => if n <? 10 then acc else digits fuel' (n / 10) acc
  end.

(** [n.toString()] of an integer (below 10^21 in absolute value, where
    JavaScript changes to the exponent notation). *)
Definition numberToString (n : Z) : string :=
  if n <? 0
  then String (Ascii.ascii_of_nat 45)
         (digits (Z.to_nat (Z.log2 (- n))) (- n) EmptyString)
  else digits (Z.to_nat (Z.log2 n)) n EmptyString.

(** The callback of the material filter:
    [job.material_type?.toLowerCase().includes(filter.toLowerCase())]. *)
Definition materialMatches (materialType : string) (job : JobSession.t) : bool :=
  match JobSession.material_type job with
  | Some m => includes (toLowerCase m) (toLowerCase materialType)
  | None => false
  end.

(** The callback of the search filter. Reading [toLowerCase] of a missing
    status, or [toString] of a missing id, throws a [TypeError]: [None]. *)
Definition searchMatches (searchLower : string) (job : JobSession.t)
  : option bool :=
  let inField (field : option string) : bool :=
    match field with
    | Some text => includes (toLowerCase text) searchLower
    | None => false
    end in
  if inField (JobSession.material_type job) then Some true
  else if inField (JobSession.material_color job) then Some true
  else
    match JobSession.status job with
    | None => None
    | Some status =>
        if includes (toLowerCase status) searchLower then Some true
        else
          match JobSession.session_id job with
          | None => None
          | Some id => Some (includes (numberToString id) searchLower)
          end
    end.

(** [jobs.filter(callback)] with a callback that may throw. *)
Fixpoint filterThrowing {A : Type} (callback : A -> option bool) (l : list A)
  : option (list A) :=
  match l with
  | [] => Some []
  | x :: t =>
      match callback x with
      | None => None
      | Some keep =>
          match filterThrowing callback t with
          | None => None
          | Some rest => Some (if keep then x :: rest else rest)
          end
      end
  end.

(** The three filters after the date filter, each skipped when its text
    is empty; [filtered] is what the date filter left. *)
Definition filterStages (materialType status search : string)
    (filtered : list JobSession.t) : option (list JobSession.t) :=
  let filtered :=
    if String.eqb materialType EmptyString then filtered
    else List.filter (materialMatches materialType) filtered in
  let filtered :=
    if String.eqb status EmptyString then filtered
    else List.filter (statusIs status) filtered in
  if String.eqb search EmptyString then Some filtered
  else filterThrowing (searchMatches (toLowerCase search)) filtered.

(** *** Pagination *)

(** [Array.prototype.slice(start, end)] *)
Definition slice {A : Type} (l : list A) (start end_ : Z) : list A :=
  let len := Z.of_nat (length l) in
  let k := if start <? 0 then Z.max (len + start) 0 else Z.min start len in
  let final := if end_ <? 0 then Z.max (len + end_) 0 else Z.min end_ len in
  firstn (Z.to_nat (final - k)) (skipn (Z.to_nat k) l).

(** [Math.ceil(length / ITEMS_PER_PAGE)] *)
Definition totalPages (count : nat) : Z :=
  Qceiling (inject_Z (Z.of_nat count) / inject_Z ITEMS_PER_PAGE).

Definition startIndex (currentPage : Z) : Z := (currentPage - 1) * ITEMS_PER_PAGE.

Definition endIndex (currentPage : Z) : Z := startIndex currentPage + ITEMS_PER_PAGE.

Definition currentJobs {A : Type} (jobs : list A) (currentPage : Z) : list A :=
  slice jobs (startIndex currentPage) (endIndex currentPage).

(** The two numbers of "Showing a-b of n jobs". *)
Definition showingFrom (currentPage : Z) : Z := startIndex currentPage + 1.

Definition showingTo (count : nat) (currentPage : Z) : Z :=
  Z.min (endIndex currentPage) (Z.of_nat count).

(** The page numbers of the buttons:
    [Array.from({ length: Math.min(5, totalPages) }, (_, i) => ...)]. *)
Definition pageNum (totalPages currentPage : Z) (i : nat) : Z :=
  Z.max 1 (Z.min (totalPages - 4) (currentPage - 2)) + Z.of_nat i.

Definition pageButtons (totalPages currentPage : Z) : list Z :=
  List.map (pageNum totalPages currentPage)
    (seq 0 (Z.to_nat (Z.min 5 totalPages))).

(** *** The state of the page and its handlers *)

Module SortField.
Inductive t : Type := session_start | material_type | status | duration_minutes.
End SortField.

Module SortDirection.
Inductive t : Type := asc | desc.
End SortDirection.

(** [JobFilters]; [type] is whatever string the select element gives. *)
Module JobFilters.
Record t : Type := mk {
  type : string;
  date : string;
  materialType : string;
  status : string;
  search : string
}.
Inductive key : Type := Type_ | Date | MaterialType | Status | Search.
End JobFilters.

Record State : Type := {
  currentPage : Z;
  sortField : SortField.t;
  sortDirection : SortDirection.t;
  filters : JobFilters.t
}.

(** The state after the first render; [today] is
    [new Date().toISOString().split('T')[0]]. *)
Definition initial (today : string) : State :=
  {| currentPage := 1;
     sortField := SortField.session_start;
     sortDirection := SortDirection.desc;
     filters := JobFilters.mk "date" today EmptyString EmptyString EmptyString |}.

Definition sortField_eqb (a b : SortField.t) : bool :=
  match a, b with
  | SortField.session_start, SortField.session_start
  | SortField.material_type, SortField.material_type
  | SortField.status, SortField.status
  | SortField.duration_minutes, SortField.duration_minutes => true
  | _, _ => false
  end.

Definition handleSort (field : SortField.t) (s : State) : State :=
  if sortField_eqb (sortField s) field then
    {| currentPage := 1;
       sortField := sortField s;
       sortDirection :=
         match sortDirection s with
         | SortDirection.asc => SortDirection.desc
         | SortDirection.desc => SortDirection.asc
         end;
       filters := filters s |}
  else
    {| currentPage := 1;
       sortField := field;
       sortDirection := SortDirection.asc;
       filters := filters s |}.

(** [{ ...prev, [key]: value }] *)
Definition setFilter (key : JobFilters.key) (value : string)
    (f : JobFilters.t) : JobFilters.t :=
  match key with
  | JobFilters.Type_ =>
      JobFilters.mk value (JobFilters.date f) (JobFilters.materialType f)
        (JobFilters.status f) (JobFilters.search f)
  | JobFilters.Date =>
      JobFilters.mk (JobFilters.type f) value (JobFilters.materialType f)
        (JobFilters.status f) (JobFilters.search f)
  | JobFilters.MaterialType =>
      JobFilters.mk (JobFilters.type f) (JobFilters.date f) value
        (JobFilters.status f) (JobFilters.search f)
  | JobFilters.Status =>
      JobFilters.mk (JobFilters.type f) (JobFilters.date f)
        (JobFilters.materialType f) value (JobFilters.search f)
  | JobFilters.Search =>
      JobFilters.mk (JobFilters.type f) (JobFilters.date f)
        (JobFilters.materialType f) (JobFilters.status f) value
  end.

Definition handleFilterChange (key : JobFilters.key) (value : string)
    (s : State) : State :=
  {| currentPage := 1;
     sortField := sortField s;
     sortDirection := sortDirection s;
     filters := setFilter key value (filters s) |}.

Definition resetFilters (today : string) (s : State) : State :=
  {| currentPage := 1;
     sortField := sortField s;
     sortDirection := sortDirection s;
     filters := JobFilters.mk "date" today EmptyString EmptyString EmptyString |}.

Definition setCurrentPage (update : Z -> Z) (s : State) : State :=
  {| currentPage := update (currentPage s);
     sortField := sortField s;
     sortDirection := sortDirection s;
     filters := filters s |}.

(** What the user can do once the jobs are loaded. *)
Inductive Event : Type :=
  | ClickSort (field : SortField.t)
  | ChangeFilter (key : JobFilters.key) (value : string)
  | ClickReset (today : string)
  | ClickPrevious
  | ClickNext
  | ClickPage (i : nat).

Section Machine.
(** The length of [filteredAndSortedJobs], which the loaded jobs and the
    filters determine. *)
Context (matching : JobFilters.t -> nat).

Definition pagesOf (s : State) : Z := totalPages (matching (filters s)).

(** The pagination bar is rendered when there is more than one page; a
    disabled button gives no click. *)
Definition step (s : State) (e : Event) : option State :=
  match e with
  | ClickSort field => Some (handleSort field s)
  | ChangeFilter key value => Some (handleFilterChange key value s)
  | ClickReset today => Some (resetFilters today s)
  | ClickPrevious =>
      if (1 <? pagesOf s) && negb (currentPage s =? 1)
      then Some (setCurrentPage (fun prev => Z.max 1 (prev - 1)) s)
      else None
  | ClickNext =>
      if (1 <? pagesOf s) && negb (currentPage s =? pagesOf s)
      then Some (setCurrentPage (fun prev => Z.min (pagesOf s) (prev + 1)) s)
      else None
  | ClickPage i =>
      if (1 <? pagesOf s) && (Z.of_nat i <? Z.min 5 (pagesOf s))
      then Some (setCurrentPage
                   (fun _ => pageNum (pagesOf s) (currentPage s) i) s)
      else None
  end.

(** The current page is a page that exists, or the first. *)
Definition page_in_range (s : State) : Prop :=
  1 <= currentPage s <= Z.max 1 (pagesOf s).

(** The events that take effect, from a state on. *)
Fixpoint run (s : State) (events : list Event) : State :=
  match events with
  | [] => s
  | e :: rest =>
      match step s e with
      | Some s' => run s' rest
      | None => run s rest
      end
  end.

End Machine.

(** *** The export *)

Definition exportHeaders : list string :=
  ["Session ID"; "Date"; "Time"; "Material Type"; "Material Color"; "Status";
   "Duration (min)"].

(** [x || ''], and what [join] writes for [undefined]. *)
Definition orEmpty (o : option string) : string :=
  match o with Some s => s | None => EmptyString end.

Section ExportCsv.
Context (host : Host).
(** [x.toFixed(1)] *)
Context (toFixed1 : float -> string).

(** The cells of one job; [format] throws on an invalid date: [None]. *)
Definition exportCells (job : JobSession.t) : option (list string) :=
  let effective :=
    if Str.truthy (JobSession.session_start job)
    then JobSession.session_start job else JobSession.start_date job in
  match parseISO_field host effective with
  | None => None
  | Some time =>
      Some
        [match JobSession.session_id job with
         | Some id => numberToString id
         | None => EmptyString
         end;
         orEmpty (JobSession.start_date job);
         format host time "HH:mm";
         orEmpty (JobSession.material_type job);
         orEmpty (JobSession.material_color job);
         orEmpty (JobSession.status job);
         match JobSession.duration_minutes job with
         | Some minutes => toFixed1 minutes
         | None => EmptyString
         end]
  end.

(** [jobs.map(job => [...].join(','))] *)
Fixpoint exportRows (jobs : list JobSession.t) : option (list string) :=
  match jobs with
  | [] => Some []
  | job :: rest =>
      match exportCells job with
      | None => None
      | Some cells =>
          match exportRows rest with
          | None => None
          | Some rows =>
              Some (Str.join (String Str.comma EmptyString) cells :: rows)
          end
      end
  end.

(** [csvContent] of [exportToCSV]. *)
Definition csvContent (jobs : list JobSession.t) : option string :=
  match exportRows jobs with
  | None => None
  | Some rows =>
      Some (Str.join (String Str.newline EmptyString)
              (Str.join (String Str.comma EmptyString) exportHeaders :: rows))
  end.

End ExportCsv.

End Jobs.

(** * Part II: properties *)

(** ** Strings *)

#[local] Arguments String.append !_ _ : simpl nomatch.

Lemma append_empty_r (a : string) : a +:+ EmptyString = a.
Proof. induction a as [|c a IH]; simpl; [reflexivity | now rewrite IH]. Qed.

Lemma append_assoc (a b c : string) : (a +:+ b) +:+ c = a +:+ b +:+ c.
Proof. induction a as [|x a IH]; simpl; [reflexivity | now rewrite IH]. Qed.

Lemma chars_append (a b : string) :
  Str.chars (a +:+ b) = (Str.chars a ++ Str.chars b)%list.
Proof.
  unfold Str.chars. induction a as [|x a IH]; simpl; [reflexivity | now rewrite IH].
Qed.

Lemma trimStart_chars (s : string) (c : ascii) :
  In c (Str.chars (Str.trimStart s)) -> In c (Str.chars s).
Proof.
  induction s as [|x r IH]; simpl; [tauto |].
  destruct (Str.is_white_space x); simpl; tauto.
Qed.

Lemma trimEnd_chars (s : string) (c : ascii) :
  In c (Str.chars (Str.trimEnd s)) -> In c (Str.chars s).
Proof.
  induction s as [|x r IH]; simpl; [tauto |].
  destruct (Str.trimEnd r) as [|y r'] eqn:E.
  - destruct (Str.is_white_space x); simpl; tauto.
  - simpl in *. tauto.
Qed.

Lemma trim_chars (s : string) (c : ascii) :
  In c (Str.chars (Str.trim s)) -> In c (Str.chars s).
Proof. intros H. now apply trimStart_chars, trimEnd_chars. Qed.

Lemma trim_quote_free (s : string) : quote_free s -> quote_free (Str.trim s).
Proof. unfold quote_free. intros H Hin. now apply H, trim_chars. Qed.

Lemma split_lines_nonempty (s : string) : Str.split_lines s <> [].
Proof.
  induction s as [|c r IH]; simpl; [discriminate |].
  destruct (Ascii.eqb c Str.newline); [discriminate |].
  destruct (Str.split_lines r); discriminate.
Qed.

(** ** The parser *)

Lemma parseCSV_nonempty (csvText : string) : parseCSV csvText <> [].
Proof.
  unfold parseCSV. intros H. apply map_eq_nil in H.
  now apply split_lines_nonempty in H.
Qed.

(** The loop never lets a double quote into a field. *)
Lemma parseLine_loop_quote_free (line : string) :
  forall (values : list string) (current : string) (inQuotes : bool),
    Forall quote_free values -> quote_free current ->
    Forall quote_free (parseLine_loop line values current inQuotes).
Proof.
  induction line as [|char rest IH]; intros values current inQuotes Hv Hc; simpl.
  - apply Forall_app. split; [assumption |].
    constructor; [now apply trim_quote_free | constructor].
  - destruct (Ascii.eqb char Str.dquote) eqn:Eq; [now apply IH |].
    destruct (Ascii.eqb char Str.comma && negb inQuotes).
    + apply IH.
      * apply Forall_app. split; [assumption |].
        constructor; [now apply trim_quote_free | constructor].
      * unfold quote_free. simpl. tauto.
    + apply IH; [assumption |].
      unfold quote_free in *. rewrite chars_append. intros Hin.
      apply in_app_or in Hin. destruct Hin as [Hin | Hin]; [tauto |].
      simpl in Hin. destruct Hin as [Hin | []].
      apply Ascii.eqb_neq in Eq. congruence.
Qed.

(** Characters that are no double quote, and no comma unless the loop is
    inside quotes, are appended to the field being read. *)
Lemma parseLine_loop_plain (s : string) :
  forall (tail : string) (values : list string) (current : string)
         (inQuotes : bool),
    quote_free s ->
    inQuotes = true \/ ~ In Str.comma (Str.chars s) ->
    parseLine_loop (s +:+ tail) values current inQuotes
    = parseLine_loop tail values (current +:+ s) inQuotes.
Proof.
  unfold quote_free.
  induction s as [|c r IH]; intros tail values current inQuotes Hq Hc.
  - now rewrite append_empty_r.
  - simpl in Hq. simpl.
    destruct (Ascii.eqb c Str.dquote) eqn:Eq.
    { apply Ascii.eqb_eq in Eq. subst c. tauto. }
    assert (Ascii.eqb c Str.comma && negb inQuotes = false) as ->.
    { destruct Hc as [-> | Hc]; [apply andb_false_r |].
      destruct (Ascii.eqb c Str.comma) eqn:Ec; [| reflexivity].
      apply Ascii.eqb_eq in Ec. subst c. simpl in Hc. tauto. }
    rewrite IH.
    + now rewrite append_assoc.
    + tauto.
    + destruct Hc as [Hc | Hc]; [now left | right]. simpl in Hc. tauto.
Qed.

Lemma parseLine_loop_cell (c : cell) (tail : string) (values : list string) :
  cell_ok c ->
  parseLine_loop (cell_text c +:+ tail) values EmptyString false
  = parseLine_loop tail values (cell_content c) false.
Proof.
  destruct c as [s | s]; simpl; intros Hok.
  - destruct Hok as [Hq Hc]. rewrite parseLine_loop_plain; auto.
  - rewrite append_assoc. rewrite parseLine_loop_plain; auto.
Qed.

Lemma parseLine_loop_cells (cells : list cell) :
  forall (c : cell) (values : list string),
    Forall cell_ok (c :: cells) ->
    parseLine_loop (line_of_cells (c :: cells)) values EmptyString false
    = (values ++ cell_fields (c :: cells))%list.
Proof.
  unfold line_of_cells, cell_fields.
  induction cells as [|c' cells IH]; intros c values Hok.
  - inversion Hok as [|? ? Hc _]; subst. simpl.
    rewrite <- (append_empty_r (cell_text c)).
    now rewrite parseLine_loop_cell.
  - inversion Hok as [|? ? Hc Hrest]; subst.
    change (Str.join (String Str.comma EmptyString)
              (List.map cell_text (c :: c' :: cells)))
      with (cell_text c +:+ String Str.comma
              (Str.join (String Str.comma EmptyString)
                 (List.map cell_text (c' :: cells)))).
    rewrite parseLine_loop_cell by assumption.
    cbn [parseLine_loop].
    change (Ascii.eqb Str.comma Str.dquote) with false.
    change (Ascii.eqb Str.comma Str.comma && negb false) with true.
    cbv iota.
    rewrite IH by assumption.
    rewrite <- app_assoc. reflexivity.
Qed.

(** C8. A comma inside a double-quoted span does not split the field, and
    no field of any row holds a double quote: the fields of a line written
    from cells, quoted or bare, are the trimmed contents of the cells, so
    that the quoted cell A,B is read as the one field A,B. A double quote
    only toggles the state, and inside a quoted span every character up to
    the next double quote, commas included, goes to the field being read;
    a doubled quote inside a quoted cell is not read as an escaped quote,
    it closes and reopens the span. *)
Theorem parseCSV_quoted_field :
  (forall (csvText : string) (row : list string) (field : string),
      In row (parseCSV csvText) -> In field row -> quote_free field)
  /\ (forall cells : list cell,
        cells <> [] -> Forall cell_ok cells ->
        parseLine (line_of_cells cells) = cell_fields cells)
  /\ parseLine (cell_text (Quoted "A,B")) = ["A,B"]
  /\ parseLine (line_of_cells [Bare "x"; Quoted "A,B"; Bare " y"])
     = ["x"; "A,B"; "y"]
  /\ (forall (rest : string) (values : list string) (current : string)
             (inQuotes : bool),
        parseLine_loop (String Str.dquote rest) values current inQuotes
        = parseLine_loop rest values current (negb inQuotes))
  /\ (forall (span rest : string) (values : list string) (current : string),
        quote_free span ->
        parseLine_loop (span +:+ rest) values current true
        = parseLine_loop rest values (current +:+ span) true)
  /\ parseLine (cell_text (Quoted "a") +:+ cell_text (Quoted "b,c"))
     = ["ab,c"].
Proof.
  split; [| split; [| split; [| split; [| split; [| split]]]]];
    try reflexivity.
  - intros csvText row field Hrow Hfield. unfold parseCSV in Hrow.
    apply in_map_iff in Hrow. destruct Hrow as [line [<- _]].
    assert (Forall quote_free (parseLine line)) as Hall.
    { apply parseLine_loop_quote_free; [constructor |].
      unfold quote_free. simpl. tauto. }
    rewrite List.Forall_forall in Hall. now apply Hall.
  - intros [|c cells] Hne Hok; [congruence |].
    unfold parseLine. now rewrite parseLine_loop_cells.
  - intros span rest values current Hfree.
    apply parseLine_loop_plain; [assumption | now left].
Qed.

Lemma parseCSV_quoted_field_witness :
  parseLine (line_of_cells [Quoted "Pan Dental, A2"; Bare "Completed"])
  = ["Pan Dental, A2"; "Completed"].
Proof.
  apply (proj1 (proj2 parseCSV_quoted_field)
           [Quoted "Pan Dental, A2"; Bare "Completed"]).
  - discriminate.
  - repeat constructor; simpl; intuition discriminate.
Defined.

(** ** [Array.prototype.sort] *)

Section SortFacts.
Context {A : Type} (compare : A -> A -> Z).

Lemma insert_perm (x : A) (l : list A) :
  Permutation (JsArray.insert compare x l) (x :: l).
Proof.
  induction l as [|y t IH]; simpl; [reflexivity |].
  destruct (0 <? compare x y); [| reflexivity].
  rewrite IH. apply perm_swap.
Qed.

Lemma sort_perm (l : list A) : Permutation (JsArray.sort compare l) l.
Proof.
  induction l as [|x t IH]; simpl; [reflexivity |].
  rewrite insert_perm. now constructor.
Qed.

Lemma sort_length (l : list A) : length (JsArray.sort compare l) = length l.
Proof. apply Permutation_length, sort_perm. Qed.

Lemma sort_In (x : A) (l : list A) : In x (JsArray.sort compare l) <-> In x l.
Proof.
  split; apply Permutation_in; [| symmetry]; apply sort_perm.
Qed.

End SortFacts.

Lemma insert_ext_in {A : Type} (c1 c2 : A -> A -> Z) (x : A) (l : list A) :
  (forall y : A, In y l -> c1 x y = c2 x y) ->
  JsArray.insert c1 x l = JsArray.insert c2 x l.
Proof.
  induction l as [|y t IH]; intros Hagree; simpl; [reflexivity |].
  rewrite (Hagree y) by now left.
  rewrite IH by (intros z Hz; apply Hagree; now right). reflexivity.
Qed.

(** The sort sees the comparator on the elements of the array only. *)
Lemma sort_ext_in {A : Type} (c1 c2 : A -> A -> Z) (l : list A) :
  (forall a b : A, In a l -> In b l -> c1 a b = c2 a b) ->
  JsArray.sort c1 l = JsArray.sort c2 l.
Proof.
  induction l as [|x t IH]; intros Hagree; simpl; [reflexivity |].
  fold (JsArray.sort c1 t). fold (JsArray.sort c2 t).
  rewrite IH by (intros a b Ha Hb; apply Hagree; now right).
  apply insert_ext_in. intros y Hy. apply sort_In in Hy.
  apply Hagree; [now left | now right].
Qed.

Lemma StronglySorted_weaken {A : Type} (R R' : A -> A -> Prop) (l : list A) :
  (forall a b : A, R a b -> R' a b) ->
  StronglySorted R l -> StronglySorted R' l.
Proof.
  intros Himpl. induction 1 as [|x t Ht IH Hx]; constructor; [exact IH |].
  eapply List.Forall_impl; [| exact Hx]. intros b. apply Himpl.
Qed.


(** ** The window *)

Lemma inWindow_spec (host : Host) (timeRange : TimeRange) (now : Z)
    (start_date : option string) :
  inWindow host timeRange now start_date = true
  <-> in_window host timeRange now start_date.
Proof.
  unfold inWindow, in_window, isWithinInterval.
  destruct (parseISO_field host start_date) as [time |].
  - rewrite andb_true_iff, !Z.leb_le. split.
    + intros H. exists time. tauto.
    + intros [t [Ht H]]. injection Ht as <-. tauto.
  - split; [discriminate | intros [t [Ht _]]; discriminate].
Qed.

Lemma filter_idem {A : Type} (f : A -> bool) (l : list A) :
  List.filter f (List.filter f l) = List.filter f l.
Proof.
  induction l as [|x t IH]; simpl; [reflexivity |].
  destruct (f x) eqn:E; simpl; [rewrite E |]; now rewrite ?IH.
Qed.

Lemma filterDaily_idem (host : Host) (timeRange : TimeRange) (now : Z)
    (dailyData : list DailyData.t) :
  filterDaily host timeRange now (filterDaily host timeRange now dailyData)
  = filterDaily host timeRange now dailyData.
Proof. apply filter_idem. Qed.

Lemma filterSessions_idem (host : Host) (timeRange : TimeRange) (now : Z)
    (sessions : list JobSession.t) :
  filterSessions host timeRange now (filterSessions host timeRange now sessions)
  = filterSessions host timeRange now sessions.
Proof. apply filter_idem. Qed.

(** C1. For each of the four granularities the window starts 30 days, 12
    weeks, 12 months or 5 years before [now]; the daily records and the
    sessions that are kept are exactly those whose [start_date] parses to a
    time in the window, bounds included, in their order and as often as
    they occur; a record whose date does not parse is kept in neither; and
    the result is computed from the kept records alone. *)
Theorem window_filter_exact (host : Host) (now : Z)
    (dailyData : list DailyData.t) (sessions : list JobSession.t)
    (timeRange : TimeRange) :
  (startDate host daily now = subDays host now 30
   /\ startDate host weekly now = subWeeks host now 12
   /\ startDate host monthly now = subMonths host now 12
   /\ startDate host yearly now = subYears host now 5)
  /\ (forall item : DailyData.t,
        In item (filterDaily host timeRange now dailyData)
        <-> In item dailyData
            /\ in_window host timeRange now (DailyData.start_date item))
  /\ (forall session : JobSession.t,
        In session (filterSessions host timeRange now sessions)
        <-> In session sessions
            /\ in_window host timeRange now (JobSession.start_date session))
  /\ (exists (keepDaily : DailyData.t -> bool)
             (keepSession : JobSession.t -> bool),
        filterDaily host timeRange now dailyData
        = List.filter keepDaily dailyData
        /\ filterSessions host timeRange now sessions
           = List.filter keepSession sessions
        /\ (forall item : DailyData.t,
              keepDaily item = true
              <-> in_window host timeRange now (DailyData.start_date item))
        /\ (forall session : JobSession.t,
              keepSession session = true
              <-> in_window host timeRange now
                    (JobSession.start_date session)))
  /\ (forall item : DailyData.t,
        parseISO_field host (DailyData.start_date item) = None ->
        ~ In item (filterDaily host timeRange now dailyData))
  /\ (forall session : JobSession.t,
        parseISO_field host (JobSession.start_date session) = None ->
        ~ In session (filterSessions host timeRange now sessions))
  /\ processDataForTimeRange host now dailyData sessions timeRange
     = processDataForTimeRange host now
         (filterDaily host timeRange now dailyData)
         (filterSessions host timeRange now sessions) timeRange.
Proof.
  assert (forall item : DailyData.t,
            In item (filterDaily host timeRange now dailyData)
            <-> In item dailyData
                /\ in_window host timeRange now (DailyData.start_date item))
    as Hdaily.
  { intros item. unfold filterDaily. rewrite filter_In.
    now rewrite inWindow_spec. }
  assert (forall session : JobSession.t,
            In session (filterSessions host timeRange now sessions)
            <-> In session sessions
                /\ in_window host timeRange now (JobSession.start_date session))
    as Hsessions.
  { intros session. unfold filterSessions. rewrite filter_In.
    now rewrite inWindow_spec. }
  split; [repeat split |].
  split; [exact Hdaily |]. split; [exact Hsessions |].
  split; [| split; [| split]].
  - exists (fun item => inWindow host timeRange now (DailyData.start_date item)),
      (fun session =>
         inWindow host timeRange now (JobSession.start_date session)).
    repeat split; try (intros H; now apply inWindow_spec).
  - intros item Hnone Hin. apply Hdaily in Hin.
    destruct Hin as [_ [t [Ht _]]]. congruence.
  - intros session Hnone Hin. apply Hsessions in Hin.
    destruct Hin as [_ [t [Ht _]]]. congruence.
  - unfold processDataForTimeRange.
    now rewrite filterDaily_idem, filterSessions_idem.
Qed.

Lemma window_filter_exact_witness :
  In (Sample.day "2024-03-10" 10 9 2)
    (filterDaily Utc.host daily Sample.now
       [Sample.day "2024-03-10" 10 9 2; Sample.day "2023-03-10" 4 4 1;
        Sample.day "10 March" 4 4 1])
  /\ ~ In (Sample.day "10 March" 4 4 1)
       (filterDaily Utc.host daily Sample.now
          [Sample.day "2024-03-10" 10 9 2; Sample.day "2023-03-10" 4 4 1;
           Sample.day "10 March" 4 4 1]).
Proof.
  pose proof (window_filter_exact Utc.host Sample.now
                [Sample.day "2024-03-10" 10 9 2; Sample.day "2023-03-10" 4 4 1;
                 Sample.day "10 March" 4 4 1] [] daily)
    as [_ [Hin [_ [_ [Hout _]]]]].
  split.
  - apply Hin. split; [now left |].
    exists 1710028800000. split; [reflexivity | vm_compute; split; discriminate].
  - apply Hout. reflexivity.
Defined.

(** C7. On empty inputs every granularity gives zero totals, an empty
    chart series, an empty material breakdown, no recent session and peak
    hour 9; the function is total, so nothing is raised. *)
Theorem empty_input_defaults (host : Host) (now : Z) (timeRange : TimeRange) :
  processDataForTimeRange host now [] [] timeRange
  = {| Result.totalJobs := 0;
       Result.successRate := 0%float;
       Result.utilizationHours := 0%float;
       Result.materialTypes := 0;
       Result.avgDuration := 0%float;
       Result.peakHour := 9;
       Result.errorCount := 0;
       Result.chartData := [];
       Result.materialBreakdown := [];
       Result.recentSessions := [] |}.
Proof. reflexivity. Qed.

(** ** The time of the call *)

(** C6, as the code has it: the result depends on the clock reading, and
    only through the records the window keeps. Two calls on the same
    inputs whose clock readings keep the same records give equal results;
    in particular two calls at the same instant do. *)
Theorem same_window_same_result (host : Host) (now1 now2 : Z)
    (dailyData : list DailyData.t) (sessions : list JobSession.t)
    (timeRange : TimeRange) :
  (forall item : DailyData.t, In item dailyData ->
     inWindow host timeRange now1 (DailyData.start_date item)
     = inWindow host timeRange now2 (DailyData.start_date item)) ->
  (forall session : JobSession.t, In session sessions ->
     inWindow host timeRange now1 (JobSession.start_date session)
     = inWindow host timeRange now2 (JobSession.start_date session)) ->
  processDataForTimeRange host now1 dailyData sessions timeRange
  = processDataForTimeRange host now2 dailyData sessions timeRange.
Proof.
  intros Hdaily Hsessions. unfold processDataForTimeRange.
  assert (filterDaily host timeRange now1 dailyData
          = filterDaily host timeRange now2 dailyData) as ->.
  { unfold filterDaily. now apply filter_ext_in. }
  assert (filterSessions host timeRange now1 sessions
          = filterSessions host timeRange now2 sessions) as ->.
  { unfold filterSessions. now apply filter_ext_in. }
  reflexivity.
Qed.

Lemma same_window_same_result_witness :
  processDataForTimeRange Utc.host Sample.now
    [Sample.day "2024-03-10" 10 9 2]
    [Sample.session "2024-03-10" 9 None "Completed"] daily
  = processDataForTimeRange Utc.host (Sample.now + 1000)
      [Sample.day "2024-03-10" 10 9 2]
      [Sample.session "2024-03-10" 9 None "Completed"] daily.
Proof.
  apply same_window_same_result.
  - intros item [<- | []]. vm_compute. reflexivity.
  - intros session [<- | []]. vm_compute. reflexivity.
Defined.

(** C6, as stated, fails: the same inputs at two instants three months
    apart give different results. *)
Lemma clock_changes_result :
  processDataForTimeRange Utc.host Sample.now
    [Sample.day "2024-03-10" 10 9 2] [] daily
  <> processDataForTimeRange Utc.host Sample.later
       [Sample.day "2024-03-10" 10 9 2] [] daily.
Proof.
  intros H. apply (f_equal Result.chartData) in H.
  vm_compute in H. discriminate H.
Qed.

(** ** [Map] as an association list *)

Section MapFacts.
Context {K V : Type} `{EqDecision K}.

Lemma get_tabulate (f : K -> V) (keys : list K) (k : K) :
  In k keys -> JsMap.get k (tabulate f keys) = Some (f k).
Proof.
  induction keys as [|x t IH]; simpl; [tauto |].
  intros Hin. destruct (decide (k = x)) as [-> | Hne]; [reflexivity |].
  apply IH. destruct Hin; congruence.
Qed.

Lemma get_tabulate_None (f : K -> V) (keys : list K) (k : K) :
  ~ In k keys -> JsMap.get k (tabulate f keys) = None.
Proof.
  induction keys as [|x t IH]; simpl; [reflexivity |].
  intros Hin. destruct (decide (k = x)) as [-> | Hne]; [tauto |].
  apply IH. tauto.
Qed.

Lemma set_tabulate_new (f : K -> V) (keys : list K) (k : K) (v : V) :
  ~ In k keys ->
  JsMap.set k v (tabulate f keys) = (tabulate f keys ++ [(k, v)])%list.
Proof.
  induction keys as [|x t IH]; simpl; [reflexivity |].
  intros Hin. destruct (decide (k = x)) as [-> | Hne]; [tauto |].
  rewrite IH by tauto. reflexivity.
Qed.

Lemma set_tabulate_old (f : K -> V) (keys : list K) (k : K) (v : V) :
  List.NoDup keys -> In k keys ->
  JsMap.set k v (tabulate f keys)
  = tabulate (fun x => if decide (x = k) then v else f x) keys.
Proof.
  induction keys as [|x t IH]; simpl; [tauto |].
  intros Hnd Hin. inversion Hnd as [|? ? Hx Ht]; subst.
  destruct (decide (k = x)) as [-> | Hne].
  - rewrite decide_True by reflexivity. f_equal.
    unfold tabulate. apply map_ext_in. intros y Hy.
    rewrite decide_False; [reflexivity | intros ->; tauto].
  - rewrite decide_False by congruence. f_equal.
    apply IH; [assumption |]. destruct Hin; congruence.
Qed.

Lemma tabulate_ext (f g : K -> V) (keys : list K) :
  (forall k : K, In k keys -> f k = g k) -> tabulate f keys = tabulate g keys.
Proof.
  intros Hfg. unfold tabulate. apply map_ext_in. intros k Hk.
  now rewrite Hfg.
Qed.

Lemma keys_tabulate (f : K -> V) (keys : list K) :
  JsMap.keys (tabulate f keys) = keys.
Proof.
  unfold JsMap.keys, tabulate. rewrite map_map. simpl. apply map_id.
Qed.

End MapFacts.

(** ** First appearances and counts *)

Section CountFacts.
Context {K : Type} `{EqDecision K}.

Lemma occurrences_nil (k : K) : occurrences k [] = 0.
Proof. reflexivity. Qed.

Lemma occurrences_cons (k x : K) (l : list K) :
  occurrences k (x :: l)
  = (if decide (x = k) then 1 else 0) + occurrences k l.
Proof.
  unfold occurrences. simpl.
  destruct (decide (x = k)) as [-> | Hne].
  - rewrite bool_decide_eq_true_2 by reflexivity. simpl length. lia.
  - rewrite bool_decide_eq_false_2 by assumption. lia.
Qed.

Lemma occurrences_app (k : K) (l1 l2 : list K) :
  occurrences k (l1 ++ l2) = occurrences k l1 + occurrences k l2.
Proof.
  induction l1 as [|x t IH]; simpl app.
  - rewrite occurrences_nil. lia.
  - rewrite !occurrences_cons, IH. lia.
Qed.

Lemma occurrences_nonneg (k : K) (l : list K) : 0 <= occurrences k l.
Proof. unfold occurrences. lia. Qed.

Lemma occurrences_pos (k : K) (l : list K) : 0 < occurrences k l <-> In k l.
Proof.
  induction l as [|x t IH].
  - rewrite occurrences_nil. simpl. split; [lia | tauto].
  - rewrite occurrences_cons. simpl.
    pose proof (occurrences_nonneg k t).
    destruct (decide (x = k)) as [-> | Hne].
    + split; [now left | lia].
    + split.
      * intros Hpos. right. apply IH. lia.
      * intros [Heq | Hin]; [congruence |]. apply IH in Hin. lia.
Qed.

Lemma occurrences_zero (k : K) (l : list K) : occurrences k l = 0 <-> ~ In k l.
Proof.
  rewrite <- occurrences_pos. pose proof (occurrences_nonneg k l). lia.
Qed.

Lemma occurrences_perm (k : K) (l l' : list K) :
  Permutation l l' -> occurrences k l = occurrences k l'.
Proof.
  induction 1 as [| x l l' _ IH | x y l | l l' l'' _ IH1 _ IH2].
  - reflexivity.
  - rewrite !occurrences_cons. lia.
  - rewrite !occurrences_cons. lia.
  - congruence.
Qed.

Lemma distinct_In (k : K) (l : list K) : In k (distinct l) <-> In k l.
Proof.
  induction l as [|x t IH]; simpl; [tauto |].
  rewrite filter_In, IH.
  destruct (decide (k = x)) as [-> | Hne].
  - tauto.
  - rewrite bool_decide_eq_false_2 by assumption. simpl.
    split; [intros [Heq | [Hin _]] | intros [Heq | Hin]]; auto; congruence.
Qed.

Lemma NoDup_filter_bool (f : K -> bool) (l : list K) :
  List.NoDup l -> List.NoDup (List.filter f l).
Proof.
  induction 1 as [| x l Hx Hl IH]; simpl; [constructor |].
  destruct (f x); [| assumption].
  constructor; [| assumption]. rewrite filter_In. tauto.
Qed.

Lemma distinct_NoDup (l : list K) : List.NoDup (distinct l).
Proof.
  induction l as [|x t IH]; simpl; constructor.
  - rewrite filter_In. intros [_ Hx].
    rewrite bool_decide_eq_true_2 in Hx by reflexivity. discriminate.
  - now apply NoDup_filter_bool.
Qed.

Lemma distinct_snoc_new (l : list K) (x : K) :
  ~ In x l -> distinct (l ++ [x]) = (distinct l ++ [x])%list.
Proof.
  induction l as [|y t IH]; simpl; [reflexivity |].
  intros Hnin. rewrite IH by tauto. rewrite List.filter_app. simpl.
  rewrite bool_decide_eq_false_2 by (intros ->; tauto). reflexivity.
Qed.

Lemma distinct_snoc_old (l : list K) (x : K) :
  In x l -> distinct (l ++ [x]) = distinct l.
Proof.
  induction l as [|y t IH]; simpl; [tauto |].
  intros Hin.
  destruct (in_dec (fun a b => decide (a = b)) x t) as [Ht | Ht].
  - now rewrite IH.
  - destruct Hin as [-> | Hin]; [| tauto].
    rewrite distinct_snoc_new by assumption. rewrite List.filter_app. simpl.
    rewrite bool_decide_eq_true_2 by reflexivity. simpl.
    now rewrite app_nil_r.
Qed.

(** One pass of the counting loop gives, for each key in order of first
    appearance, the number of its occurrences. *)
Lemma tally_spec (l : list K) :
  tally l = tabulate (fun k => occurrences k l) (distinct l).
Proof.
  induction l as [|x l IH] using rev_ind; [reflexivity |].
  unfold tally in *. rewrite fold_left_app. simpl. rewrite IH.
  unfold tally_step.
  destruct (in_dec (fun a b => decide (a = b)) x l) as [Hin | Hnin].
  - rewrite distinct_snoc_old by assumption.
    rewrite get_tabulate by now apply distinct_In.
    rewrite set_tabulate_old;
      [| apply distinct_NoDup | now apply distinct_In].
    apply tabulate_ext. intros k Hk. rewrite occurrences_app.
    rewrite occurrences_cons, occurrences_nil. simpl or0.
    destruct (decide (k = x)) as [-> | Hne].
    + rewrite decide_True by reflexivity. lia.
    + rewrite decide_False by congruence. lia.
  - rewrite distinct_snoc_new by assumption.
    rewrite get_tabulate_None by now rewrite distinct_In.
    rewrite set_tabulate_new by now rewrite distinct_In.
    unfold tabulate. rewrite map_app. simpl. f_equal.
    + apply map_ext_in. intros k Hk. rewrite occurrences_app.
      rewrite occurrences_cons, occurrences_nil.
      rewrite decide_False; [f_equal; lia |].
      intros ->. rewrite distinct_In in Hk. tauto.
    + rewrite occurrences_app, occurrences_cons, occurrences_nil.
      rewrite decide_True by reflexivity.
      apply occurrences_zero in Hnin. rewrite Hnin. reflexivity.
Qed.

End CountFacts.

Lemma countHour_tally (l : list JobSession.t) (m : list (Z * Z)) :
  fold_left countHour l m = fold_left tally_step (hoursOf l) m.
Proof.
  revert m. induction l as [|s t IH]; intros m; simpl; [reflexivity |].
  unfold countHour at 2. destruct (JobSession.start_hour s); simpl; apply IH.
Qed.

Lemma countMaterial_tally (l : list JobSession.t) (m : list (string * Z)) :
  fold_left countMaterial l m = fold_left tally_step (materialsOf l) m.
Proof.
  revert m. induction l as [|s t IH]; intros m; simpl; [reflexivity |].
  unfold countMaterial at 2. destruct (JobSession.material_type s) as [mt |].
  - simpl. destruct (String.eqb mt EmptyString); simpl; apply IH.
  - apply IH.
Qed.

Lemma hoursOf_perm (l l' : list JobSession.t) :
  Permutation l l' -> Permutation (hoursOf l) (hoursOf l').
Proof.
  induction 1 as [| x l l' _ IH | x y l | l l' l'' _ IH1 _ IH2]; simpl.
  - reflexivity.
  - destruct (JobSession.start_hour x); [now constructor | assumption].
  - destruct (JobSession.start_hour x), (JobSession.start_hour y);
      try reflexivity. apply perm_swap.
  - now transitivity (hoursOf l').
Qed.

Lemma count_status_filter (name : string) (l : list JobSession.t) :
  Z.of_nat (length (List.filter (statusIs name) l)) = count_status name l.
Proof.
  induction l as [|s t IH]; simpl; [reflexivity |].
  unfold statusIs at 1.
  destruct (decide (JobSession.status s = Some name)) as [Heq | Hne].
  - rewrite Heq, String.eqb_refl. simpl length. lia.
  - destruct (JobSession.status s) as [x |]; [| lia].
    destruct (String.eqb x name) eqn:E; [| lia].
    apply String.eqb_eq in E. congruence.
Qed.

Lemma count_status_perm (name : string) (l l' : list JobSession.t) :
  Permutation l l' -> count_status name l = count_status name l'.
Proof.
  induction 1 as [| x l l' _ IH | x y l | l l' l'' _ IH1 _ IH2]; simpl;
    try lia.
Qed.

(** ** Sorting by a descending key *)

Section Descending.
Context {A : Type} (key : A -> Z).

Let compare (a b : A) : Z := key b - key a.

Lemma insert_descending (x : A) (l : list A) :
  StronglySorted (fun a b => key b <= key a) l ->
  StronglySorted (fun a b => key b <= key a) (JsArray.insert compare x l).
Proof.
  induction l as [|y t IH]; intros Hs; simpl.
  - constructor; constructor.
  - inversion Hs as [|? ? Ht Hy]; subst. unfold compare at 1.
    destruct (0 <? key y - key x) eqn:E.
    + apply Z.ltb_lt in E. constructor; [now apply IH |].
      apply List.Forall_forall. intros z Hz.
      apply (Permutation_in _ (insert_perm compare x t)) in Hz.
      destruct Hz as [<- | Hz]; [lia |].
      rewrite List.Forall_forall in Hy. now apply Hy.
    + apply Z.ltb_ge in E. constructor; [assumption |].
      constructor; [lia |].
      apply List.Forall_forall. intros z Hz.
      rewrite List.Forall_forall in Hy. specialize (Hy z Hz). lia.
Qed.

Lemma sort_descending (l : list A) :
  StronglySorted (fun a b => key b <= key a) (JsArray.sort compare l).
Proof.
  induction l as [|x t IH]; simpl; [constructor |].
  now apply insert_descending.
Qed.

(** Elements of equal key are never exchanged. *)
Lemma insert_stable (c : Z) (x : A) (l : list A) :
  List.filter (fun e => key e =? c) (JsArray.insert compare x l)
  = List.filter (fun e => key e =? c) (x :: l).
Proof.
  induction l as [|y t IH]; [reflexivity |].
  cbn [JsArray.insert]. unfold compare at 1.
  destruct (0 <? key y - key x) eqn:E; [| reflexivity].
  apply Z.ltb_lt in E. cbn [List.filter] in *. rewrite IH.
  destruct (key y =? c) eqn:Ey, (key x =? c) eqn:Ex; try reflexivity.
  apply Z.eqb_eq in Ey, Ex. lia.
Qed.

Lemma sort_stable (c : Z) (l : list A) :
  List.filter (fun e => key e =? c) (JsArray.sort compare l)
  = List.filter (fun e => key e =? c) l.
Proof.
  induction l as [|x t IH]; [reflexivity |].
  cbn [JsArray.sort fold_right]. rewrite insert_stable.
  cbn [List.filter]. fold (JsArray.sort compare t). now rewrite IH.
Qed.

End Descending.

(** ** Summary over the sessions *)

(** C4, as the code has it. The session-level success rate is 0 when no
    session is kept and otherwise the Number (completed / total) * 100, the
    quotient first and each operation rounded to a double, with completed
    the number of kept sessions whose status is Completed and total the
    number of kept sessions; no further rounding is applied. The error
    count is the number of kept sessions whose status is Incomplete; no
    other status counts for either. Two kept sessions, one Completed and
    one Incomplete, give error count 1 and success rate 50. *)
Theorem session_summary (host : Host) (now : Z)
    (dailyData : list DailyData.t) (timeRange : TimeRange) :
  (forall sessions : list JobSession.t,
     let kept := filterSessions host timeRange now sessions in
     let result :=
       processDataForTimeRange host now dailyData sessions timeRange in
     let completed := count_status "Completed" kept in
     let total := Z.of_nat (length kept) in
     Result.totalJobs result = total
     /\ (kept = [] -> Result.successRate result = 0%float)
     /\ (kept <> [] ->
         Result.successRate result
         = (Number.of_Z completed / Number.of_Z total * 100)%float)
     /\ Result.errorCount result = count_status "Incomplete" kept)
  /\ (forall a b : JobSession.t,
        in_window host timeRange now (JobSession.start_date a) ->
        in_window host timeRange now (JobSession.start_date b) ->
        JobSession.status a = Some "Completed" ->
        JobSession.status b = Some "Incomplete" ->
        let result :=
          processDataForTimeRange host now dailyData [a; b] timeRange in
        Result.errorCount result = 1
        /\ Result.successRate result = 50%float).
Proof.
  assert (forall sessions : list JobSession.t,
     let kept := filterSessions host timeRange now sessions in
     let result :=
       processDataForTimeRange host now dailyData sessions timeRange in
     let completed := count_status "Completed" kept in
     let total := Z.of_nat (length kept) in
     Result.totalJobs result = total
     /\ (kept = [] -> Result.successRate result = 0%float)
     /\ (kept <> [] ->
         Result.successRate result
         = (Number.of_Z completed / Number.of_Z total * 100)%float)
     /\ Result.errorCount result = count_status "Incomplete" kept) as Hall.
  { intros sessions kept result completed total. subst result completed total.
    unfold processDataForTimeRange. cbn [Result.totalJobs Result.successRate
      Result.errorCount]. fold kept.
    split; [reflexivity |]. split; [| split].
    - intros ->. reflexivity.
    - intros Hne.
      assert ((0 <? Z.of_nat (length kept)) = true) as ->.
      { apply Z.ltb_lt. destruct kept; [congruence | simpl; lia]. }
      now rewrite count_status_filter.
    - rewrite count_status_filter. apply count_status_perm, sort_perm. }
  split; [exact Hall |].
  intros a b Ha Hb Hsa Hsb result.
  destruct (Hall [a; b]) as [_ [_ [Hrate Herr]]].
  assert (filterSessions host timeRange now [a; b] = [a; b]) as Hkept.
  { apply inWindow_spec in Ha. apply inWindow_spec in Hb.
    unfold filterSessions. simpl.
    now rewrite Ha, Hb. }
  rewrite Hkept in Hrate, Herr. subst result. split.
  - rewrite Herr. simpl. rewrite Hsa, Hsb.
    rewrite decide_False by discriminate.
    rewrite decide_True by reflexivity. reflexivity.
  - rewrite Hrate by discriminate. simpl count_status. rewrite Hsa, Hsb.
    rewrite decide_True by reflexivity.
    rewrite decide_False by discriminate. reflexivity.
Qed.

Lemma session_summary_witness :
  Result.errorCount
    (processDataForTimeRange Utc.host Sample.now []
       [Sample.session "2024-03-10" 9 None "Completed";
        Sample.session "2024-03-11" 14 None "Incomplete"] daily) = 1
  /\ Result.successRate
       (processDataForTimeRange Utc.host Sample.now []
          [Sample.session "2024-03-10" 9 None "Completed";
           Sample.session "2024-03-11" 14 None "Incomplete"] daily)
     = 50%float.
Proof.
  apply (proj2 (session_summary Utc.host Sample.now [] daily)).
  - exists 1710028800000. split; [reflexivity | vm_compute; split; discriminate].
  - exists 1710115200000. split; [reflexivity | vm_compute; split; discriminate].
  - reflexivity.
  - reflexivity.
Defined.

(** C4, as stated, fails. Of 25 kept sessions 7 are Completed: 100 times 7
    over 25 is 28, and the code, which divides first, answers the next
    Number above 28. *)
Lemma seven_of_twenty_five :
  let sessions :=
    (repeat (Sample.session "2024-03-10" 9 None "Completed") 7
     ++ repeat (Sample.session "2024-03-11" 9 None "In Progress") 18)%list in
  let kept := filterSessions Utc.host daily Sample.now sessions in
  let result :=
    processDataForTimeRange Utc.host Sample.now [] sessions daily in
  Z.of_nat (length kept) = 25
  /\ count_status "Completed" kept = 7
  /\ (100 * inject_Z 7 / inject_Z 25 == 28)%Q
  /\ (exists q : Q, Number.toQ (Number.of_Z 28) = Some q /\ (q == 28)%Q)
  /\ Result.successRate result
     = Number.of_Q (28000000000000004 # 1000000000000000)
  /\ Result.successRate result <> Number.of_Z 28
  /\ exists q : Q,
       Number.toQ (Result.successRate result) = Some q /\ (28 < q)%Q.
Proof.
  cbv zeta. split; [vm_compute; reflexivity |].
  split; [vm_compute; reflexivity |].
  split; [vm_compute; reflexivity |].
  split; [eexists; split; vm_compute; reflexivity |].
  split; [vm_compute; reflexivity |].
  split.
  - intros H. apply (f_equal Prim2SF) in H. vm_compute in H. discriminate.
  - eexists. split; [vm_compute; reflexivity | vm_compute; reflexivity].
Qed.

(** ** The peak hour *)

Lemma or0_get_tally (hours : list Z) (h : Z) :
  or0 (JsMap.get h (tally hours)) = occurrences h hours.
Proof.
  rewrite tally_spec.
  destruct (in_dec Z.eq_dec h hours) as [Hin | Hnin].
  - rewrite get_tabulate by now apply distinct_In. reflexivity.
  - rewrite get_tabulate_None by now rewrite distinct_In.
    apply occurrences_zero in Hnin. now rewrite Hnin.
Qed.

(** The [reduce] only ever reads the hour of its accumulator. *)
Lemma peak_fold (count : Z -> Z) (whole : list (Z * Z)) (hours : list Z) :
  (forall h : Z, or0 (JsMap.get h whole) = count h) ->
  forall acc : Z * Z,
    fst (fold_left
           (fun (max : Z * Z) (entry : Z * Z) =>
              let '(hour, n) := entry in
              if or0 (JsMap.get (fst max) whole) <? n then (hour, n) else max)
           (tabulate count hours) acc)
    = fold_left (fun a h => if count a <? count h then h else a)
        hours (fst acc).
Proof.
  intros Hget. induction hours as [|h t IH]; intros acc; simpl; [reflexivity |].
  rewrite IH. f_equal. rewrite Hget.
  destruct (count (fst acc) <? count h); reflexivity.
Qed.

(** A left-to-right scan that replaces its candidate on a strictly greater
    count ends on a maximum: the start if nothing beats it, and else the
    first element that reaches the greatest count. *)
Lemma scan_max (count : Z -> Z) (hours : list Z) :
  forall start : Z,
    let best :=
      fold_left (fun a h => if count a <? count h then h else a) hours start in
    (forall h : Z, In h hours -> count h <= count best)
    /\ count start <= count best
    /\ (best = start
        \/ (count start < count best
            /\ exists pre post : list Z,
                 hours = (pre ++ best :: post)%list
                 /\ forall h : Z, In h pre -> count h < count best)).
Proof.
  induction hours as [|x t IH]; intros start; simpl.
  - split; [tauto |]. split; [lia | now left].
  - destruct (count start <? count x) eqn:E.
    + apply Z.ltb_lt in E.
      destruct (IH x) as [Hmax [Hstart Hfirst]].
      split; [| split].
      * intros h [<- | Hin]; [assumption | now apply Hmax].
      * lia.
      * right. split; [lia |].
        destruct Hfirst as [-> | [Hlt [pre [post [Ht Hpre]]]]].
        -- exists [], t. split; [reflexivity | intros h []].
        -- exists (x :: pre), post. split; [simpl; now rewrite <- Ht |].
           intros h [<- | Hin]; [assumption | now apply Hpre].
    + apply Z.ltb_ge in E.
      destruct (IH start) as [Hmax [Hstart Hfirst]].
      split; [| split].
      * intros h [<- | Hin]; [lia | now apply Hmax].
      * assumption.
      * destruct Hfirst as [-> | [Hlt [pre [post [Ht Hpre]]]]]; [now left |].
        right. split; [assumption |].
        exists (x :: pre), post. split; [simpl; now rewrite <- Ht |].
        intros h [<- | Hin]; [lia | now apply Hpre].
Qed.

Lemma peakOf_tally (hours : list Z) :
  peakOf (tally hours)
  = fold_left
      (fun a h => if occurrences a hours <? occurrences h hours then h else a)
      (distinct hours) 9.
Proof.
  unfold peakOf.
  pose proof (peak_fold (fun h => occurrences h hours) (tally hours)
                (distinct hours) (or0_get_tally hours) (9, 0)) as Hfold.
  rewrite <- tally_spec in Hfold. exact Hfold.
Qed.

(** The in-place sort of the recent sessions, when every session has a
    time. *)
Lemma sort_recent_first (host : Host) (kept : list JobSession.t) :
  Forall (fun s => sessionTime host s <> None) kept ->
  recent_first host kept (JsArray.sort (compareRecent host) kept).
Proof.
  intros Htimes. rewrite List.Forall_forall in Htimes.
  set (key := fun s : JobSession.t => or0 (sessionTime host s)).
  assert (JsArray.sort (compareRecent host) kept
          = JsArray.sort (fun a b => key b - key a) kept) as ->.
  { apply sort_ext_in. intros a b Ha Hb. unfold compareRecent, key.
    destruct (sessionTime host a) eqn:Ea; [| now apply Htimes in Ha].
    destruct (sessionTime host b) eqn:Eb; [| now apply Htimes in Hb].
    reflexivity. }
  assert (forall (time : Z) (l : list JobSession.t),
            (forall s, In s l -> In s kept) ->
            List.filter (timed host time) l
            = List.filter (fun s => key s =? time) l) as Htimed.
  { intros time l Hsub. apply filter_ext_in. intros s Hs.
    unfold timed, key. apply Hsub, Htimes in Hs.
    destruct (sessionTime host s); [reflexivity | congruence]. }
  split; [apply sort_perm | split].
  - eapply StronglySorted_weaken; [| apply (sort_descending key)].
    intros a b Hle ta tb Ha Hb. unfold key in Hle.
    rewrite Ha, Hb in Hle. exact Hle.
  - intros time. rewrite !Htimed.
    + apply (sort_stable key).
    + tauto.
    + intros s Hs. now apply sort_In in Hs.
Qed.

(** C5, as the code has it. With [hours] the hours of the kept sessions:
    the peak hour is an hour of the highest count; it is 9 when there is
    no hour, and whenever no hour has a higher count than hour 9;
    otherwise it is, among the hours of highest count, the first to appear
    in the order the loop reads the sessions. That order is the one the
    in-place sort of the recent sessions leaves: when every kept session
    has a time, from the most recent session on, sessions of one time in
    input order. Hours 9, 9, 10 give 9. *)
Theorem peak_hour_rule (host : Host) (now : Z) (dailyData : list DailyData.t)
    (sessions : list JobSession.t) (timeRange : TimeRange) :
  let kept := filterSessions host timeRange now sessions in
  let hours := hoursOf kept in
  let peak :=
    Result.peakHour
      (processDataForTimeRange host now dailyData sessions timeRange) in
  (forall h : Z, occurrences h hours <= occurrences peak hours)
  /\ (hours = [] -> peak = 9)
  /\ (hours <> [] -> In peak hours)
  /\ ((forall h : Z, occurrences h hours <= occurrences 9 hours) -> peak = 9)
  /\ (Forall (fun s => sessionTime host s <> None) kept ->
      let order := JsArray.sort (compareRecent host) kept in
      recent_first host kept order
      /\ (occurrences 9 hours < occurrences peak hours ->
          exists pre post : list Z,
            distinct (hoursOf order) = (pre ++ peak :: post)%list
            /\ forall h : Z,
                 In h pre -> occurrences h hours < occurrences peak hours))
  /\ (hours = [9; 9; 10] -> peak = 9).
Proof.
  intros kept hours peak.
  set (sorted := hoursOf (JsArray.sort (compareRecent host) kept)).
  assert (Permutation sorted hours) as Hperm
    by apply hoursOf_perm, sort_perm.
  assert (forall h : Z, occurrences h sorted = occurrences h hours) as Hocc.
  { intros h. now apply occurrences_perm. }
  assert (peak
          = fold_left
              (fun a h =>
                 if occurrences a sorted <? occurrences h sorted then h else a)
              (distinct sorted) 9) as Hpeak.
  { subst peak. unfold processDataForTimeRange. cbn [Result.peakHour].
    fold kept. rewrite countHour_tally. fold sorted. apply peakOf_tally. }
  destruct (scan_max (fun h => occurrences h sorted) (distinct sorted) 9)
    as [Hmax [Hnine Hfirst]].
  cbv zeta in Hmax, Hnine, Hfirst. rewrite <- Hpeak in Hmax, Hnine, Hfirst.
  assert (forall h : Z, occurrences h hours <= occurrences peak hours) as Hall.
  { intros h. rewrite <- !Hocc.
    destruct (in_dec Z.eq_dec h sorted) as [Hin | Hnin].
    - apply Hmax. now apply distinct_In.
    - apply occurrences_zero in Hnin. rewrite Hnin.
      apply occurrences_nonneg. }
  assert ((forall h : Z, occurrences h hours <= occurrences 9 hours) ->
          peak = 9) as Hties.
  { intros Hle. destruct Hfirst as [-> | [Hlt _]]; [reflexivity |].
    specialize (Hle peak). rewrite !Hocc in Hlt. lia. }
  split; [exact Hall |]. split; [| split; [| split; [exact Hties | split]]].
  - intros Hnil. rewrite Hnil in Hperm. apply Permutation_sym in Hperm.
    apply Permutation_nil in Hperm. rewrite Hpeak, Hperm. reflexivity.
  - intros Hne. destruct Hfirst as [Heq | [_ [pre [post [Hd _]]]]].
    + destruct hours as [|h t] eqn:Eh; [congruence |]. rewrite <- Eh in *.
      apply occurrences_pos.
      assert (0 < occurrences h hours) as Hpos.
      { apply occurrences_pos. rewrite Eh. now left. }
      specialize (Hall h). lia.
    + apply (Permutation_in _ Hperm). apply distinct_In. rewrite Hd.
      apply in_elt.
  - intros Htimes order. split; [now apply sort_recent_first |].
    intros Hlt. destruct Hfirst as [Heq | [_ [pre [post [Hd Hpre]]]]].
    + rewrite Heq in Hlt. lia.
    + exists pre, post. split; [exact Hd |].
      intros h Hh. rewrite <- !Hocc. now apply Hpre.
  - intros Hkept. apply Hties. intros h. rewrite Hkept.
    rewrite !occurrences_cons, !occurrences_nil.
    repeat destruct (decide _); lia.
Qed.

Lemma peak_hour_rule_witness :
  Result.peakHour
    (processDataForTimeRange Utc.host Sample.now []
       [Sample.session "2024-03-10" 9 None "Completed";
        Sample.session "2024-03-12" 9 None "Completed";
        Sample.session "2024-03-11" 10 None "Completed"] daily) = 9
  /\ recent_first Utc.host
       (filterSessions Utc.host daily Sample.now
          [Sample.session "2024-03-10" 9 None "Completed";
           Sample.session "2024-03-12" 9 None "Completed";
           Sample.session "2024-03-11" 10 None "Completed"])
       (JsArray.sort (compareRecent Utc.host)
          (filterSessions Utc.host daily Sample.now
             [Sample.session "2024-03-10" 9 None "Completed";
              Sample.session "2024-03-12" 9 None "Completed";
              Sample.session "2024-03-11" 10 None "Completed"])).
Proof.
  pose proof (peak_hour_rule Utc.host Sample.now []
                [Sample.session "2024-03-10" 9 None "Completed";
                 Sample.session "2024-03-12" 9 None "Completed";
                 Sample.session "2024-03-11" 10 None "Completed"] daily) as H.
  cbv zeta in H. destruct H as [_ [_ [_ [_ [Horder Hexample]]]]].
  split.
  - apply Hexample. vm_compute. reflexivity.
  - apply Horder. apply List.Forall_forall. intros s Hs. vm_compute in Hs.
    destruct Hs as [<- | [<- | [<- | []]]]; vm_compute; discriminate.
Defined.

(** C5, as stated, fails. Two kept sessions, the first and the more recent
    at hour 10 and the other at hour 9: hour 10 appears first, in the input
    and in the order the loop reads, and the rule of first appearance
    gives 10; the code answers 9. *)
Lemma peak_hour_tie_goes_to_nine :
  let sessions :=
    [Sample.session "2024-03-11" 10 None "Completed";
     Sample.session "2024-03-10" 9 None "Completed"] in
  let kept := filterSessions Utc.host daily Sample.now sessions in
  hoursOf kept = [10; 9]
  /\ hoursOf (JsArray.sort (compareRecent Utc.host) kept) = [10; 9]
  /\ firstAppearancePeak [10; 9] = 10
  /\ Result.peakHour
       (processDataForTimeRange Utc.host Sample.now [] sessions daily) = 9
  /\ Result.peakHour
       (processDataForTimeRange Utc.host Sample.now [] sessions daily)
     <> firstAppearancePeak
          (hoursOf (JsArray.sort (compareRecent Utc.host) kept)).
Proof.
  vm_compute. repeat split; discriminate.
Qed.

(** ** The material breakdown *)

Lemma filter_map_swap {A B : Type} (f : B -> bool) (g : A -> B) (l : list A) :
  List.filter f (List.map g l)
  = List.map g (List.filter (fun x => f (g x)) l).
Proof.
  induction l as [|x t IH]; simpl; [reflexivity |].
  destruct (f (g x)); simpl; now rewrite IH.
Qed.





Lemma materialCounts_spec (l : list JobSession.t) :
  fold_left countMaterial l []
  = tabulate (fun m => occurrences m (materialsOf l)) (distinct (materialsOf l)).
Proof. rewrite countMaterial_tally. apply (tally_spec (materialsOf l)). Qed.



(** ** The record mappers *)

Lemma includes_In (l : list string) (x : string) :
  Str.includes l x = true <-> In x l.
Proof.
  unfold Str.includes. rewrite existsb_exists. split.
  - intros [y [Hy Heq]]. apply String.eqb_eq in Heq. now subst.
  - intros Hin. exists x. split; [assumption | apply String.eqb_refl].
Qed.

Lemma includes_not_In (l : list string) (x : string) :
  ~ In x l -> Str.includes l x = false.
Proof.
  intros Hnin. destruct (Str.includes l x) eqn:E; [| reflexivity].
  apply includes_In in E. tauto.
Qed.

Lemma obj_set_lookup (key : string) (v : value) (obj : gmap string value) :
  key <> "__proto__" -> obj_set key v obj !! key = Some v.
Proof.
  intros Hne. unfold obj_set. rewrite decide_False by assumption.
  apply lookup_insert_eq.
Qed.

Lemma obj_set_lookup_ne (key name : string) (v : value)
    (obj : gmap string value) :
  key <> name -> obj_set key v obj !! name = obj !! name.
Proof.
  intros Hne. unfold obj_set. destruct (decide (key = "__proto__")).
  - reflexivity.
  - now apply lookup_insert_ne.
Qed.

Lemma forEach_from_app {A S : Type} (f : S -> A -> nat -> S) (l1 l2 : list A) :
  forall (index : nat) (s : S),
    JsArray.forEach_from f (l1 ++ l2) index s
    = JsArray.forEach_from f l2 (index + length l1)
        (JsArray.forEach_from f l1 index s).
Proof.
  induction l1 as [|x t IH]; intros index s; simpl.
  - now rewrite Nat.add_0_r.
  - rewrite IH. f_equal. lia.
Qed.

(** Columns with another name leave the property [name] alone. *)
Lemma forEach_other (f : gmap string value -> string -> nat -> gmap string value)
    (name : string) (l : list string) :
  (forall obj header index, Str.trim header <> name ->
     f obj header index !! name = obj !! name) ->
  (forall header, In header l -> Str.trim header <> name) ->
  forall (index : nat) (obj : gmap string value),
    JsArray.forEach_from f l index obj !! name = obj !! name.
Proof.
  intros Hf. induction l as [|x t IH]; intros Hl index obj; simpl.
  - reflexivity.
  - rewrite IH by (intros header Hin; apply Hl; now right).
    apply Hf, Hl. now left.
Qed.

Lemma last_column_split (headers : list string) (name : string) (index : nat) :
  last_column headers name index ->
  exists (pre : list string) (header : string) (post : list string),
    headers = (pre ++ header :: post)%list
    /\ length pre = index
    /\ Str.trim header = name
    /\ forall other : string, In other post -> Str.trim other <> name.
Proof.
  intros [Hat Hlast]. rewrite nth_error_map in Hat.
  destruct (nth_error headers index) as [header |] eqn:E; [| discriminate].
  injection Hat as Htrim.
  apply nth_error_split in E. destruct E as [pre [post [Hsplit Hlen]]].
  exists pre, header, post. repeat split; try assumption.
  intros other Hin Hother. apply In_nth_error in Hin.
  destruct Hin as [n Hn]. apply (Hlast (index + S n)%nat); [lia |].
  rewrite nth_error_map, Hsplit.
  rewrite nth_error_app2 by lia.
  replace (index + S n - length pre)%nat with (S n) by lia.
  simpl. rewrite Hn. simpl. now rewrite Hother.
Qed.

(** The property [name] of the object is what the callback writes at the
    last column of that name. *)
Lemma forEach_last_column
    (f : gmap string value -> string -> nat -> gmap string value)
    (headers : list string) (name : string) (index : nat) :
  (forall obj header index, Str.trim header <> name ->
     f obj header index !! name = obj !! name) ->
  last_column headers name index ->
  exists (obj : gmap string value) (header : string),
    Str.trim header = name
    /\ JsArray.forEach f headers ∅ !! name = f obj header index !! name.
Proof.
  intros Hf Hlast. apply last_column_split in Hlast.
  destruct Hlast as [pre [header [post [-> [Hlen [Htrim Hpost]]]]]].
  exists (JsArray.forEach_from f pre 0 ∅), header. split; [assumption |].
  unfold JsArray.forEach. rewrite forEach_from_app. simpl.
  rewrite (forEach_other f name post Hf Hpost). now rewrite Hlen.
Qed.

Lemma dailyColumn_other (host : Host) (row : list string) (name : string)
    (obj : gmap string value) (header : string) (index : nat) :
  Str.trim header <> name ->
  dailyColumn host row obj header index !! name = obj !! name.
Proof.
  intros Hne. unfold dailyColumn.
  repeat match goal with |- context [if ?c then _ else _] => destruct c end;
    try reflexivity; now apply obj_set_lookup_ne.
Qed.

Lemma sessionColumn_other (host : Host) (row : list string) (name : string)
    (obj : gmap string value) (header : string) (index : nat) :
  Str.trim header <> name ->
  sessionColumn host row obj header index !! name = obj !! name.
Proof.
  intros Hne. unfold sessionColumn.
  repeat match goal with |- context [if ?c then _ else _] => destruct c end;
    now apply obj_set_lookup_ne.
Qed.

(** What the object of a row holds at a column of the header. *)
Lemma column_values (host : Host) (headers row : list string) (name : string)
    (index : nat) :
  last_column headers name index ->
  let raw := cell_value row index in
  (name = "start_date" ->
   dailyObject host headers row !! name = Some (VStr raw))
  /\ (In name daily_int_columns ->
      dailyObject host headers row !! name
      = Some (VInt (match parseInt host raw with
                    | Some n => n
                    | None => 0
                    end)))
  /\ (In name daily_real_columns ->
      dailyObject host headers row !! name
      = Some (VReal (match parseFloat host raw with
                     | Some q => if Number.falsy q then 0%float else q
                     | None => 0%float
                     end)))
  /\ (In name session_int_columns ->
      sessionObject host headers row !! name
      = Some (VInt (match parseInt host raw with
                    | Some n => n
                    | None => 0
                    end)))
  /\ (In name session_real_columns ->
      sessionObject host headers row !! name
      = Some (VReal (match parseFloat host raw with
                     | Some q => if Number.falsy q then 0%float else q
                     | None => 0%float
                     end)))
  /\ (~ In name session_int_columns ->
      ~ In name session_real_columns ->
      name <> "__proto__" ->
      sessionObject host headers row !! name = Some (VStr raw)).
Proof.
  intros Hlast raw.
  destruct (forEach_last_column (dailyColumn host row) headers name index
              (dailyColumn_other host row name) Hlast)
    as [dobj [dheader [Hdtrim Hdaily]]].
  destruct (forEach_last_column (sessionColumn host row) headers name index
              (sessionColumn_other host row name) Hlast)
    as [sobj [sheader [Hstrim Hsession]]].
  unfold dailyObject, sessionObject. rewrite Hdaily, Hsession.
  unfold dailyColumn, sessionColumn. rewrite Hdtrim, Hstrim. fold raw.
  repeat split.
  - intros ->. simpl. now apply obj_set_lookup.
  - intros Hin. simpl in Hin.
    destruct Hin as [<- | [<- | [<- | [<- | []]]]]; simpl;
      now apply obj_set_lookup.
  - intros Hin. simpl in Hin.
    destruct Hin as [<- | [<- | [<- | [<- | []]]]]; simpl;
      now apply obj_set_lookup.
  - intros Hin. simpl in Hin.
    destruct Hin as [<- | [<- | [<- | []]]]; simpl;
      now apply obj_set_lookup.
  - intros Hin. simpl in Hin.
    destruct Hin as [<- | []]; simpl; now apply obj_set_lookup.
  - intros Hint Hreal Hproto.
    rewrite (includes_not_In _ _ Hint), (includes_not_In _ _ Hreal).
    now apply obj_set_lookup.
Qed.

(** C9. The mappers give one record for each data row, in order, whatever
    the cells hold. In the object of a row, a column of the header holds:
    for an integer column the parsed integer, or 0 when the cell does not
    parse; for a real column the parsed Number, or 0 when the cell does not
    parse (a parsed zero of either sign is stored as 0 too); for a string
    column the trimmed cell. The cell of a column the
    row is too short for reads as the empty string: a string column then
    holds the empty string and, the empty string being no number, a number
    column holds 0. (Of two columns of one name the last is the one kept;
    a column that the header does not have gives no field.) *)
Theorem mappers_keep_every_row (host : Host) :
  (forall csvText : string,
     exists (headers : list string) (data : list (list string)),
       parseCSV csvText = headers :: data
       /\ parseDailyData host csvText
          = List.map (fun row => asDailyData (dailyObject host headers row)) data
       /\ parseJobSessions host csvText
          = List.map (fun row => asJobSession (sessionObject host headers row))
              data
       /\ length (parseDailyData host csvText) = length data
       /\ length (parseJobSessions host csvText) = length data)
  /\ (forall (headers row : list string) (name : string) (index : nat),
        last_column headers name index ->
        let raw := cell_value row index in
        (name = "start_date" ->
         dailyObject host headers row !! name = Some (VStr raw))
        /\ (In name daily_int_columns ->
            dailyObject host headers row !! name
            = Some (VInt (match parseInt host raw with
                          | Some n => n
                          | None => 0
                          end)))
        /\ (In name daily_real_columns ->
            dailyObject host headers row !! name
            = Some (VReal (match parseFloat host raw with
                           | Some q => if Number.falsy q then 0%float else q
                           | None => 0%float
                           end)))
        /\ (In name session_int_columns ->
            sessionObject host headers row !! name
            = Some (VInt (match parseInt host raw with
                          | Some n => n
                          | None => 0
                          end)))
        /\ (In name session_real_columns ->
            sessionObject host headers row !! name
            = Some (VReal (match parseFloat host raw with
                           | Some q => if Number.falsy q then 0%float else q
                           | None => 0%float
                           end)))
        /\ (~ In name session_int_columns ->
            ~ In name session_real_columns ->
            name <> "__proto__" ->
            sessionObject host headers row !! name = Some (VStr raw)))
  /\ (forall (row : list string) (index : nat) (cell : string),
        nth_error row index = Some cell ->
        cell_value row index = Str.trim cell)
  /\ (forall (row : list string) (index : nat),
        (length row <= index)%nat -> cell_value row index = EmptyString)
  /\ (forall (headers row : list string) (name : string) (index : nat),
        last_column headers name index ->
        (length row <= index)%nat ->
        parseInt host EmptyString = None ->
        parseFloat host EmptyString = None ->
        (name = "start_date" ->
         dailyObject host headers row !! name = Some (VStr EmptyString))
        /\ (In name daily_int_columns ->
            dailyObject host headers row !! name = Some (VInt 0))
        /\ (In name daily_real_columns ->
            dailyObject host headers row !! name = Some (VReal 0%float))
        /\ (In name session_int_columns ->
            sessionObject host headers row !! name = Some (VInt 0))
        /\ (In name session_real_columns ->
            sessionObject host headers row !! name = Some (VReal 0%float))
        /\ (~ In name session_int_columns ->
            ~ In name session_real_columns ->
            name <> "__proto__" ->
            sessionObject host headers row !! name = Some (VStr EmptyString))).
Proof.
  assert (forall (row : list string) (index : nat),
            (length row <= index)%nat -> cell_value row index = EmptyString)
    as Habsent.
  { intros row index Hlen. unfold cell_value.
    apply nth_error_None in Hlen. now rewrite Hlen. }
  split; [| split; [| split; [| split]]].
  - intros csvText. destruct (parseCSV csvText) as [|headers data] eqn:E.
    + now apply parseCSV_nonempty in E.
    + exists headers, data. unfold parseDailyData, parseJobSessions.
      rewrite E. rewrite !length_map. repeat split.
  - intros headers row name index Hlast. now apply column_values.
  - intros row index cell Hcell. unfold cell_value. now rewrite Hcell.
  - exact Habsent.
  - intros headers row name index Hlast Hlen Hint Hreal.
    pose proof (column_values host headers row name index Hlast) as Hcol.
    cbv zeta in Hcol. rewrite (Habsent row index Hlen) in Hcol.
    rewrite Hint, Hreal in Hcol. exact Hcol.
Qed.

Lemma mappers_keep_every_row_witness :
  dailyObject Utc.host ["start_date"; "total_sessions"; "utilization_hours"]
    ["2024-03-10"; "twelve"] !! "total_sessions" = Some (VInt 0)
  /\ cell_value ["2024-03-10"; "twelve"] 2 = EmptyString
  /\ dailyObject Utc.host ["start_date"; "total_sessions"; "utilization_hours"]
       ["2024-03-10"; "twelve"] !! "utilization_hours" = Some (VReal 0%float).
Proof.
  split; [| split].
  - apply (proj1 (proj2 (proj1 (proj2 (mappers_keep_every_row Utc.host))
             ["start_date"; "total_sessions"; "utilization_hours"]
             ["2024-03-10"; "twelve"] "total_sessions" 1%nat
             ltac:(split; [reflexivity |];
                   intros [|[|[|[|j]]]] Hj; try lia; simpl; discriminate)))).
    simpl. tauto.
  - apply (proj1 (proj2 (proj2 (proj2 (mappers_keep_every_row Utc.host))))).
    simpl. lia.
  - apply (proj1 (proj2 (proj2 (proj2 (proj2 (proj2 (proj2
             (mappers_keep_every_row Utc.host))))
             ["start_date"; "total_sessions"; "utilization_hours"]
             ["2024-03-10"; "twelve"] "utilization_hours" 2%nat
             ltac:(split; [reflexivity |];
                   intros [|[|[|[|j]]]] Hj; try lia; simpl; discriminate)
             ltac:(simpl; lia) eq_refl eq_refl)))).
    simpl. tauto.
Defined.

(** ** The chart series *)

Section Grouping.
Context (host : Host) (groupBy : Z -> string).

Lemma keysOf_snoc (l : list DailyData.t) (x : DailyData.t) :
  keysOf host groupBy (l ++ [x])
  = (keysOf host groupBy l
     ++ match keyOf host groupBy x with Some k => [k] | None => [] end)%list.
Proof.
  induction l as [|y t IH]; simpl.
  - destruct (keyOf host groupBy x); reflexivity.
  - rewrite IH. destruct (keyOf host groupBy y); reflexivity.
Qed.

Lemma keysOf_In (key : string) (l : list DailyData.t) :
  In key (keysOf host groupBy l)
  <-> exists item, In item l /\ keyOf host groupBy item = Some key.
Proof.
  induction l as [|y t IH]; simpl.
  - split; [tauto | intros [item [[] _]]].
  - destruct (keyOf host groupBy y) as [k |] eqn:E; simpl; rewrite IH; split.
    + intros [<- | [item [Hin Hk]]]; [exists y | exists item]; tauto.
    + intros [item [[<- | Hin] Hk]].
      * left. congruence.
      * right. now exists item.
    + intros [item [Hin Hk]]. exists item. tauto.
    + intros [item [[<- | Hin] Hk]]; [congruence | now exists item].
Qed.

Lemma bucket_snoc (key : string) (l : list DailyData.t) (x : DailyData.t) :
  bucket host groupBy key (l ++ [x])
  = (bucket host groupBy key l
     ++ match keyOf host groupBy x with
        | Some k => if String.eqb k key then [x] else []
        | None => []
        end)%list.
Proof.
  unfold bucket. rewrite List.filter_app. simpl.
  destruct (keyOf host groupBy x) as [k |]; [| reflexivity].
  destruct (String.eqb k key); reflexivity.
Qed.

Lemma bucket_In (key : string) (l : list DailyData.t) (item : DailyData.t) :
  In item (bucket host groupBy key l)
  <-> In item l /\ keyOf host groupBy item = Some key.
Proof.
  unfold bucket. rewrite filter_In.
  destruct (keyOf host groupBy item) as [k |].
  - rewrite String.eqb_eq. split; intros [Hin Hk]; split; congruence.
  - split; intros [_ Hk]; discriminate.
Qed.

Lemma bucket_nil (key : string) (l : list DailyData.t) :
  ~ In key (keysOf host groupBy l) -> bucket host groupBy key l = [].
Proof.
  intros Hnin. destruct (bucket host groupBy key l) as [|item t] eqn:E;
    [reflexivity | exfalso].
  assert (In item (bucket host groupBy key l)) as Hin by (rewrite E; now left).
  apply bucket_In in Hin. apply Hnin, keysOf_In. now exists item.
Qed.

(** The [Map] built by the grouping loop: the keys in order of first
    appearance, each with the records of its bucket in input order. *)
Lemma grouped_spec (data : list DailyData.t) :
  fold_left (groupItem host groupBy) data []
  = tabulate (fun key => bucket host groupBy key data)
      (distinct (keysOf host groupBy data)).
Proof.
  induction data as [|x l IH] using rev_ind; [reflexivity |].
  rewrite fold_left_app. simpl. rewrite IH. clear IH.
  rewrite keysOf_snoc. unfold groupItem.
  assert (keyOf host groupBy x
          = match parseISO_field host (DailyData.start_date x) with
            | Some date => Some (groupBy date)
            | None => None
            end) as Hkey by reflexivity.
  destruct (parseISO_field host (DailyData.start_date x)) as [date |].
  - set (key := groupBy date) in *. rewrite Hkey. cbv zeta.
    set (D := distinct (keysOf host groupBy l)).
    destruct (in_dec (fun a b => decide (a = b)) key (keysOf host groupBy l))
      as [Hin | Hnin].
    + rewrite distinct_snoc_old by assumption. fold D.
      assert (In key D) as HD by now apply distinct_In.
      unfold JsMap.has. rewrite !get_tabulate by assumption.
      rewrite set_tabulate_old by (assumption || apply distinct_NoDup).
      apply tabulate_ext. intros k Hk. rewrite bucket_snoc, Hkey.
      destruct (decide (k = key)) as [-> | Hne].
      * now rewrite String.eqb_refl.
      * destruct (String.eqb key k) eqn:E.
        -- apply String.eqb_eq in E. congruence.
        -- now rewrite app_nil_r.
    + rewrite distinct_snoc_new by assumption. fold D.
      assert (~ In key D) as HD by (unfold D; now rewrite distinct_In).
      unfold JsMap.has. rewrite get_tabulate_None by assumption.
      rewrite set_tabulate_new by assumption.
      assert ((tabulate (fun k => bucket host groupBy k l) D ++ [(key, [])])%list
              = tabulate
                  (fun k => if decide (k = key) then []
                            else bucket host groupBy k l)
                  (D ++ [key])) as ->.
      { unfold tabulate. rewrite map_app. simpl.
        rewrite decide_True by reflexivity. f_equal.
        apply map_ext_in. intros k Hk.
        rewrite decide_False; [reflexivity | intros ->; tauto]. }
      assert (List.NoDup (D ++ [key])) as Hnd.
      { apply List.NoDup_app.
        - apply distinct_NoDup.
        - constructor; [simpl; tauto | constructor].
        - intros a Ha [<- | []]. tauto. }
      assert (In key (D ++ [key])) as Hlast by (apply in_or_app; right; now left).
      rewrite get_tabulate by assumption.
      rewrite decide_True by reflexivity.
      rewrite set_tabulate_old by assumption.
      apply tabulate_ext. intros k Hk. rewrite bucket_snoc, Hkey.
      destruct (decide (k = key)) as [-> | Hne].
      * rewrite String.eqb_refl. now rewrite bucket_nil.
      * destruct (String.eqb key k) eqn:E.
        -- apply String.eqb_eq in E. congruence.
        -- now rewrite app_nil_r.
  - rewrite Hkey, app_nil_r. apply tabulate_ext. intros k Hk.
    rewrite bucket_snoc, Hkey. now rewrite app_nil_r.
Qed.

End Grouping.

Lemma sumInt_from (f : DailyData.t -> option Z) (items : list DailyData.t) :
  forall acc : Z,
    fold_left (fun sum item => sum + or0 (f item)) items acc
    = acc + sumInt f items.
Proof.
  unfold sumInt. induction items as [|x t IH]; intros acc; simpl; [lia |].
  rewrite IH, (IH (0 + or0 (f x))). lia.
Qed.

Lemma sumInt_cons (f : DailyData.t -> option Z) (x : DailyData.t)
    (items : list DailyData.t) :
  sumInt f (x :: items) = or0 (f x) + sumInt f items.
Proof. unfold sumInt at 1. simpl. now rewrite sumInt_from. Qed.

Lemma sumInt_sumZ (f : DailyData.t -> option Z) (items : list DailyData.t) :
  sumInt f items = sumZ (List.map (fun item => or0 (f item)) items).
Proof.
  induction items as [|x t IH]; [reflexivity |].
  rewrite sumInt_cons, IH. reflexivity.
Qed.

Lemma sumReal_sum_left {A : Type} (f : A -> option float) (items : list A) :
  sumReal f items = sum_left (List.map (fun item => or0N (f item)) items).
Proof.
  unfold sumReal, sum_left. generalize 0%float as acc.
  induction items as [|x t IH]; intros acc; simpl; [reflexivity | apply IH].
Qed.

Lemma sumInt_nonneg (f : DailyData.t -> option Z) (items : list DailyData.t) :
  (forall item, In item items -> 0 <= or0 (f item)) -> 0 <= sumInt f items.
Proof.
  induction items as [|x t IH]; intros Hpos; [unfold sumInt; simpl; lia |].
  unfold sumInt. simpl. rewrite sumInt_from.
  assert (0 <= or0 (f x)) by (apply Hpos; now left).
  assert (0 <= sumInt f t) by (apply IH; intros item Hin; apply Hpos; now right).
  lia.
Qed.

(** Sorting labels that the host collates by code unit. *)
Section ChartOrder.
Context (host : Host) (labels : list string).
Hypothesis Hcollate : collates_by_code_unit host labels.

Let compare (a b : ChartData.t) : Z :=
  localeCompare host (ChartData.date a) (ChartData.date b).

Lemma compare_after (a b : ChartData.t) :
  In (ChartData.date a) labels -> In (ChartData.date b) labels ->
  (0 <? compare a b) = true -> label_lt b a.
Proof using Hcollate.
  intros Ha Hb Hlt. apply Z.ltb_lt in Hlt. unfold compare in Hlt.
  specialize (Hcollate _ _ Ha Hb).
  apply Z.lt_gt, Z.compare_gt_iff in Hlt.
  assert ((localeCompare host (ChartData.date a) (ChartData.date b) ?= 0) = Gt)
    as Hgt by now apply Z.compare_gt_iff.
  rewrite Hgt in Hcollate. unfold label_lt.
  destruct (String_as_OT.compare_spec (ChartData.date a) (ChartData.date b));
    congruence.
Qed.

Lemma compare_before (a b : ChartData.t) :
  In (ChartData.date a) labels -> In (ChartData.date b) labels ->
  ChartData.date a <> ChartData.date b ->
  (0 <? compare a b) = false -> label_lt a b.
Proof using Hcollate.
  intros Ha Hb Hne Hge. apply Z.ltb_ge in Hge. unfold compare in Hge.
  specialize (Hcollate _ _ Ha Hb). unfold label_lt.
  destruct (String_as_OT.compare_spec (ChartData.date a) (ChartData.date b))
    as [Heq | Hlt | Hgt]; [congruence | assumption |].
  apply Z.compare_gt_iff in Hcollate. lia.
Qed.

Lemma insert_sorted (x : ChartData.t) (l : list ChartData.t) :
  In (ChartData.date x) labels ->
  (forall y, In y l -> In (ChartData.date y) labels) ->
  (forall y, In y l -> ChartData.date y <> ChartData.date x) ->
  StronglySorted label_lt l ->
  StronglySorted label_lt (JsArray.insert compare x l).
Proof using Hcollate.
  intros Hx. induction l as [|y t IH]; intros Hl Hne Hs; simpl.
  - constructor; constructor.
  - inversion Hs as [|? ? Ht Hy]; subst.
    assert (In (ChartData.date y) labels) as Hyl by (apply Hl; now left).
    destruct (0 <? compare x y) eqn:E.
    + constructor.
      * apply IH; [| | assumption]; intros z Hz; [apply Hl | apply Hne];
          now right.
      * apply List.Forall_forall. intros z Hz.
        apply (Permutation_in _ (insert_perm compare x t)) in Hz.
        destruct Hz as [<- | Hz].
        -- now apply compare_after.
        -- rewrite List.Forall_forall in Hy. now apply Hy.
    + assert (label_lt x y) as Hxy.
      { apply compare_before; try assumption.
        intros Heq. apply (Hne y); [now left | congruence]. }
      constructor; [assumption |].
      constructor; [assumption |].
      apply List.Forall_forall. intros z Hz.
      rewrite List.Forall_forall in Hy. specialize (Hy z Hz).
      unfold label_lt in *. now transitivity (ChartData.date y).
Qed.

Lemma sort_sorted (l : list ChartData.t) :
  (forall y, In y l -> In (ChartData.date y) labels) ->
  List.NoDup (List.map ChartData.date l) ->
  StronglySorted label_lt (JsArray.sort compare l).
Proof using Hcollate.
  induction l as [|x t IH]; intros Hl Hnd; simpl; [constructor |].
  inversion Hnd as [|? ? Hx Ht]; subst.
  apply insert_sorted.
  - apply Hl. now left.
  - intros y Hy. apply Hl. right. now apply sort_In in Hy.
  - intros y Hy Heq. apply sort_In in Hy. apply Hx. rewrite <- Heq.
    now apply in_map.
  - apply IH; [| assumption]. intros y Hy. apply Hl. now right.
Qed.

End ChartOrder.

(** ** Rounding *)

Lemma nearest_integer_floor (q : Q) :
  nearest_integer q (Qfloor (q + (1 # 2))).
Proof.
  unfold nearest_integer. split.
  - apply Qfloor_le.
  - pose proof (Qlt_floor (q + (1 # 2))) as Hlt.
    now rewrite inject_Z_plus in Hlt.
Qed.

(** The exact value of a finite Number that is not a zero: it is not 0,
    and it is negative exactly when the sign is set. *)
Lemma finite_value_sign (s : bool) (m : positive) (e : Z) :
  let n := if s then Z.neg m else Z.pos m in
  let q := match e with
           | Z0 => inject_Z n
           | Z.pos p => inject_Z (n * 2 ^ Z.pos p)
           | Z.neg p => Qmake n (2 ^ p)
           end in
  Qeq_bool q 0 = false /\ Qle_bool 0 q = negb s.
Proof.
  intros n q.
  assert (Qnum q <> 0 /\ (0 <=? Qnum q) = negb s) as [Hne Hsign].
  { subst q n. destruct e as [|p|p]; cbn [Qnum inject_Z].
    - destruct s; split; (discriminate || reflexivity).
    - assert (0 < 2 ^ Z.pos p) by (apply Z.pow_pos_nonneg; lia).
      destruct s; split; try lia; cbn [negb].
      + apply Z.leb_gt. nia.
      + apply Z.leb_le. nia.
    - destruct s; split; (discriminate || reflexivity). }
  split.
  - destruct (Qeq_bool q 0) eqn:E; [| reflexivity].
    apply Qeq_bool_iff in E. unfold Qeq in E. simpl in E. lia.
  - unfold Qle_bool. simpl. rewrite Z.mul_1_r. exact Hsign.
Qed.

(** [Math.round] as ECMAScript specifies it. *)
Lemma Math_round_spec (y : float) : rounds_to y (Math_round y).
Proof.
  unfold rounds_to, Math_round, Number.toQ.
  destruct (Prim2SF y) as [s | s | | s m e]; try reflexivity.
  destruct (finite_value_sign s m e) as [Hzero Hsign]. cbv zeta in Hzero, Hsign.
  rewrite Hzero, Hsign.
  eexists. split; [apply nearest_integer_floor |].
  destruct s; reflexivity.
Qed.

Lemma round1_spec (x : float) : tenth_of x (round1 x).
Proof.
  exists (Math_round (x * 10)). split; [apply Math_round_spec | reflexivity].
Qed.

Lemma chartPoint_date (entry : string * list DailyData.t) :
  ChartData.date (chartPoint entry) = fst entry.
Proof. destruct entry. reflexivity. Qed.

Lemma chart_labels (host : Host) (groupBy : Z -> string)
    (data : list DailyData.t) (keys : list string) :
  List.map ChartData.date
    (List.map chartPoint
       (tabulate (fun key => bucket host groupBy key data) keys))
  = keys.
Proof.
  unfold tabulate. rewrite !map_map. simpl. apply map_id.
Qed.

Lemma groupItem_first (host : Host) (groupBy : Z -> string)
    (item : DailyData.t) (date : Z) :
  parseISO_field host (DailyData.start_date item) = Some date ->
  groupItem host groupBy [] item = [(groupBy date, [item])].
Proof.
  intros Hparse. unfold groupItem. rewrite Hparse. cbv zeta.
  unfold JsMap.has. cbn [JsMap.get JsMap.set].
  rewrite decide_True by reflexivity.
  rewrite decide_True by reflexivity. reflexivity.
Qed.

(** C2, as the code has it. One chart point for each distinct grouping
    key; its jobs are the sum of [total_sessions] over the records of the
    bucket; its success rate is 0 when jobs is not above 0 and otherwise
    the Number (completed / jobs) * 100, the quotient first and each
    operation rounded to a double, taken to one decimal place; its
    utilization is the sum of [utilization_hours], added from the left in
    doubles, taken to one decimal place. One decimal place is ten times the
    Number, rounded to the nearest integer, halves upwards, over ten. The
    points are in ascending order of their labels: the order is the
    collation of the host, which is the order of the code units where the
    host collates the labels at hand so. Jobs is never below 0 when the
    counts are natural numbers, as the data model has them. One kept record
    with 10 sessions, 9 of them completed, and 2.0 hours gives the single
    point with jobs 10, success rate 90.0 and utilization 2.0. *)
Theorem chart_series_buckets (host : Host) :
  (forall (data : list DailyData.t) (groupBy : Z -> string),
     let chart := groupDataByPeriod host data groupBy in
     List.NoDup (List.map ChartData.date chart)
     /\ (forall key : string,
           In key (List.map ChartData.date chart)
           <-> exists item : DailyData.t,
                 In item data /\ keyOf host groupBy item = Some key)
     /\ (forall point : ChartData.t,
           In point chart ->
           let items := bucket host groupBy (ChartData.date point) data in
           let total :=
             sumZ (List.map (fun item => or0 (DailyData.total_sessions item))
                     items) in
           let completed :=
             sumZ (List.map
                     (fun item => or0 (DailyData.completed_sessions item))
                     items) in
           let hours :=
             sum_left
               (List.map (fun item => or0N (DailyData.utilization_hours item))
                  items) in
           ChartData.jobs point = total
           /\ (total <= 0 -> ChartData.success_rate point = 0%float)
           /\ (0 < total ->
               tenth_of (Number.of_Z completed / Number.of_Z total * 100)%float
                 (ChartData.success_rate point))
           /\ (Forall counts_nonnegative data -> 0 <= ChartData.jobs point)
           /\ tenth_of hours (ChartData.utilization point))
     /\ (collates_by_code_unit host (keysOf host groupBy data) ->
         StronglySorted label_lt chart))
  /\ (forall (now : Z) (timeRange : TimeRange) (sessions : list JobSession.t)
             (item : DailyData.t) (date : Z),
        parseISO_field host (DailyData.start_date item) = Some date ->
        startDate host timeRange now <= date <= now ->
        DailyData.total_sessions item = Some 10 ->
        DailyData.completed_sessions item = Some 9 ->
        DailyData.utilization_hours item = Some 2%float ->
        exists point : ChartData.t,
          Result.chartData
            (processDataForTimeRange host now [item] sessions timeRange)
          = [point]
          /\ ChartData.date point = groupBy host timeRange date
          /\ ChartData.jobs point = 10
          /\ ChartData.success_rate point = 90%float
          /\ ChartData.utilization point = 2%float).
Proof.
  split.
  - intros data groupBy chart.
    subst chart. unfold groupDataByPeriod. rewrite grouped_spec.
    set (keys := distinct (keysOf host groupBy data)).
    set (points :=
           List.map chartPoint
             (tabulate (fun key => bucket host groupBy key data) keys)).
    set (compare := fun a b : ChartData.t =>
           localeCompare host (ChartData.date a) (ChartData.date b)).
    assert (List.map ChartData.date points = keys) as Hlabels
      by apply chart_labels.
    assert (Permutation (List.map ChartData.date (JsArray.sort compare points))
              keys) as Hperm.
    { rewrite <- Hlabels. apply Permutation_map, sort_perm. }
    split; [| split; [| split]].
    + apply (Permutation_NoDup (Permutation_sym Hperm)), distinct_NoDup.
    + intros key. rewrite <- keysOf_In. split.
      * intros Hin. apply (proj1 (distinct_In key _)).
        exact (Permutation_in _ Hperm Hin).
      * intros Hin. apply (proj2 (distinct_In key _)) in Hin.
        exact (Permutation_in _ (Permutation_sym Hperm) Hin).
    + intros point Hin. cbv zeta. apply sort_In in Hin.
      unfold points, tabulate in Hin. rewrite map_map in Hin.
      apply in_map_iff in Hin. destruct Hin as [key [<- Hkey]].
      cbn [chartPoint ChartData.date ChartData.jobs
                        ChartData.success_rate ChartData.utilization].
      set (items := bucket host groupBy key data).
      rewrite <- !sumInt_sumZ, <- sumReal_sum_left.
      split; [reflexivity |]. split; [| split; [| split]].
      * intros Hle. apply Z.ltb_ge in Hle. rewrite Hle. reflexivity.
      * intros Hpos. apply Z.ltb_lt in Hpos. rewrite Hpos.
        apply round1_spec.
      * intros Hcounts. apply sumInt_nonneg. intros item Hitem.
        apply bucket_In in Hitem.
        rewrite List.Forall_forall in Hcounts.
        now apply (Hcounts item).
      * apply round1_spec.
    + intros Hcollate.
      apply (sort_sorted host (keysOf host groupBy data) Hcollate).
      * intros y Hy. apply distinct_In. fold keys. rewrite <- Hlabels.
        now apply in_map.
      * rewrite Hlabels. apply distinct_NoDup.
  - intros now timeRange sessions item date Hparse Hwindow Htotal Hdone Hhours.
    unfold processDataForTimeRange. cbn [Result.chartData].
    assert (filterDaily host timeRange now [item] = [item]) as ->.
    { unfold filterDaily. simpl. unfold inWindow, isWithinInterval.
      rewrite Hparse.
      assert ((startDate host timeRange now <=? date) = true) as ->
        by (apply Z.leb_le; lia).
      assert ((date <=? now) = true) as -> by (apply Z.leb_le; lia).
      reflexivity. }
    unfold groupDataByPeriod. cbn [fold_left].
    rewrite (groupItem_first host _ item date Hparse).
    cbn [List.map JsArray.sort fold_right JsArray.insert].
    eexists. split; [reflexivity |].
    cbn [chartPoint ChartData.date ChartData.jobs ChartData.success_rate
         ChartData.utilization].
    unfold sumInt, sumReal. cbn [fold_left].
    rewrite Htotal, Hdone, Hhours.
    repeat split; vm_compute; reflexivity.
Qed.

Lemma utc_collates (labels : list string) :
  collates_by_code_unit Utc.host labels.
Proof.
  intros a b _ _. simpl. unfold Utc.localeCompare.
  destruct (String_as_OT.compare a b); reflexivity.
Qed.

Lemma chart_series_buckets_witness :
  StronglySorted label_lt
    (groupDataByPeriod Utc.host
       [Sample.day "2024-03-10" 10 9 2; Sample.day "2024-02-20" 3 1 0.5;
        Sample.day "2024-03-10" 1 1 2.5]
       (groupBy Utc.host daily))
  /\ Forall (fun point => 0 <= ChartData.jobs point)
       (groupDataByPeriod Utc.host
          [Sample.day "2024-03-10" 10 9 2; Sample.day "2024-02-20" 3 1 0.5;
           Sample.day "2024-03-10" 1 1 2.5]
          (groupBy Utc.host daily))
  /\ Forall
       (fun point =>
          tenth_of
            (Number.of_Z
               (sumZ (List.map
                        (fun item => or0 (DailyData.completed_sessions item))
                        (bucket Utc.host (groupBy Utc.host daily)
                           (ChartData.date point)
                           [Sample.day "2024-03-10" 10 9 2;
                            Sample.day "2024-02-20" 3 1 0.5;
                            Sample.day "2024-03-10" 1 1 2.5])))
             / Number.of_Z
                 (sumZ (List.map
                          (fun item => or0 (DailyData.total_sessions item))
                          (bucket Utc.host (groupBy Utc.host daily)
                             (ChartData.date point)
                             [Sample.day "2024-03-10" 10 9 2;
                              Sample.day "2024-02-20" 3 1 0.5;
                              Sample.day "2024-03-10" 1 1 2.5])))
             * 100)%float
            (ChartData.success_rate point))
       (groupDataByPeriod Utc.host
          [Sample.day "2024-03-10" 10 9 2; Sample.day "2024-02-20" 3 1 0.5;
           Sample.day "2024-03-10" 1 1 2.5]
          (groupBy Utc.host daily))
  /\ exists point : ChartData.t,
       Result.chartData
         (processDataForTimeRange Utc.host Sample.now
            [Sample.day "2024-03-10" 10 9 2] [] daily) = [point]
       /\ ChartData.date point = "Mar 10"
       /\ ChartData.jobs point = 10
       /\ ChartData.success_rate point = 90%float
       /\ ChartData.utilization point = 2%float.
Proof.
  pose proof (proj1 (chart_series_buckets Utc.host)
                [Sample.day "2024-03-10" 10 9 2;
                 Sample.day "2024-02-20" 3 1 0.5;
                 Sample.day "2024-03-10" 1 1 2.5]
                (groupBy Utc.host daily)) as H.
  cbv zeta in H. destruct H as [_ [_ [Hpoint Hsorted]]].
  split; [| split; [| split]].
  - apply Hsorted, utc_collates.
  - apply List.Forall_forall. intros point Hin.
    refine (proj1 (proj2 (proj2 (proj2 (Hpoint point Hin)))) _).
    repeat constructor; vm_compute; discriminate.
  - apply List.Forall_forall. intros point Hin.
    refine (proj1 (proj2 (proj2 (Hpoint point Hin))) _).
    vm_compute in Hin. destruct Hin as [<- | [<- | []]]; vm_compute; reflexivity.
  - apply (proj2 (chart_series_buckets Utc.host) Sample.now daily []
             (Sample.day "2024-03-10" 10 9 2) 1710028800000).
    + reflexivity.
    + vm_compute. split; discriminate.
    + reflexivity.
    + reflexivity.
    + reflexivity.
Defined.

(** C2, as stated, fails. One record with 80 sessions, 23 of them
    completed: 100 times 23 over 80 is 28.75, which to one decimal place is
    28.8, halves upwards as the code rounds; the code, which divides first,
    rounds a Number just below 28.75 and answers 28.7. *)
Lemma twenty_three_of_eighty :
  let chart :=
    groupDataByPeriod Utc.host [Sample.day "2024-03-10" 80 23 0]
      (groupBy Utc.host daily) in
  (100 * inject_Z 23 / inject_Z 80 == 2875 # 100)%Q
  /\ nearest_integer (10 * (2875 # 100)) 288
  /\ exists point : ChartData.t,
       chart = [point]
       /\ ChartData.jobs point = 80
       /\ ChartData.success_rate point = Number.of_Q (287 # 10)
       /\ ChartData.success_rate point <> Number.of_Q (288 # 10)
       /\ exists q : Q,
            Number.toQ (ChartData.success_rate point) = Some q
            /\ (q < 287 # 10)%Q.
Proof.
  cbv zeta. split; [vm_compute; reflexivity |].
  split; [split; vm_compute; [discriminate | reflexivity] |].
  eexists. split; [vm_compute; reflexivity |].
  cbn [ChartData.jobs ChartData.success_rate].
  split; [reflexivity |]. split; [vm_compute; reflexivity |]. split.
  - intros H. apply (f_equal Prim2SF) in H. vm_compute in H. discriminate.
  - eexists. split; vm_compute; reflexivity.
Qed.

(** ** The breakdown: order and colours *)


Lemma getMaterialColor_listed (material colour : string) :
  JsMap.get material colors = Some colour ->
  getMaterialColor material = PString colour.
Proof.
  unfold getMaterialColor, colors_get. intros Hget. rewrite Hget.
  simpl in Hget.
  repeat match type of Hget with
         | (if ?d then _ else _) = _ => destruct d
         end;
    try discriminate; injection Hget as <-; reflexivity.
Qed.

Lemma getMaterialColor_fallback (material : string) :
  JsMap.get material colors = None ->
  ~ In material object_prototype_members ->
  getMaterialColor material = PString "#6b7280".
Proof.
  unfold getMaterialColor, colors_get. intros Hget Hnin. rewrite Hget.
  now rewrite (includes_not_In _ _ Hnin).
Qed.

Lemma getMaterialColor_inherited (material : string) :
  In material object_prototype_members ->
  getMaterialColor material = PInherited material.
Proof.
  intros Hin. simpl in Hin.
  repeat (destruct Hin as [<- | Hin]; [reflexivity |]). destruct Hin.
Qed.

(** The breakdown on every input. With [materials] the material types
    of the kept sessions that are neither null nor blank: the breakdown has
    one entry for each distinct material with the number of its sessions;
    it is in descending order of count, entries of equal count in the order
    their materials first appear; the colour is the one of the table for a
    listed material and the fallback for any other that is not the name of
    a member of [Object.prototype]; the sessions without material count in
    the total. *)
Lemma material_breakdown_rule (host : Host) (now : Z)
    (dailyData : list DailyData.t) (sessions : list JobSession.t)
    (timeRange : TimeRange) :
  let kept := filterSessions host timeRange now sessions in
  let materials := materialsOf kept in
  let result :=
    processDataForTimeRange host now dailyData sessions timeRange in
  let breakdown := Result.materialBreakdown result in
  Permutation (List.map MaterialEntry.material breakdown) (distinct materials)
  /\ (forall entry : MaterialEntry.t, In entry breakdown ->
        MaterialEntry.count entry
        = occurrences (MaterialEntry.material entry) materials
        /\ MaterialEntry.color entry
           = getMaterialColor (MaterialEntry.material entry))
  /\ StronglySorted
       (fun a b => MaterialEntry.count b <= MaterialEntry.count a) breakdown
  /\ (forall c : Z,
        List.map MaterialEntry.material
          (List.filter (fun e => MaterialEntry.count e =? c) breakdown)
        = List.filter (fun m => occurrences m materials =? c)
            (distinct materials))
  /\ (forall material : string,
        ~ In material object_prototype_members ->
        getMaterialColor material
        = PString (match JsMap.get material colors with
                   | Some colour => colour
                   | None => "#6b7280"
                   end))
  /\ Result.totalJobs result = Z.of_nat (length kept).
Proof.
  intros kept materials result breakdown.
  assert (breakdown
          = JsArray.sort
              (fun a b => MaterialEntry.count b - MaterialEntry.count a)
              (List.map materialEntry
                 (tabulate (fun m => occurrences m materials)
                    (distinct materials)))) as Hb.
  { subst breakdown result. unfold processDataForTimeRange.
    cbn [Result.materialBreakdown]. fold kept.
    rewrite materialCounts_spec. reflexivity. }
  assert (forall keys : list string,
            List.map MaterialEntry.material
              (List.map materialEntry
                 (tabulate (fun m => occurrences m materials) keys)) = keys)
    as Hnames.
  { intros keys. unfold tabulate. rewrite !map_map. simpl. apply map_id. }
  split; [| split; [| split; [| split; [| split]]]].
  - rewrite Hb.
    etransitivity; [apply Permutation_map, sort_perm |].
    now rewrite Hnames.
  - intros entry Hin. rewrite Hb in Hin. apply sort_In in Hin.
    unfold tabulate in Hin. rewrite map_map in Hin.
    apply in_map_iff in Hin. destruct Hin as [m [<- _]]. split; reflexivity.
  - rewrite Hb. apply (sort_descending MaterialEntry.count).
  - intros c. rewrite Hb. rewrite (sort_stable MaterialEntry.count).
    unfold tabulate. rewrite map_map. rewrite filter_map_swap, map_map.
    simpl. now rewrite map_id.
  - intros material Hnin.
    destruct (JsMap.get material colors) as [colour |] eqn:E.
    + now apply getMaterialColor_listed.
    + now apply getMaterialColor_fallback.
  - reflexivity.
Qed.

(** One kept session without material, Completed: it counts in the total
    and in the success rate, and the breakdown is empty. *)
Lemma null_material_example (host : Host) (now : Z)
    (dailyData : list DailyData.t) (timeRange : TimeRange)
    (session : JobSession.t) :
  in_window host timeRange now (JobSession.start_date session) ->
  JobSession.material_type session = None ->
  JobSession.status session = Some "Completed" ->
  let result :=
    processDataForTimeRange host now dailyData [session] timeRange in
  Result.totalJobs result = 1
  /\ Result.successRate result = 100%float
  /\ Result.materialBreakdown result = [].
Proof.
  intros Hin Hmat Hstatus result. apply inWindow_spec in Hin.
  subst result. unfold processDataForTimeRange.
  cbn [Result.totalJobs Result.successRate Result.materialBreakdown].
  unfold filterSessions. cbn [List.filter]. rewrite Hin.
  cbn [List.filter length fold_left]. unfold statusIs at 1. rewrite Hstatus.
  unfold countMaterial. rewrite Hmat. repeat split.
Qed.

(** C3 at a material named like a member of [Object.prototype]: each
    entry's colour should come from the table, or be the one fallback
    colour when the material is not listed. The material [constructor] is
    not listed, and the colour of its entry is the inherited member, not
    the fallback colour that the unlisted [Zirconia] gets. *)
Theorem inherited_name_colour :
  let sessions :=
    [Sample.session "2024-03-10" 9 (Some "constructor") "Completed";
     Sample.session "2024-03-11" 9 (Some "Zirconia") "Completed"] in
  JsMap.get "constructor" colors = None
  /\ Result.materialBreakdown
       (processDataForTimeRange Utc.host Sample.now [] sessions daily)
     = [{| MaterialEntry.material := "constructor";
           MaterialEntry.count := 1;
           MaterialEntry.color := PInherited "constructor" |};
        {| MaterialEntry.material := "Zirconia";
           MaterialEntry.count := 1;
           MaterialEntry.color := PString "#6b7280" |}]
  /\ getMaterialColor "constructor" <> PString "#6b7280".
Proof.
  vm_compute. repeat split; discriminate.
Qed.

(** ** The pipeline at work on the reference host *)

Example utc_window_starts :
  startDate Utc.host daily Sample.now = Sample.now - 30 * Utc.ms_per_day
  /\ startDate Utc.host weekly Sample.now = Sample.now - 84 * Utc.ms_per_day
  /\ Utc.parse_timestamp "2023-03-15T12:00:00"
     = Some (startDate Utc.host monthly Sample.now)
  /\ Utc.parse_timestamp "2019-03-15T12:00:00"
     = Some (startDate Utc.host yearly Sample.now).
Proof. vm_compute. repeat split. Qed.

(** Both ends of the window are kept. *)
Example window_bounds_included :
  List.map DailyData.start_date
    (filterDaily Utc.host daily Sample.midnight
       [Sample.day "2024-02-13" 1 1 1; Sample.day "2024-02-14" 1 1 1;
        Sample.day "2024-03-15" 1 1 1; Sample.day "2024-03-16" 1 1 1])
  = [Some "2024-02-14"; Some "2024-03-15"].
Proof. vm_compute. reflexivity. Qed.

(** A cell that is no number and a row that is too short give zeros and
    empty strings, and every row gives a record. *)
Example parseDailyData_sample :
  List.map
    (fun d =>
       (DailyData.start_date d, DailyData.total_sessions d,
        DailyData.completed_sessions d, DailyData.utilization_hours d,
        DailyData.total_jobs d))
    (parseDailyData Utc.host Sample.daily_csv)
  = [(Some "2024-03-10", Some 12, Some 11, Some 3.5%float, None);
     (Some "2024-03-11", Some 0, Some 0, Some 0%float, None)].
Proof. vm_compute. reflexivity. Qed.

Example parseJobSessions_sample :
  List.map
    (fun s =>
       (JobSession.session_id s, JobSession.start_date s,
        JobSession.start_hour s, JobSession.material_type s,
        JobSession.status s, JobSession.duration_minutes s))
    (parseJobSessions Utc.host Sample.sessions_csv)
  = [(Some 7, Some "2024-03-10", Some 9, Some "hyperDENT", Some "Completed",
      Some 42.5%float);
     (Some 8, Some "2024-03-11", Some 14, Some "", Some "In Progress",
      Some 0%float);
     (Some 0, Some "2024-03-12", Some 0, Some "", Some "", Some 0%float)].
Proof. vm_compute. reflexivity. Qed.

(** A session In Progress counts in the total and for neither the success
    rate nor the errors. *)
Example in_progress_counts_for_neither :
  let result :=
    processDataForTimeRange Utc.host Sample.now []
      (parseJobSessions Utc.host Sample.sessions_csv) daily in
  Result.totalJobs result = 3
  /\ Result.errorCount result = 0
  /\ Result.successRate result
     = Number.of_Q (3333333333333333 # 100000000000000)
  /\ Result.materialTypes result = 1
  /\ Result.peakHour result = 9.
Proof. vm_compute. repeat split. Qed.

(** Labels are ordered as strings, not as dates: April comes before
    March. *)
Example chart_labels_sorted_as_strings :
  List.map ChartData.date
    (Result.chartData
       (processDataForTimeRange Utc.host Sample.later
          [Sample.day "2024-03-20" 1 1 1; Sample.day "2024-04-02" 1 1 1;
           Sample.day "2024-06-01" 1 1 1] [] monthly))
  = ["Apr 2024"; "Jun 2024"; "Mar 2024"].
Proof. vm_compute. reflexivity. Qed.

(** * Part III: the rest of the code *)

(** ** More on the parser *)

Lemma trimStart_head (s : string) :
  match Str.trimStart s with
  | EmptyString => True
  | String c _ => Str.is_white_space c = false
  end.
Proof.
  induction s as [|c r IH]; simpl; [exact I |].
  destruct (Str.is_white_space c) eqn:E; [exact IH | exact E].
Qed.

Lemma trimStart_fixed (s : string) :
  match s with
  | EmptyString => True
  | String c _ => Str.is_white_space c = false
  end ->
  Str.trimStart s = s.
Proof. destruct s as [|c r]; simpl; [reflexivity | now intros ->]. Qed.

Lemma trimEnd_head (s : string) :
  match s with
  | EmptyString => True
  | String c _ => Str.is_white_space c = false
  end ->
  match Str.trimEnd s with
  | EmptyString => True
  | String c _ => Str.is_white_space c = false
  end.
Proof.
  destruct s as [|c r]; simpl; [tauto |]. intros Hc.
  destruct (Str.trimEnd r); [now rewrite Hc | exact Hc].
Qed.

Lemma trimEnd_cons (c : ascii) (r : string) :
  Str.trimEnd (String c r)
  = match Str.trimEnd r with
    | EmptyString =>
        if Str.is_white_space c then EmptyString else String c EmptyString
    | String c' r' => String c (String c' r')
    end.
Proof. reflexivity. Qed.

Lemma trimEnd_idem (s : string) : Str.trimEnd (Str.trimEnd s) = Str.trimEnd s.
Proof.
  induction s as [|c r IH]; [reflexivity |].
  rewrite trimEnd_cons.
  destruct (Str.trimEnd r) as [|c' r'] eqn:E.
  - destruct (Str.is_white_space c) eqn:Ec; [reflexivity |].
    rewrite trimEnd_cons. simpl. now rewrite Ec.
  - rewrite trimEnd_cons, IH. reflexivity.
Qed.

Lemma trim_idem (s : string) : Str.trim (Str.trim s) = Str.trim s.
Proof.
  unfold Str.trim.
  rewrite (trimStart_fixed (Str.trimEnd (Str.trimStart s))).
  - apply trimEnd_idem.
  - apply trimEnd_head, trimStart_head.
Qed.

Lemma split_lines_newline_free (s piece : string) :
  In piece (Str.split_lines s) -> newline_free piece.
Proof.
  unfold newline_free. revert piece.
  induction s as [|c r IH]; intros piece Hin; simpl in Hin.
  - destruct Hin as [<- | []]. simpl. tauto.
  - destruct (Ascii.eqb c Str.newline) eqn:E.
    + destruct Hin as [<- | Hin]; [simpl; tauto | now apply IH].
    + destruct (Str.split_lines r) as [|h t] eqn:Er.
      * destruct Hin as [<- | []]. simpl. intros [Hc | []].
        apply Ascii.eqb_neq in E. congruence.
      * destruct Hin as [<- | Hin].
        -- simpl. intros [Hc | Hc].
           ++ apply Ascii.eqb_neq in E. congruence.
           ++ apply (IH h); [now left | exact Hc].
        -- apply IH. now right.
Qed.

Lemma split_lines_single (s : string) :
  newline_free s -> Str.split_lines s = [s].
Proof.
  unfold newline_free. induction s as [|c r IH]; simpl; [reflexivity |].
  intros Hfree. destruct (Ascii.eqb c Str.newline) eqn:E.
  - apply Ascii.eqb_eq in E. tauto.
  - rewrite IH by tauto. reflexivity.
Qed.

(** Every character of a field comes from the line, or from what the loop
    held already. *)
Lemma parseLine_loop_chars (line : string) :
  forall (values : list string) (current : string) (inQuotes : bool)
         (field : string) (c : ascii),
    In field (parseLine_loop line values current inQuotes) ->
    In c (Str.chars field) ->
    (exists v : string, In v values /\ In c (Str.chars v))
    \/ In c (Str.chars current) \/ In c (Str.chars line).
Proof.
  induction line as [|char rest IH]; intros values current inQuotes field c;
    simpl.
  - intros Hin Hc. apply in_app_or in Hin. destruct Hin as [Hin | [<- | []]].
    + left. now exists field.
    + right. left. now apply trim_chars.
  - destruct (Ascii.eqb char Str.dquote).
    + intros Hin Hc. destruct (IH _ _ _ _ _ Hin Hc) as [H | [H | H]]; tauto.
    + destruct (Ascii.eqb char Str.comma && negb inQuotes).
      * intros Hin Hc.
        destruct (IH _ _ _ _ _ Hin Hc) as [[v [Hv Hcv]] | [H | H]].
        -- apply in_app_or in Hv. destruct Hv as [Hv | [<- | []]].
           ++ left. now exists v.
           ++ right. left. now apply trim_chars.
        -- destruct H.
        -- tauto.
      * intros Hin Hc.
        destruct (IH _ _ _ _ _ Hin Hc) as [H | [H | H]]; [tauto | | tauto].
        rewrite chars_append in H. apply in_app_or in H.
        destruct H as [H | [<- | []]]; tauto.
Qed.

Lemma parseLine_loop_trimmed (line : string) :
  forall (values : list string) (current : string) (inQuotes : bool),
    Forall (fun v => Str.trim v = v) values ->
    Forall (fun v => Str.trim v = v)
      (parseLine_loop line values current inQuotes).
Proof.
  induction line as [|char rest IH]; intros values current inQuotes Hv; simpl.
  - apply Forall_app. split; [assumption |].
    constructor; [apply trim_idem | constructor].
  - destruct (Ascii.eqb char Str.dquote); [now apply IH |].
    destruct (Ascii.eqb char Str.comma && negb inQuotes); apply IH;
      [| assumption].
    apply Forall_app. split; [assumption |].
    constructor; [apply trim_idem | constructor].
Qed.

(** X1. In every row that [parseCSV] gives, a field has no white space at
    either end, holds no line break, and is made of characters of the
    text. *)
Theorem parseCSV_fields_clean (csvText : string) (row : list string)
    (field : string) :
  In row (parseCSV csvText) -> In field row ->
  Str.trim field = field
  /\ newline_free field
  /\ forall c : ascii, In c (Str.chars field) -> In c (Str.chars csvText).
Proof.
  intros Hrow Hfield. unfold parseCSV in Hrow.
  apply in_map_iff in Hrow. destruct Hrow as [line [<- Hline]].
  assert (forall c : ascii, In c (Str.chars field) -> In c (Str.chars line))
    as Hchars.
  { intros c Hc.
    destruct (parseLine_loop_chars line [] EmptyString false field c Hfield Hc)
      as [[v [[] _]] | [[] | H]]. exact H. }
  split; [| split].
  - pose proof (parseLine_loop_trimmed line [] EmptyString false
                  (List.Forall_nil _)) as Hall.
    rewrite List.Forall_forall in Hall. now apply Hall.
  - intros Hnl. apply (split_lines_newline_free _ _ Hline). now apply Hchars.
  - intros c Hc. apply Hchars in Hc. apply trim_chars.
    clear - Hline Hc. revert line Hline Hc.
    induction (Str.trim csvText) as [|x r IH]; intros line Hline Hc;
      simpl in Hline.
    + destruct Hline as [<- | []]. destruct Hc.
    + destruct (Ascii.eqb x Str.newline).
      * destruct Hline as [<- | Hline]; [destruct Hc |].
        right. now apply (IH line).
      * destruct (Str.split_lines r) as [|h t] eqn:Er.
        -- destruct Hline as [<- | []]. simpl in Hc. simpl. tauto.
        -- destruct Hline as [<- | Hline].
           ++ simpl in Hc. destruct Hc as [<- | Hc]; [now left |].
              right. apply (IH h); [now left | exact Hc].
           ++ right. apply (IH line); [now right | exact Hc].
Qed.

Lemma parseCSV_fields_clean_witness :
  Str.trim "x y" = "x y" /\ newline_free "x y"
  /\ forall c : ascii,
       In c (Str.chars "x y") ->
       In c (Str.chars (Sample.text ["a, b"; " 1 ,  x y  "])).
Proof.
  apply (parseCSV_fields_clean (Sample.text ["a, b"; " 1 ,  x y  "])
           ["1"; "x y"] "x y"); vm_compute; auto.
Defined.

Lemma commas_cons (c : ascii) (r : string) :
  commas (String c r)
  = if Ascii.eqb c Str.comma then S (commas r) else commas r.
Proof.
  unfold commas. cbn [Str.chars list_ascii_of_string List.filter].
  rewrite (Ascii.eqb_sym Str.comma c).
  destruct (Ascii.eqb c Str.comma); reflexivity.
Qed.

Lemma quote_free_cons (c : ascii) (r : string) :
  quote_free (String c r) -> c <> Str.dquote /\ quote_free r.
Proof.
  unfold quote_free. cbn [Str.chars list_ascii_of_string In].
  intros H. split; [intros -> | intros Hr]; tauto.
Qed.

(** The loop adds one field at the end and one for each comma it splits
    at. *)
Lemma parseLine_loop_count (line : string) :
  forall (values : list string) (current : string) (inQuotes : bool),
    (S (length values)
     <= length (parseLine_loop line values current inQuotes)
     <= S (length values + commas line))%nat
    /\ (quote_free line -> inQuotes = false ->
        length (parseLine_loop line values current inQuotes)
        = S (length values + commas line)).
Proof.
  induction line as [|char rest IH]; intros values current inQuotes.
  - cbn [parseLine_loop]. rewrite length_app.
    change (commas EmptyString) with 0%nat. cbn [length].
    split; [lia | intros _ _; lia].
  - cbn [parseLine_loop]. rewrite commas_cons.
    destruct (Ascii.eqb char Str.dquote) eqn:Eq.
    + apply Ascii.eqb_eq in Eq. subst char.
      change (Ascii.eqb Str.dquote Str.comma) with false. cbv iota.
      destruct (IH values current (negb inQuotes)) as [Hb _].
      split; [exact Hb |]. intros Hq. apply quote_free_cons in Hq. tauto.
    + destruct (Ascii.eqb char Str.comma) eqn:Ec.
      * destruct inQuotes; cbn [negb andb].
        -- destruct (IH values (current +:+ String char EmptyString) true)
             as [Hb _].
           split; [lia | discriminate].
        -- destruct (IH (values ++ [Str.trim current])%list EmptyString false)
             as [Hb He].
           rewrite length_app in Hb, He. simpl in Hb, He.
           split; [lia |]. intros Hq _. apply quote_free_cons in Hq.
           rewrite He; [lia | tauto | reflexivity].
      * cbn [andb].
        destruct (IH values (current +:+ String char EmptyString) inQuotes)
          as [Hb He].
        split; [exact Hb |]. intros Hq Hin. apply quote_free_cons in Hq.
        apply He; tauto.
Qed.

(** X2. A row has at least one field and at most one more than its line
    has commas; a line without a double quote gives exactly one field more
    than it has commas. *)
Theorem parseLine_field_count (line : string) :
  (1 <= length (parseLine line) <= 1 + commas line)%nat
  /\ (quote_free line -> length (parseLine line) = (1 + commas line)%nat).
Proof.
  destruct (parseLine_loop_count line [] EmptyString false) as [Hb He].
  unfold parseLine. simpl in Hb, He. split; [lia |].
  intros Hq. now apply He.
Qed.

Lemma parseLine_field_count_witness :
  length (parseLine "a, b,,c") = (1 + commas "a, b,,c")%nat.
Proof.
  apply (proj2 (parseLine_field_count "a, b,,c")).
  vm_compute. intuition discriminate.
Defined.

(** ** More on the record mappers *)

(** X3. Both mappers give one record less than the trimmed text has lines;
    a text that is blank or holds only a header line gives no record. *)
Theorem header_only_no_records (host : Host) (csvText : string) :
  length (parseDailyData host csvText)
  = (length (Str.split_lines (Str.trim csvText)) - 1)%nat
  /\ length (parseJobSessions host csvText)
     = (length (Str.split_lines (Str.trim csvText)) - 1)%nat
  /\ (newline_free (Str.trim csvText) ->
      parseDailyData host csvText = []
      /\ parseJobSessions host csvText = []).
Proof.
  unfold parseDailyData, parseJobSessions, parseCSV. cbv zeta.
  split; [| split].
  - destruct (Str.split_lines (Str.trim csvText)) as [|h t]; simpl;
      [reflexivity |]. rewrite !length_map. lia.
  - destruct (Str.split_lines (Str.trim csvText)) as [|h t]; simpl;
      [reflexivity |]. rewrite !length_map. lia.
  - intros Hfree. rewrite (split_lines_single _ Hfree). simpl. tauto.
Qed.

Lemma header_only_no_records_witness :
  parseDailyData Utc.host " start_date,total_sessions " = []
  /\ parseJobSessions Utc.host " start_date,total_sessions " = [].
Proof.
  apply (proj2 (proj2 (header_only_no_records Utc.host
                         " start_date,total_sessions "))).
  vm_compute. intuition discriminate.
Defined.

Lemma last_column_exists (headers : list string) (name : string) :
  In name (List.map Str.trim headers) ->
  exists index : nat, last_column headers name index.
Proof.
  unfold last_column. induction headers as [|h t IH]; simpl; [tauto |].
  intros Hin.
  destruct (in_dec string_dec name (List.map Str.trim t)) as [Hlater | Hnot].
  - destruct (IH Hlater) as [index [Hat Hlast]]. exists (S index).
    split; [exact Hat |]. intros j Hj. destruct j as [|j]; [lia |].
    simpl. apply Hlast. lia.
  - destruct Hin as [Hhere | Hlater]; [| tauto]. exists 0%nat.
    split; [simpl; now rewrite Hhere |].
    intros j Hj. destruct j as [|j]; [lia |]. simpl. intros Hat.
    apply Hnot. eapply nth_error_In. exact Hat.
Qed.

(** A name that no column of the header has is not written. *)
Lemma forEach_absent
    (f : gmap string value -> string -> nat -> gmap string value)
    (headers : list string) (name : string) :
  (forall obj header index, Str.trim header <> name ->
     f obj header index !! name = obj !! name) ->
  ~ In name (List.map Str.trim headers) ->
  JsArray.forEach f headers ∅ !! name = None.
Proof.
  intros Hf Hnot. unfold JsArray.forEach.
  rewrite (forEach_other f name headers Hf).
  - apply lookup_empty.
  - intros header Hin Heq. apply Hnot. rewrite <- Heq. now apply in_map.
Qed.

Lemma dailyField_outside (name : string) (d : DailyData.t) :
  ~ In name daily_columns -> dailyField name d = false.
Proof.
  intros Hnot. unfold dailyField.
  repeat match goal with
         | |- context [String.eqb name ?c] =>
             destruct (String.eqb_spec name c) as [-> | _];
             [exfalso; apply Hnot; vm_compute; tauto |]
         end.
  reflexivity.
Qed.

Lemma sessionField_outside (name : string) (s : JobSession.t) :
  ~ In name session_columns -> sessionField name s = false.
Proof.
  intros Hnot. unfold sessionField.
  repeat match goal with
         | |- context [String.eqb name ?c] =>
             destruct (String.eqb_spec name c) as [-> | _];
             [exfalso; apply Hnot; vm_compute; tauto |]
         end.
  reflexivity.
Qed.

(** The daily mapper writes only the columns it knows. *)
Lemma dailyColumn_unknown (host : Host) (row : list string)
    (obj : gmap string value) (header : string) (index : nat) (name : string) :
  ~ In name daily_columns ->
  dailyColumn host row obj header index !! name = obj !! name.
Proof.
  intros Hnot. unfold dailyColumn. cbv zeta.
  destruct (String.eqb_spec (Str.trim header) "start_date") as [Heq | _].
  - apply obj_set_lookup_ne. intros <-. apply Hnot. rewrite Heq. now left.
  - destruct (Str.includes daily_int_columns (Str.trim header)) eqn:Ei.
    + apply obj_set_lookup_ne. intros <-. apply Hnot.
      apply includes_In in Ei. right. apply in_or_app. now left.
    + destruct (Str.includes daily_real_columns (Str.trim header)) eqn:Er;
        [| reflexivity].
      apply obj_set_lookup_ne. intros <-. apply Hnot.
      apply includes_In in Er. right. apply in_or_app. now right.
Qed.

Lemma forEach_invariant
    (f : gmap string value -> string -> nat -> gmap string value)
    (name : string) (l : list string) :
  (forall obj header index, f obj header index !! name = obj !! name) ->
  forall (index : nat) (obj : gmap string value),
    JsArray.forEach_from f l index obj !! name = obj !! name.
Proof.
  intros Hf. induction l as [|x t IH]; intros index obj; simpl;
    [reflexivity |]. now rewrite IH.
Qed.

(** X4. A record of [parseDailyData] has a field exactly when the field is
    one of the nine columns the mapper knows and the header names it; any
    other column of the file leaves no property on the object. *)
Theorem daily_fields_follow_header (host : Host) (headers row : list string)
    (name : string) :
  (dailyField name (asDailyData (dailyObject host headers row)) = true
   <-> In name daily_columns /\ In name (List.map Str.trim headers))
  /\ (~ In name daily_columns -> dailyObject host headers row !! name = None).
Proof.
  split.
  - destruct (in_dec string_dec name daily_columns) as [Hcol | Hcol].
    2:{ rewrite dailyField_outside by assumption. split;
          [discriminate | tauto]. }
    destruct (in_dec string_dec name (List.map Str.trim headers))
      as [Hhead | Hhead].
    + split; [tauto | intros _].
      destruct (last_column_exists headers name Hhead) as [index Hlast].
      destruct (column_values host headers row name index Hlast)
        as [Hdate [Hint [Hreal _]]].
      destruct Hcol as [<- | Hcol].
      * unfold dailyField, asDailyData, get_str. simpl.
        now rewrite Hdate.
      * apply in_app_or in Hcol. destruct Hcol as [Hcol | Hcol].
        -- specialize (Hint Hcol). simpl in Hcol.
           destruct Hcol as [<- | [<- | [<- | [<- | []]]]];
             unfold dailyField, asDailyData, get_int; simpl;
             now rewrite Hint.
        -- specialize (Hreal Hcol). simpl in Hcol.
           destruct Hcol as [<- | [<- | [<- | [<- | []]]]];
             unfold dailyField, asDailyData, get_real; simpl;
             now rewrite Hreal.
    + split; [| tauto]. intros Hfield. exfalso.
      pose proof (forEach_absent (dailyColumn host row) headers name
                    (dailyColumn_other host row name) Hhead) as Hnone.
      fold (dailyObject host headers row) in Hnone.
      destruct Hcol as [<- | Hcol].
      * unfold dailyField, asDailyData, get_str in Hfield. simpl in Hfield.
        rewrite Hnone in Hfield. discriminate.
      * apply in_app_or in Hcol. destruct Hcol as [Hcol | Hcol]; simpl in Hcol.
        -- destruct Hcol as [<- | [<- | [<- | [<- | []]]]];
             unfold dailyField, asDailyData, get_int in Hfield;
             simpl in Hfield; rewrite Hnone in Hfield; discriminate.
        -- destruct Hcol as [<- | [<- | [<- | [<- | []]]]];
             unfold dailyField, asDailyData, get_real in Hfield;
             simpl in Hfield; rewrite Hnone in Hfield; discriminate.
  - intros Hcol. unfold dailyObject, JsArray.forEach.
    rewrite forEach_invariant; [apply lookup_empty |].
    intros obj header index. now apply dailyColumn_unknown.
Qed.

Lemma daily_fields_follow_header_witness :
  dailyObject Utc.host ["start_date"; "operator"] ["2024-03-10"; "ann"]
    !! "operator" = None.
Proof.
  apply (proj2 (daily_fields_follow_header Utc.host
                  ["start_date"; "operator"] ["2024-03-10"; "ann"]
                  "operator")).
  vm_compute. intuition discriminate.
Defined.

(** A field of the record of a row is there exactly when the header names
    it. *)
Lemma sessionObject_fields (host : Host) (headers row : list string)
    (name : string) :
  sessionField name (asJobSession (sessionObject host headers row)) = true
  <-> In name session_columns /\ In name (List.map Str.trim headers).
Proof.
  destruct (in_dec string_dec name session_columns) as [Hcol | Hcol].
  2:{ rewrite sessionField_outside by assumption. split;
        [discriminate | tauto]. }
  destruct (in_dec string_dec name (List.map Str.trim headers))
    as [Hhead | Hhead].
  - split; [tauto | intros _].
    destruct (last_column_exists headers name Hhead) as [index Hlast].
    destruct (column_values host headers row name index Hlast)
      as [_ [_ [_ [Hint [Hreal Hstr]]]]].
    simpl in Hcol.
    destruct Hcol as [<- | [<- | [<- | [<- | [<- | [<- | [<- | [<- | [<- | []]]]]]]]]];
      unfold sessionField, asJobSession, get_int, get_real, get_str; simpl;
      first [ rewrite Hint by (simpl; tauto); reflexivity
            | rewrite Hreal by (simpl; tauto); reflexivity
            | rewrite Hstr by (simpl; intuition discriminate); reflexivity ].
  - split; [| tauto]. intros Hfield. exfalso.
    pose proof (forEach_absent (sessionColumn host row) headers name
                  (sessionColumn_other host row name) Hhead) as Hnone.
    fold (sessionObject host headers row) in Hnone.
    simpl in Hcol.
    destruct Hcol as [<- | [<- | [<- | [<- | [<- | [<- | [<- | [<- | [<- | []]]]]]]]]];
      unfold sessionField, asJobSession, get_int, get_real, get_str in Hfield;
      simpl in Hfield; rewrite Hnone in Hfield; discriminate.
Qed.

(** X5. A record of [parseJobSessions] has one of the fields of a
    [JobSession] exactly when the header line of the text names it: a file
    without a column gives records without that field, whatever the rows
    hold. *)
Theorem session_fields_follow_header (host : Host) (csvText : string)
    (headers : list string) (data : list (list string)) :
  parseCSV csvText = headers :: data ->
  forall (record : JobSession.t) (name : string),
    In record (parseJobSessions host csvText) ->
    (sessionField name record = true
     <-> In name session_columns /\ In name (List.map Str.trim headers)).
Proof.
  intros Hrows record name Hin. unfold parseJobSessions in Hin.
  rewrite Hrows in Hin. cbv zeta in Hin. apply in_map_iff in Hin.
  destruct Hin as [row [<- _]]. apply sessionObject_fields.
Qed.

Lemma session_fields_follow_header_witness :
  sessionField "job_count"
    (asJobSession
       (sessionObject Utc.host
          ["session_id"; "start_date"; "start_hour"; "material_type";
           "status"; "duration_minutes"]
          ["7"; "2024-03-10"; "9"; "hyperDENT"; "Completed"; "42.5"]))
  = true
  <-> In "job_count" session_columns
      /\ In "job_count"
           (List.map Str.trim
              ["session_id"; "start_date"; "start_hour"; "material_type";
               "status"; "duration_minutes"]).
Proof.
  apply (session_fields_follow_header Utc.host Sample.sessions_csv
           ["session_id"; "start_date"; "start_hour"; "material_type";
            "status"; "duration_minutes"]
           [["7"; "2024-03-10"; "9"; "hyperDENT"; "Completed"; "42.5"];
            ["8"; "2024-03-11"; "14"; ""; "In Progress"; ""];
            ["x"; "2024-03-12"]]).
  - vm_compute. reflexivity.
  - vm_compute. left. reflexivity.
Defined.

(** ** More on the aggregation *)

(** X6. The recent sessions are ten of the kept sessions, or all of them
    when there are fewer, each as often as it is kept. When every kept
    session has a time, they are in order from the most recent on, and no
    session left out is more recent than one of them. *)
Theorem recent_sessions_rule (host : Host) (now : Z)
    (dailyData : list DailyData.t) (sessions : list JobSession.t)
    (timeRange : TimeRange) :
  let kept := filterSessions host timeRange now sessions in
  let recent :=
    Result.recentSessions
      (processDataForTimeRange host now dailyData sessions timeRange) in
  length recent = Nat.min 10 (length kept)
  /\ exists rest : list JobSession.t,
       Permutation (recent ++ rest) kept
       /\ (Forall (fun s => sessionTime host s <> None) kept ->
           StronglySorted (not_older host) (recent ++ rest)).
Proof.
  intros kept recent. subst recent. unfold processDataForTimeRange.
  cbn [Result.recentSessions]. fold kept.
  split.
  - rewrite length_firstn, sort_length. reflexivity.
  - exists (skipn 10 (JsArray.sort (compareRecent host) kept)).
    rewrite firstn_skipn. split; [apply sort_perm |].
    intros Htimes. rewrite List.Forall_forall in Htimes.
    set (key := fun s : JobSession.t => or0 (sessionTime host s)).
    rewrite (sort_ext_in (compareRecent host) (fun a b => key b - key a)).
    + eapply StronglySorted_weaken; [| apply (sort_descending key)].
      intros a b Hle ta tb Ha Hb. unfold key in Hle.
      rewrite Ha, Hb in Hle. exact Hle.
    + intros a b Ha Hb. unfold compareRecent, key.
      destruct (sessionTime host a) eqn:Ea; [| now apply Htimes in Ha].
      destruct (sessionTime host b) eqn:Eb; [| now apply Htimes in Hb].
      reflexivity.
Qed.

Lemma recent_sessions_rule_witness :
  exists rest : list JobSession.t,
    Permutation
      (Result.recentSessions
         (processDataForTimeRange Utc.host Sample.now []
            [Sample.session "2024-03-10" 9 None "Completed";
             Sample.session "2024-03-12" 9 None "Completed"] daily) ++ rest)
      (filterSessions Utc.host daily Sample.now
         [Sample.session "2024-03-10" 9 None "Completed";
          Sample.session "2024-03-12" 9 None "Completed"])
    /\ StronglySorted (not_older Utc.host)
         (Result.recentSessions
            (processDataForTimeRange Utc.host Sample.now []
               [Sample.session "2024-03-10" 9 None "Completed";
                Sample.session "2024-03-12" 9 None "Completed"] daily)
          ++ rest).
Proof.
  pose proof (recent_sessions_rule Utc.host Sample.now []
                [Sample.session "2024-03-10" 9 None "Completed";
                 Sample.session "2024-03-12" 9 None "Completed"] daily) as H.
  cbv zeta in H. destruct H as [_ [rest [Hperm Hsorted]]].
  exists rest. split; [exact Hperm |]. apply Hsorted.
  apply List.Forall_forall. intros s Hs. vm_compute in Hs.
  destruct Hs as [<- | [<- | []]]; vm_compute; discriminate.
Defined.

(** *** Sums that are kept *)

Lemma sumZ_app (l1 l2 : list Z) : sumZ (l1 ++ l2) = sumZ l1 + sumZ l2.
Proof. induction l1 as [|x t IH]; simpl; [reflexivity | rewrite IH; lia]. Qed.

Lemma sumZ_perm (l l' : list Z) : Permutation l l' -> sumZ l = sumZ l'.
Proof.
  induction 1 as [| x l l' _ IH | x y l | l l' l'' _ IH1 _ IH2]; simpl; lia.
Qed.

Lemma sumZ_map_add {K : Type} (f g : K -> Z) (keys : list K) :
  sumZ (List.map (fun k => f k + g k) keys)
  = sumZ (List.map f keys) + sumZ (List.map g keys).
Proof. induction keys as [|k t IH]; simpl; [reflexivity | rewrite IH; lia]. Qed.

Lemma sumZ_map_ext {K : Type} (f g : K -> Z) (keys : list K) :
  (forall k : K, In k keys -> f k = g k) ->
  sumZ (List.map f keys) = sumZ (List.map g keys).
Proof. intros H. f_equal. now apply map_ext_in. Qed.

(** Among keys without repetition, one key takes the whole of [v]. *)
Lemma sumZ_indicator {K : Type} `{EqDecision K} (k : K) (v : Z)
    (keys : list K) :
  List.NoDup keys ->
  sumZ (List.map (fun k' => if decide (k' = k) then v else 0) keys)
  = if in_dec (fun a b => decide (a = b)) k keys then v else 0.
Proof.
  induction 1 as [|x t Hx Ht IH]; simpl; [reflexivity |].
  rewrite IH. destruct (decide (x = k)) as [-> | Hne].
  - destruct (in_dec _ k t); [tauto |].
    destruct (decide (k = k)); [lia | congruence].
  - destruct (in_dec _ k t); destruct (decide (x = k)); try congruence; lia.
Qed.

Lemma keyOf_parses (host : Host) (groupBy : Z -> string) (item : DailyData.t) :
  keyOf host groupBy item = None
  <-> parseISO_field host (DailyData.start_date item) = None.
Proof.
  unfold keyOf. destruct (parseISO_field host (DailyData.start_date item));
    split; congruence.
Qed.

(** The buckets of keys without repetition, among them every key of the
    data, share out the records whose date parses. *)
Lemma buckets_share_out (host : Host) (groupBy : Z -> string)
    (f : DailyData.t -> option Z) (keys : list string) :
  List.NoDup keys ->
  forall data : list DailyData.t,
    (forall key : string, In key (keysOf host groupBy data) -> In key keys) ->
    sumZ (List.map (fun key => sumInt f (bucket host groupBy key data)) keys)
    = sumInt f
        (List.filter
           (fun item => defined (parseISO_field host (DailyData.start_date item)))
           data).
Proof.
  intros Hnd. induction data as [|x t IH]; intros Hkeys.
  - simpl. unfold sumInt. simpl. induction keys; simpl; [reflexivity |].
    inversion Hnd; subst. rewrite IHkeys; [reflexivity | assumption |].
    simpl. tauto.
  - simpl in Hkeys. cbn [List.filter].
    pose proof (keyOf_parses host groupBy x) as Hparse.
    unfold bucket. cbn [List.filter]. fold (bucket host groupBy).
    destruct (keyOf host groupBy x) as [kx |] eqn:Ex.
    + assert (parseISO_field host (DailyData.start_date x) <> None) as Hsome.
      { intros Hnone. apply Hparse in Hnone. discriminate. }
      destruct (parseISO_field host (DailyData.start_date x)) as [date |];
        [| congruence].
      cbn [defined]. rewrite sumInt_cons.
      rewrite <- IH by (intros key Hin; apply Hkeys; now right).
      rewrite (sumZ_map_ext _
                 (fun key => (if decide (key = kx) then or0 (f x) else 0)
                             + sumInt f
                                 (List.filter
                                    (fun item =>
                                       match keyOf host groupBy item with
                                       | Some k => String.eqb k key
                                       | None => false
                                       end) t))).
      * rewrite sumZ_map_add, sumZ_indicator by assumption.
        destruct (in_dec _ kx keys) as [_ | Hout]; [reflexivity |].
        exfalso. apply Hout, Hkeys. now left.
      * intros key _. destruct (String.eqb_spec kx key) as [-> | Hne].
        -- rewrite decide_True by reflexivity. now rewrite sumInt_cons.
        -- rewrite decide_False by congruence. lia.
    + assert (parseISO_field host (DailyData.start_date x) = None) as ->
        by now apply Hparse.
      cbn [defined]. now apply IH.
Qed.

Lemma filterDaily_parses (host : Host) (timeRange : TimeRange) (now : Z)
    (dailyData : list DailyData.t) :
  List.filter
    (fun item => defined (parseISO_field host (DailyData.start_date item)))
    (filterDaily host timeRange now dailyData)
  = filterDaily host timeRange now dailyData.
Proof.
  unfold filterDaily. induction dailyData as [|x t IH]; simpl; [reflexivity |].
  destruct (inWindow host timeRange now (DailyData.start_date x)) eqn:E;
    [| exact IH].
  simpl. unfold inWindow, isWithinInterval in E.
  destruct (parseISO_field host (DailyData.start_date x)); [| discriminate].
  simpl. now rewrite IH.
Qed.

(** X7. The jobs of the chart points add up to the sessions of the records
    that [groupDataByPeriod] is given and whose date parses: no record is
    counted twice or lost in the grouping. In the result of
    [processDataForTimeRange] they add up to the sessions of the daily
    records of the window. *)
Theorem chart_jobs_add_up (host : Host) :
  (forall (data : list DailyData.t) (groupBy : Z -> string),
     sumZ (List.map ChartData.jobs (groupDataByPeriod host data groupBy))
     = sumInt DailyData.total_sessions
         (List.filter
            (fun item =>
               defined (parseISO_field host (DailyData.start_date item)))
            data))
  /\ (forall (now : Z) (dailyData : list DailyData.t)
             (sessions : list JobSession.t) (timeRange : TimeRange),
        sumZ (List.map ChartData.jobs
                (Result.chartData
                   (processDataForTimeRange host now dailyData sessions
                      timeRange)))
        = sumInt DailyData.total_sessions
            (filterDaily host timeRange now dailyData)).
Proof.
  assert (forall (data : list DailyData.t) (groupBy : Z -> string),
     sumZ (List.map ChartData.jobs (groupDataByPeriod host data groupBy))
     = sumInt DailyData.total_sessions
         (List.filter
            (fun item =>
               defined (parseISO_field host (DailyData.start_date item)))
            data)) as Hall.
  { intros data groupBy. unfold groupDataByPeriod. cbv zeta.
    rewrite (sumZ_perm _ _ (Permutation_map _ (sort_perm _ _))).
    rewrite grouped_spec. unfold tabulate. rewrite !map_map.
    cbn [chartPoint ChartData.jobs].
    apply (buckets_share_out host groupBy DailyData.total_sessions).
    - apply distinct_NoDup.
    - intros key Hin. now apply distinct_In. }
  split; [exact Hall |].
  intros now dailyData sessions timeRange.
  unfold processDataForTimeRange. cbn [Result.chartData].
  rewrite Hall. now rewrite filterDaily_parses.
Qed.

Lemma occurrences_share_out {K : Type} `{EqDecision K} (keys : list K) :
  List.NoDup keys ->
  forall l : list K,
    (forall k : K, In k l -> In k keys) ->
    sumZ (List.map (fun k => occurrences k l) keys) = Z.of_nat (length l).
Proof.
  intros Hnd. induction l as [|x t IH]; intros Hkeys.
  - simpl. induction keys as [|k r IHr]; simpl; [reflexivity |].
    inversion Hnd; subst. rewrite IHr by (assumption || (simpl; tauto)).
    reflexivity.
  - rewrite (sumZ_map_ext _
               (fun k => (if decide (k = x) then 1 else 0) + occurrences k t)).
    + rewrite sumZ_map_add, sumZ_indicator by assumption.
      rewrite IH by (intros k Hin; apply Hkeys; now right).
      destruct (in_dec _ x keys) as [_ | Hout].
      * simpl length. lia.
      * exfalso. apply Hout, Hkeys. now left.
    + intros k _. rewrite occurrences_cons.
      destruct (decide (x = k)) as [-> | Hne].
      * now rewrite decide_True.
      * rewrite decide_False by congruence. reflexivity.
Qed.

Lemma materialsOf_length (l : list JobSession.t) :
  (length (materialsOf l) <= length l)%nat.
Proof.
  induction l as [|s t IH]; simpl; [lia |].
  destruct (JobSession.material_type s) as [m |]; [| lia].
  destruct (String.eqb m EmptyString); simpl; lia.
Qed.

Lemma distinct_length {K : Type} `{EqDecision K} (l : list K) :
  (length (distinct l) <= length l)%nat.
Proof.
  induction l as [|x t IH]; simpl; [lia |].
  pose proof (filter_length_le (fun y => negb (bool_decide (y = x)))
                (distinct t)). lia.
Qed.

(** X8. The counts of the material breakdown add up to the kept sessions
    that have a material, so to no more than the total of jobs; the number
    of material types on the card is the number of entries of the
    breakdown, and is no more than the total of jobs either. *)
Theorem breakdown_counts_add_up (host : Host) (now : Z)
    (dailyData : list DailyData.t) (sessions : list JobSession.t)
    (timeRange : TimeRange) :
  let kept := filterSessions host timeRange now sessions in
  let result :=
    processDataForTimeRange host now dailyData sessions timeRange in
  sumZ (List.map MaterialEntry.count (Result.materialBreakdown result))
  = Z.of_nat (length (materialsOf kept))
  /\ sumZ (List.map MaterialEntry.count (Result.materialBreakdown result))
     <= Result.totalJobs result
  /\ Result.materialTypes result
     = Z.of_nat (length (Result.materialBreakdown result))
  /\ 0 <= Result.materialTypes result <= Result.totalJobs result.
Proof.
  intros kept result. subst result. unfold processDataForTimeRange.
  cbn [Result.materialBreakdown Result.totalJobs Result.materialTypes].
  fold kept. rewrite materialCounts_spec. unfold breakdownOf.
  assert (sumZ (List.map MaterialEntry.count
                  (JsArray.sort
                     (fun a b => MaterialEntry.count b - MaterialEntry.count a)
                     (List.map materialEntry
                        (tabulate (fun m => occurrences m (materialsOf kept))
                           (distinct (materialsOf kept))))))
          = Z.of_nat (length (materialsOf kept))) as Hsum.
  { rewrite (sumZ_perm _ _ (Permutation_map _ (sort_perm _ _))).
    unfold tabulate. rewrite !map_map. cbn [materialEntry MaterialEntry.count].
    apply occurrences_share_out; [apply distinct_NoDup |].
    intros k Hin. now apply distinct_In. }
  pose proof (materialsOf_length kept) as Hlen.
  pose proof (distinct_length (materialsOf kept)) as Hdist.
  rewrite Hsum, sort_length. unfold tabulate. rewrite !length_map.
  repeat split; lia.
Qed.

(** *** Bounds *)

Lemma count_status_bounds (l : list JobSession.t) :
  0 <= count_status "Completed" l
  /\ 0 <= count_status "Incomplete" l
  /\ count_status "Completed" l + count_status "Incomplete" l
     <= Z.of_nat (length l).
Proof.
  induction l as [|s t IH]; simpl count_status; simpl length; [lia |].
  destruct (decide (JobSession.status s = Some "Completed")) as [Hc | Hc];
    destruct (decide (JobSession.status s = Some "Incomplete")) as [Hi | Hi];
    try lia.
  rewrite Hc in Hi. discriminate.
Qed.

(** X9. Whatever the input, the total of jobs is at most the number of
    sessions given, the error count lies between 0 and the total of jobs,
    and the completed and the incomplete sessions together are no more
    than the total of jobs. *)
Theorem summary_within_bounds (host : Host) (now : Z)
    (dailyData : list DailyData.t) (sessions : list JobSession.t)
    (timeRange : TimeRange) :
  let kept := filterSessions host timeRange now sessions in
  let result :=
    processDataForTimeRange host now dailyData sessions timeRange in
  0 <= Result.totalJobs result <= Z.of_nat (length sessions)
  /\ 0 <= Result.errorCount result <= Result.totalJobs result
  /\ 0 <= count_status "Completed" kept
  /\ count_status "Completed" kept + Result.errorCount result
     <= Result.totalJobs result.
Proof.
  intros kept result. subst result. unfold processDataForTimeRange.
  cbn [Result.totalJobs Result.errorCount]. fold kept.
  rewrite !count_status_filter.
  rewrite (count_status_perm "Incomplete" _ kept) by apply sort_perm.
  pose proof (count_status_bounds kept) as [Hc [Hi Hsum]].
  assert (length kept <= length sessions)%nat as Hkept
    by apply filter_length_le.
  lia.
Qed.


(** ** The job list *)

(** *** Pagination *)

Lemma totalPages_formula (count : nat) :
  Jobs.totalPages count = (Z.of_nat count + 24) / 25.
Proof.
  unfold Jobs.totalPages, Jobs.ITEMS_PER_PAGE, Qceiling, Qfloor.
  cbn [Qdiv Qinv inject_Z Qnum Qden Qmult Qopp Z.mul Pos.mul].
  rewrite Z.mul_1_r. cbn [Qinv Qnum Qden Qmult Qopp].
  change (Z.pos (1 * 25)) with 25.
  pose proof (Z.div_mod (- Z.of_nat count) 25 ltac:(lia)) as Ha.
  pose proof (Z.mod_pos_bound (- Z.of_nat count) 25 ltac:(lia)) as Hb.
  pose proof (Z.div_mod (Z.of_nat count + 24) 25 ltac:(lia)) as Hc.
  pose proof (Z.mod_pos_bound (Z.of_nat count + 24) 25 ltac:(lia)) as Hd.
  lia.
Qed.

Lemma firstn_min_length {A : Type} (n : nat) (l : list A) :
  firstn n l = firstn (Nat.min n (length l)) l.
Proof.
  destruct (Nat.le_gt_cases n (length l)) as [Hle | Hgt].
  - now rewrite Nat.min_l.
  - rewrite Nat.min_r by lia. rewrite !firstn_all2 by lia. reflexivity.
Qed.

(** [slice] between two indices in order, neither negative. *)
Lemma slice_firstn_skipn {A : Type} (l : list A) (start end_ : Z) :
  0 <= start <= end_ ->
  Jobs.slice l start end_
  = firstn (Z.to_nat (end_ - start)) (skipn (Z.to_nat start) l).
Proof.
  intros [H0 Hle]. unfold Jobs.slice. cbv zeta.
  assert ((start <? 0) = false) as -> by (apply Z.ltb_ge; lia).
  assert ((end_ <? 0) = false) as -> by (apply Z.ltb_ge; lia).
  destruct (Z.le_gt_cases (Z.of_nat (length l)) start) as [Hout | Hin].
  - rewrite !skipn_all2 by lia. now rewrite !firstn_nil.
  - rewrite (Z.min_l start) by lia.
    rewrite (firstn_min_length (Z.to_nat (end_ - start))).
    rewrite length_skipn. f_equal. lia.
Qed.

Lemma currentJobs_chunk {A : Type} (jobs : list A) (page : nat) :
  Jobs.currentJobs jobs (Z.of_nat (S page))
  = firstn 25 (skipn (25 * page) jobs).
Proof.
  unfold Jobs.currentJobs, Jobs.endIndex, Jobs.startIndex, Jobs.ITEMS_PER_PAGE.
  rewrite slice_firstn_skipn by lia. f_equal; [lia |]. f_equal. lia.
Qed.

Lemma firstn_add {A : Type} (a b : nat) (l : list A) :
  firstn (a + b) l = (firstn a l ++ firstn b (skipn a l))%list.
Proof.
  revert l. induction a as [|a IH]; intros l; [reflexivity |].
  destruct l as [|x t]; simpl.
  - now rewrite firstn_nil.
  - now rewrite IH.
Qed.

Lemma chunks_concat {A : Type} (jobs : list A) (pages : nat) :
  concat (List.map (fun page => firstn 25 (skipn (25 * page) jobs))
            (seq 0 pages))
  = firstn (25 * pages) jobs.
Proof.
  induction pages as [|n IH]; [reflexivity |].
  rewrite seq_S, map_app, concat_app, IH. simpl concat. rewrite app_nil_r.
  replace (25 * S n)%nat with (25 * n + 25)%nat by lia.
  now rewrite firstn_add.
Qed.

(** X12. The pages share out the jobs: the pages 1 to [totalPages], one
    after the other, are the list of jobs; every page before the last has
    25 jobs and the last has between 1 and 25; a page after the last is
    empty; and there is no page exactly when there is no job. *)
Theorem pages_partition {A : Type} (jobs : list A) :
  let pages := Jobs.totalPages (length jobs) in
  concat (List.map (fun page => Jobs.currentJobs jobs (Z.of_nat (S page)))
            (seq 0 (Z.to_nat pages))) = jobs
  /\ (forall page : Z, 1 <= page < pages ->
        length (Jobs.currentJobs jobs page) = 25%nat)
  /\ (1 <= pages ->
      (1 <= length (Jobs.currentJobs jobs pages) <= 25)%nat)
  /\ (forall page : Z, pages < page -> Jobs.currentJobs jobs page = [])
  /\ (pages = 0 <-> jobs = []).
Proof.
  intros pages.
  assert (pages = (Z.of_nat (length jobs) + 24) / 25) as Hpages
    by apply totalPages_formula.
  pose proof (Z.div_mod (Z.of_nat (length jobs) + 24) 25 ltac:(lia)) as Hdiv.
  pose proof (Z.mod_pos_bound (Z.of_nat (length jobs) + 24) 25 ltac:(lia))
    as Hmod.
  rewrite <- Hpages in Hdiv.
  assert (forall page : Z, 1 <= page ->
            length (Jobs.currentJobs jobs page)
            = Nat.min 25 (length jobs - 25 * Z.to_nat (page - 1))) as Hlen.
  { intros page Hpage.
    replace page with (Z.of_nat (S (Z.to_nat (page - 1)))) at 1 by lia.
    rewrite currentJobs_chunk, length_firstn, length_skipn. reflexivity. }
  split; [| split; [| split; [| split]]].
  - rewrite (map_ext _ (fun page => firstn 25 (skipn (25 * page) jobs)))
      by (intros page; apply currentJobs_chunk).
    rewrite chunks_concat. apply firstn_all2. lia.
  - intros page Hpage. rewrite Hlen by lia. lia.
  - intros Hone. rewrite Hlen by lia. lia.
  - intros page Hpage. apply length_zero_iff_nil. rewrite Hlen by lia. lia.
  - rewrite <- length_zero_iff_nil. lia.
Qed.

Lemma pages_partition_witness :
  (1 <= length (Jobs.currentJobs (seq 0 60) (Jobs.totalPages (length (seq 0 60))))
     <= 25)%nat.
Proof.
  refine (proj1 (proj2 (proj2 (pages_partition (seq 0 60)))) _).
  vm_compute. discriminate.
Defined.

Lemma consecutive_NoDup (totalPages currentPage : Z) (count : nat) :
  forall start : nat,
    List.NoDup
      (List.map (Jobs.pageNum totalPages currentPage) (seq start count)).
Proof.
  induction count as [|n IH]; intros start; simpl; constructor; [| apply IH].
  intros Hin. apply in_map_iff in Hin. destruct Hin as [i [Heq Hi]].
  apply in_seq in Hi. unfold Jobs.pageNum in Heq. lia.
Qed.

(** X13. On a page between 1 and [totalPages] the bar shows five page
    buttons, or as many as there are pages: consecutive page numbers, all
    between 1 and [totalPages], no number twice, the current page among
    them. *)
Theorem page_buttons_window (totalPages currentPage : Z) :
  1 <= currentPage <= totalPages ->
  let buttons := Jobs.pageButtons totalPages currentPage in
  length buttons = Z.to_nat (Z.min 5 totalPages)
  /\ (forall i : nat, (i < length buttons)%nat ->
        nth_error buttons i
        = Some (Jobs.pageNum totalPages currentPage 0 + Z.of_nat i))
  /\ (forall page : Z, In page buttons -> 1 <= page <= totalPages)
  /\ List.NoDup buttons
  /\ In currentPage buttons.
Proof.
  intros Hpage buttons. subst buttons. unfold Jobs.pageButtons.
  rewrite length_map, length_seq.
  split; [reflexivity |]. split; [| split; [| split]].
  - intros i Hi. rewrite nth_error_map, nth_error_seq.
    destruct (Nat.ltb_spec i (Z.to_nat (Z.min 5 totalPages))) as [_ | Hge];
      [| lia].
    simpl. unfold Jobs.pageNum. f_equal. lia.
  - intros page Hin. apply in_map_iff in Hin.
    destruct Hin as [i [<- Hi]]. apply in_seq in Hi.
    unfold Jobs.pageNum. lia.
  - apply consecutive_NoDup.
  - apply in_map_iff.
    exists (Z.to_nat (currentPage - Jobs.pageNum totalPages currentPage 0)).
    unfold Jobs.pageNum. split; [lia |]. apply in_seq. lia.
Qed.

Lemma page_buttons_window_witness :
  In 7 (Jobs.pageButtons 12 7).
Proof.
  refine (proj2 (proj2 (proj2 (proj2 (page_buttons_window 12 7 _))))). lia.
Defined.

(** *** The page state *)

Section PageState.
Context (matching : Jobs.JobFilters.t -> nat).

Lemma step_in_range (s s' : Jobs.State) (e : Jobs.Event) :
  Jobs.page_in_range matching s -> Jobs.step matching s e = Some s' ->
  Jobs.page_in_range matching s'.
Proof.
  unfold Jobs.page_in_range. intros Hs Hstep.
  destruct e as [field | key value | today | | | i]; simpl in Hstep.
  - injection Hstep as <-. unfold Jobs.handleSort.
    destruct (Jobs.sortField_eqb _ _); simpl; lia.
  - injection Hstep as <-. simpl. lia.
  - injection Hstep as <-. simpl. lia.
  - destruct ((1 <? Jobs.pagesOf matching s)
              && negb (Jobs.currentPage s =? 1)) eqn:E; [| discriminate].
    injection Hstep as <-. unfold Jobs.pagesOf in *. simpl. lia.
  - destruct ((1 <? Jobs.pagesOf matching s)
              && negb (Jobs.currentPage s =? Jobs.pagesOf matching s)) eqn:E;
      [| discriminate].
    injection Hstep as <-. unfold Jobs.pagesOf in *. simpl. lia.
  - destruct ((1 <? Jobs.pagesOf matching s)
              && (Z.of_nat i <? Z.min 5 (Jobs.pagesOf matching s))) eqn:E;
      [| discriminate].
    injection Hstep as <-. apply andb_prop in E. destruct E as [E1 E2].
    apply Z.ltb_lt in E1, E2. unfold Jobs.pagesOf, Jobs.pageNum in *.
    simpl. lia.
Qed.

Lemma run_in_range (events : list Jobs.Event) :
  forall s : Jobs.State,
    Jobs.page_in_range matching s ->
    Jobs.page_in_range matching (Jobs.run matching s events).
Proof.
  induction events as [|e rest IH]; intros s Hs; simpl; [exact Hs |].
  destruct (Jobs.step matching s e) as [s' |] eqn:E.
  - apply IH. now apply (step_in_range s s' e).
  - now apply IH.
Qed.

End PageState.

Lemma currentJobs_length {A : Type} (jobs : list A) (page : Z) :
  1 <= page ->
  length (Jobs.currentJobs jobs page)
  = Nat.min 25 (length jobs - 25 * Z.to_nat (page - 1)).
Proof.
  intros Hpage.
  replace page with (Z.of_nat (S (Z.to_nat (page - 1)))) at 1 by lia.
  rewrite currentJobs_chunk, length_firstn, length_skipn. reflexivity.
Qed.

Lemma totalPages_bounds (count : nat) :
  25 * (Jobs.totalPages count - 1) < Z.of_nat count
  <= 25 * Jobs.totalPages count.
Proof.
  rewrite totalPages_formula.
  pose proof (Z.div_mod (Z.of_nat count + 24) 25 ltac:(lia)).
  pose proof (Z.mod_pos_bound (Z.of_nat count + 24) 25 ltac:(lia)).
  lia.
Qed.

(** X14. Whatever the user does from the first render on (sorting,
    changing or resetting the filters, paging with the buttons that are
    enabled), the current page stays between 1 and the number of pages, or
    is 1 when nothing matches; so the table is never empty while jobs
    match the filters. *)
Theorem page_stays_in_range (matching : Jobs.JobFilters.t -> nat)
    (today : string) (events : list Jobs.Event) :
  let s := Jobs.run matching (Jobs.initial today) events in
  1 <= Jobs.currentPage s <= Z.max 1 (Jobs.pagesOf matching s)
  /\ forall jobs : list JobSession.t,
       length jobs = matching (Jobs.filters s) ->
       jobs <> [] ->
       Jobs.currentJobs jobs (Jobs.currentPage s) <> [].
Proof.
  intros s.
  assert (Jobs.page_in_range matching s) as Hrange.
  { apply run_in_range. unfold Jobs.page_in_range. simpl. lia. }
  split; [exact Hrange |].
  intros jobs Hlen Hne Hempty. unfold Jobs.page_in_range in Hrange.
  apply (f_equal (@length JobSession.t)) in Hempty.
  rewrite currentJobs_length in Hempty by lia. cbn [length] in Hempty.
  unfold Jobs.pagesOf in Hrange. rewrite <- Hlen in Hrange.
  pose proof (totalPages_bounds (length jobs)).
  assert (length jobs <> 0)%nat by (destruct jobs; simpl; congruence).
  lia.
Qed.

Lemma page_stays_in_range_witness :
  Jobs.currentJobs (repeat noFields 30)
    (Jobs.currentPage
       (Jobs.run (fun _ => 30%nat) (Jobs.initial "2024-03-15")
          [Jobs.ClickNext; Jobs.ClickNext; Jobs.ClickPage 1]))
  <> [].
Proof.
  refine (proj2 (page_stays_in_range (fun _ => 30%nat) "2024-03-15"
                   [Jobs.ClickNext; Jobs.ClickNext; Jobs.ClickPage 1])
            (repeat noFields 30) _ _).
  - reflexivity.
  - discriminate.
Defined.

(** X15. The line "Showing a-b of n jobs" is right on every page that
    exists, and on page 1 when there is no job: the table has b - a + 1
    rows, they are the jobs number a to b of the list, and b is at most
    n. *)
Theorem showing_line_counts (jobs : list JobSession.t) (currentPage : Z) :
  1 <= currentPage <= Z.max 1 (Jobs.totalPages (length jobs)) ->
  let a := Jobs.showingFrom currentPage in
  let b := Jobs.showingTo (length jobs) currentPage in
  Z.of_nat (length (Jobs.currentJobs jobs currentPage)) = b - a + 1
  /\ Jobs.currentJobs jobs currentPage
     = firstn (Z.to_nat (b - a + 1)) (skipn (Z.to_nat (a - 1)) jobs)
  /\ a - 1 <= b <= Z.of_nat (length jobs).
Proof.
  intros Hpage a b. subst a b.
  unfold Jobs.showingFrom, Jobs.showingTo, Jobs.endIndex, Jobs.startIndex,
    Jobs.ITEMS_PER_PAGE.
  pose proof (totalPages_bounds (length jobs)) as Hpages.
  rewrite currentJobs_length by lia.
  split; [lia |]. split; [| lia].
  replace currentPage with (Z.of_nat (S (Z.to_nat (currentPage - 1)))) at 1
    by lia.
  rewrite currentJobs_chunk.
  replace (Z.to_nat ((currentPage - 1) * 25 + 1 - 1))
    with (25 * Z.to_nat (currentPage - 1))%nat by lia.
  rewrite (firstn_min_length 25), length_skipn. f_equal. lia.
Qed.

Lemma showing_line_counts_witness :
  Z.of_nat (length (Jobs.currentJobs (repeat noFields 30) 2)) = 30 - 26 + 1.
Proof.
  refine (proj1 (showing_line_counts (repeat noFields 30) 2 _)).
  vm_compute. split; discriminate.
Defined.

(** *** The search *)

Lemma prefix_spec (sub s : string) :
  String.prefix sub s = true <-> exists post : string, s = sub +:+ post.
Proof.
  revert s. induction sub as [|c r IH]; intros s.
  - split; [intros _; now exists s | intros _; destruct s; reflexivity].
  - destruct s as [|d t]; simpl.
    + split; [discriminate | intros [post H]; discriminate].
    + destruct (ascii_dec c d) as [-> | Hne].
      * rewrite IH. split; intros [post H]; exists post; congruence.
      * split; [discriminate | intros [post H]; congruence].
Qed.

Lemma includes_spec (s sub : string) :
  Jobs.includes s sub = true <-> substring_of sub s.
Proof.
  unfold substring_of. split.
  - induction s as [|c r IH].
    + cbn [Jobs.includes].
      destruct (String.prefix sub EmptyString) eqn:E; [| discriminate].
      intros _. apply prefix_spec in E. destruct E as [post ->].
      now exists EmptyString, post.
    + cbn [Jobs.includes].
      destruct (String.prefix sub (String c r)) eqn:E.
      * intros _. apply prefix_spec in E. destruct E as [post ->].
        now exists EmptyString, post.
      * intros Hin. destruct (IH Hin) as [pre [post ->]].
        now exists (String c pre), post.
  - intros [pre [post ->]]. induction pre as [|c r IH].
    + assert (String.prefix sub (sub +:+ post) = true) as Hp
        by (apply prefix_spec; now exists post).
      change (EmptyString +:+ sub +:+ post) with (sub +:+ post).
      destruct (sub +:+ post); cbn [Jobs.includes]; now rewrite Hp.
    + change (String c r +:+ sub +:+ post)
        with (String c (r +:+ sub +:+ post)).
      cbn [Jobs.includes]. rewrite IH.
      now destruct (String.prefix sub _).
Qed.

Lemma lower_char_idem (c : ascii) :
  Jobs.lower_char (Jobs.lower_char c) = Jobs.lower_char c.
Proof. destruct c as [[] [] [] [] [] [] [] []]; reflexivity. Qed.

Lemma toLowerCase_idem (s : string) :
  Jobs.toLowerCase (Jobs.toLowerCase s) = Jobs.toLowerCase s.
Proof.
  induction s as [|c r IH]; simpl; [reflexivity |].
  now rewrite lower_char_idem, IH.
Qed.

Lemma toLowerCase_empty (s : string) :
  String.eqb (Jobs.toLowerCase s) EmptyString = String.eqb s EmptyString.
Proof. destruct s; reflexivity. Qed.

(** X16. For a job that has a status and a session id the search never
    throws, and it keeps the job exactly when the lower-case search text
    occurs in the lower-cased material type, material colour or status, or
    in the decimal digits of the session id. *)
Theorem search_rule (searchLower : string) (job : JobSession.t)
    (status : string) (id : Z) :
  JobSession.status job = Some status ->
  JobSession.session_id job = Some id ->
  exists found : bool,
    Jobs.searchMatches searchLower job = Some found
    /\ (found = true
        <-> (exists material : string,
               JobSession.material_type job = Some material
               /\ substring_of searchLower (Jobs.toLowerCase material))
            \/ (exists colour : string,
                  JobSession.material_color job = Some colour
                  /\ substring_of searchLower (Jobs.toLowerCase colour))
            \/ substring_of searchLower (Jobs.toLowerCase status)
            \/ substring_of searchLower (Jobs.numberToString id)).
Proof.
  intros Hstatus Hid. unfold Jobs.searchMatches. cbv zeta.
  rewrite Hstatus, Hid.
  assert (forall field : option string,
            match field with
            | Some text => Jobs.includes (Jobs.toLowerCase text) searchLower
            | None => false
            end = true
            <-> exists text : string,
                  field = Some text
                  /\ substring_of searchLower (Jobs.toLowerCase text))
    as Hfield.
  { intros [text |].
    - rewrite includes_spec. split.
      + intros H. now exists text.
      + intros [t [[= <-] H]]. exact H.
    - split; [discriminate | intros [t [[=] _]]]. }
  pose proof (Hfield (JobSession.material_type job)) as Hm.
  pose proof (Hfield (JobSession.material_color job)) as Hc.
  pose proof (includes_spec (Jobs.toLowerCase status) searchLower) as Hs.
  pose proof (includes_spec (Jobs.numberToString id) searchLower) as Hi.
  destruct (match JobSession.material_type job with
            | Some text => Jobs.includes (Jobs.toLowerCase text) searchLower
            | None => false
            end) eqn:Em.
  { exists true. split; [reflexivity |]. split; [intros _ | reflexivity].
    left. now apply Hm. }
  destruct (match JobSession.material_color job with
            | Some text => Jobs.includes (Jobs.toLowerCase text) searchLower
            | None => false
            end) eqn:Ec.
  { exists true. split; [reflexivity |]. split; [intros _ | reflexivity].
    right. left. now apply Hc. }
  destruct (Jobs.includes (Jobs.toLowerCase status) searchLower) eqn:Es.
  { exists true. split; [reflexivity |]. split; [intros _ | reflexivity].
    right. right. left. now apply Hs. }
  exists (Jobs.includes (Jobs.numberToString id) searchLower).
  split; [reflexivity |]. rewrite Hi. split; [tauto |].
  intros [H | [H | [H | H]]].
  - apply Hm in H. discriminate.
  - apply Hc in H. discriminate.
  - apply Hs in H. discriminate.
  - exact H.
Qed.

Lemma search_rule_witness :
  exists found : bool,
    Jobs.searchMatches "comp" (Sample.session "2024-03-10" 9 None "Completed")
    = Some found
    /\ (found = true
        <-> (exists material : string,
               JobSession.material_type
                 (Sample.session "2024-03-10" 9 None "Completed")
               = Some material
               /\ substring_of "comp" (Jobs.toLowerCase material))
            \/ (exists colour : string,
                  JobSession.material_color
                    (Sample.session "2024-03-10" 9 None "Completed")
                  = Some colour
                  /\ substring_of "comp" (Jobs.toLowerCase colour))
            \/ substring_of "comp" (Jobs.toLowerCase "Completed")
            \/ substring_of "comp" (Jobs.numberToString 1)).
Proof.
  apply (search_rule "comp" (Sample.session "2024-03-10" 9 None "Completed")
           "Completed" 1); reflexivity.
Defined.

Lemma filterThrowing_ext {A : Type} (f g : A -> option bool) (l : list A) :
  (forall x : A, In x l -> f x = g x) ->
  Jobs.filterThrowing f l = Jobs.filterThrowing g l.
Proof.
  induction l as [|x t IH]; intros H; simpl; [reflexivity |].
  rewrite (H x) by now left.
  rewrite IH by (intros y Hy; apply H; now right). reflexivity.
Qed.

(** X17. The material filter and the search do not see the letter case of
    what the user types: the text and its lower-case form give the same
    jobs, or the same failure. *)
Theorem filters_ignore_case (materialType status search : string)
    (filtered : list JobSession.t) :
  Jobs.filterStages (Jobs.toLowerCase materialType) status
    (Jobs.toLowerCase search) filtered
  = Jobs.filterStages materialType status search filtered.
Proof.
  unfold Jobs.filterStages. cbv zeta.
  rewrite !toLowerCase_empty, toLowerCase_idem.
  assert (List.filter (Jobs.materialMatches (Jobs.toLowerCase materialType))
            filtered
          = List.filter (Jobs.materialMatches materialType) filtered) as ->.
  { apply filter_ext. intros job. unfold Jobs.materialMatches.
    now rewrite toLowerCase_idem. }
  reflexivity.
Qed.

Lemma filterThrowing_total {A : Type} (callback : A -> option bool)
    (l : list A) :
  (forall x : A, In x l -> callback x <> None) ->
  exists result : list A, Jobs.filterThrowing callback l = Some result.
Proof.
  induction l as [|x t IH]; intros Hall; simpl; [now exists [] |].
  destruct (callback x) as [keep |] eqn:E.
  - destruct IH as [rest ->]; [intros y Hy; apply Hall; now right |].
    now exists (if keep then x :: rest else rest).
  - exfalso. apply (Hall x); [now left | exact E].
Qed.

Lemma sessionField_status (s : JobSession.t) :
  sessionField "status" s = defined (JobSession.status s).
Proof. reflexivity. Qed.

Lemma sessionField_session_id (s : JobSession.t) :
  sessionField "session_id" s = defined (JobSession.session_id s).
Proof. reflexivity. Qed.

(** X18. On the sessions read from a text whose header line names the
    columns [status] and [session_id], the filters of the job list never
    throw. On those of a text without [status] column the search throws
    for every job that it does not find by material type or colour: it
    rejects none. *)
Theorem search_on_parsed_sessions (host : Host) (csvText : string)
    (headers : list string) (data : list (list string)) :
  parseCSV csvText = headers :: data ->
  (In "status" (List.map Str.trim headers) ->
   In "session_id" (List.map Str.trim headers) ->
   forall materialType status search : string,
   exists result : list JobSession.t,
     Jobs.filterStages materialType status search
       (parseJobSessions host csvText) = Some result)
  /\ (~ In "status" (List.map Str.trim headers) ->
      forall (searchLower : string) (job : JobSession.t),
        In job (parseJobSessions host csvText) ->
        Jobs.searchMatches searchLower job <> Some false).
Proof.
  intros Hrows.
  assert (forall (job : JobSession.t) (name : string),
            In job (parseJobSessions host csvText) ->
            (sessionField name job = true
             <-> In name session_columns
                 /\ In name (List.map Str.trim headers))) as Hfields.
  { intros job name Hin. unfold parseJobSessions in Hin.
    rewrite Hrows in Hin. cbv zeta in Hin. apply in_map_iff in Hin.
    destruct Hin as [row [<- _]]. apply sessionObject_fields. }
  split.
  - intros Hstatus Hid materialType status search.
    unfold Jobs.filterStages. cbv zeta.
    set (byMaterial :=
           if String.eqb materialType EmptyString
           then parseJobSessions host csvText
           else List.filter (Jobs.materialMatches materialType)
                  (parseJobSessions host csvText)).
    set (byStatus :=
           if String.eqb status EmptyString then byMaterial
           else List.filter (statusIs status) byMaterial).
    assert (forall job : JobSession.t, In job byStatus ->
              In job (parseJobSessions host csvText)) as Hsub.
    { intros job Hin. unfold byStatus, byMaterial in Hin.
      destruct (String.eqb status EmptyString);
        destruct (String.eqb materialType EmptyString);
        repeat (apply filter_In in Hin; destruct Hin as [Hin _]);
        exact Hin. }
    destruct (String.eqb search EmptyString); [now exists byStatus |].
    apply filterThrowing_total. intros job Hin. apply Hsub in Hin.
    pose proof (proj2 (Hfields job "status" Hin)) as Hs.
    pose proof (proj2 (Hfields job "session_id" Hin)) as Hi.
    rewrite sessionField_status in Hs.
    rewrite sessionField_session_id in Hi.
    unfold Jobs.searchMatches. cbv zeta.
    destruct (JobSession.status job) as [st |];
      [| simpl in Hs; specialize (Hs ltac:(split; [vm_compute; tauto | exact Hstatus]));
         discriminate].
    destruct (JobSession.session_id job) as [id |];
      [| simpl in Hi; specialize (Hi ltac:(split; [vm_compute; tauto | exact Hid]));
         discriminate].
    repeat match goal with
           | |- context [if ?c then _ else _] => destruct c
           end; discriminate.
  - intros Hstatus searchLower job Hin.
    pose proof (proj1 (Hfields job "status" Hin)) as Hs.
    rewrite sessionField_status in Hs.
    unfold Jobs.searchMatches. cbv zeta.
    destruct (JobSession.status job) as [st |];
      [exfalso; apply Hstatus, Hs; reflexivity |].
    repeat match goal with
           | |- context [if ?c then _ else _] => destruct c
           end; discriminate.
Qed.

Lemma search_on_parsed_sessions_witness :
  exists result : list JobSession.t,
    Jobs.filterStages "hyper" "" "Comp"
      (parseJobSessions Utc.host Sample.sessions_csv) = Some result.
Proof.
  refine (proj1 (search_on_parsed_sessions Utc.host Sample.sessions_csv
                   ["session_id"; "start_date"; "start_hour"; "material_type";
                    "status"; "duration_minutes"]
                   [["7"; "2024-03-10"; "9"; "hyperDENT"; "Completed"; "42.5"];
                    ["8"; "2024-03-11"; "14"; ""; "In Progress"; ""];
                    ["x"; "2024-03-12"]] _) _ _ "hyper" "" "Comp").
  - vm_compute. reflexivity.
  - vm_compute. tauto.
  - vm_compute. tauto.
Defined.

(** *** The export *)

Lemma exportRows_spec (host : Host) (toFixed1 : float -> string)
    (jobs : list JobSession.t) :
  match Jobs.exportRows host toFixed1 jobs with
  | None =>
      exists job : JobSession.t,
        In job jobs /\ Jobs.exportCells host toFixed1 job = None
  | Some rows =>
      Forall2
        (fun job row =>
           exists cells : list string,
             Jobs.exportCells host toFixed1 job = Some cells
             /\ row = Str.join (String Str.comma EmptyString) cells)
        jobs rows
  end.
Proof.
  induction jobs as [|job rest IH]; simpl; [constructor |].
  destruct (Jobs.exportCells host toFixed1 job) as [cells |] eqn:E.
  - destruct (Jobs.exportRows host toFixed1 rest) as [rows |].
    + constructor; [now exists cells | exact IH].
    + destruct IH as [bad [Hin Hbad]]. exists bad. split; [now right | exact Hbad].
  - exists job. split; [now left | exact E].
Qed.

(** X19. The export is all or nothing: it fails, and no file is written,
    exactly when some job of the list has no time that parses, its
    [session_start] when that is there and not empty and its [start_date]
    otherwise; when it succeeds the text is the header line followed by one
    line of seven cells for each job, in the order of the list. *)
Theorem export_all_or_nothing (host : Host) (toFixed1 : float -> string)
    (jobs : list JobSession.t) :
  (Jobs.csvContent host toFixed1 jobs = None
   <-> exists job : JobSession.t,
         In job jobs
         /\ parseISO_field host
              (if Str.truthy (JobSession.session_start job)
               then JobSession.session_start job
               else JobSession.start_date job) = None)
  /\ (forall content : string,
        Jobs.csvContent host toFixed1 jobs = Some content ->
        exists rows : list string,
          content
          = Str.join (String Str.newline EmptyString)
              (Str.join (String Str.comma EmptyString) Jobs.exportHeaders
               :: rows)
          /\ Forall2
               (fun job row =>
                  exists cells : list string,
                    Jobs.exportCells host toFixed1 job = Some cells
                    /\ length cells = 7%nat
                    /\ row = Str.join (String Str.comma EmptyString) cells)
               jobs rows).
Proof.
  assert (forall job : JobSession.t,
            Jobs.exportCells host toFixed1 job = None
            <-> parseISO_field host
                  (if Str.truthy (JobSession.session_start job)
                   then JobSession.session_start job
                   else JobSession.start_date job) = None) as Hcells.
  { intros job. unfold Jobs.exportCells. cbv zeta.
    destruct (parseISO_field host _); split; congruence. }
  pose proof (exportRows_spec host toFixed1 jobs) as Hrows.
  unfold Jobs.csvContent.
  destruct (Jobs.exportRows host toFixed1 jobs) as [rows |].
  - split.
    + split; [discriminate |]. intros [job [Hin Hbad]]. exfalso.
      apply Hcells in Hbad. clear - Hrows Hin Hbad.
      induction Hrows as [|j r js rs [cells [Hc _]] _ IH]; [destruct Hin |].
      destruct Hin as [-> | Hin]; [congruence | now apply IH].
    + intros content [= <-]. exists rows. split; [reflexivity |].
      induction Hrows as [|job row js rs [cells [Hc ->]] _ IH];
        constructor; [| exact IH].
      exists cells. repeat split; try assumption.
      unfold Jobs.exportCells in Hc. cbv zeta in Hc.
      destruct (parseISO_field host _); [| discriminate].
      injection Hc as <-. reflexivity.
  - split; [| discriminate]. split; [intros _ | reflexivity].
    destruct Hrows as [job [Hin Hbad]]. exists job. split; [exact Hin |].
    now apply Hcells.
Qed.

Lemma export_all_or_nothing_witness :
  Jobs.csvContent Utc.host (fun _ => "15.0")
    [Sample.session "2024-03-10" 9 None "Completed"; noFields] = None.
Proof.
  apply (proj2 (proj1 (export_all_or_nothing Utc.host (fun _ => "15.0")
                         [Sample.session "2024-03-10" 9 None "Completed";
                          noFields]))).
  exists noFields. split; [right; left; reflexivity | reflexivity].
Defined.

Lemma trimEnd_app (a b : string) :
  Str.trimEnd (a +:+ b)
  = match Str.trimEnd b with
    | EmptyString => Str.trimEnd a
    | String c r => a +:+ String c r
    end.
Proof.
  induction a as [|x t IH].
  - change (EmptyString +:+ b) with b. now destruct (Str.trimEnd b).
  - change (String x t +:+ b) with (String x (t +:+ b)).
    rewrite trimEnd_cons, IH.
    destruct (Str.trimEnd b) as [|c r].
    + now rewrite trimEnd_cons.
    + now destruct t.
Qed.

Lemma trimEnd_first (c : ascii) (r : string) :
  Str.trimEnd (String c r) = EmptyString
  \/ exists r' : string, Str.trimEnd (String c r) = String c r'.
Proof.
  rewrite trimEnd_cons. destruct (Str.trimEnd r) as [|c' r''].
  - destruct (Str.is_white_space c); [now left | right; now eexists].
  - right. now eexists.
Qed.

Lemma split_lines_first (a r : string) :
  newline_free a ->
  Str.split_lines (a +:+ String Str.newline r) = a :: Str.split_lines r.
Proof.
  unfold newline_free. induction a as [|x t IH]; intros Hfree.
  - reflexivity.
  - change (String x t +:+ String Str.newline r)
      with (String x (t +:+ String Str.newline r)).
    cbn [Str.split_lines].
    destruct (Ascii.eqb x Str.newline) eqn:E.
    + apply Ascii.eqb_eq in E. exfalso. apply Hfree. simpl. now left.
    + rewrite IH; [reflexivity |]. intros Hin. apply Hfree. simpl. now right.
Qed.

(** The first row that [parseCSV] reads from an export is the header of the
    export. *)
Lemma parseCSV_of_export (rows : list string) :
  exists data : list (list string),
    parseCSV
      (Str.join (String Str.newline EmptyString)
         (Str.join (String Str.comma EmptyString) Jobs.exportHeaders :: rows))
    = Jobs.exportHeaders :: data.
Proof.
  set (header := Str.join (String Str.comma EmptyString) Jobs.exportHeaders).
  assert (newline_free header) as Hfree
    by (vm_compute; intuition discriminate).
  assert (parseLine header = Jobs.exportHeaders) as Hparse
    by (vm_compute; reflexivity).
  assert (Str.trimEnd header = header) as Hend by (vm_compute; reflexivity).
  assert (forall x : string, Str.trimStart (header +:+ x) = header +:+ x)
    as Hstart by (intros x; reflexivity).
  unfold parseCSV. cbv zeta. cbn [Str.join]. fold header.
  destruct rows as [|row rest].
  - exists []. unfold Str.trim.
    replace (Str.trimStart header) with header by (vm_compute; reflexivity).
    rewrite Hend, (split_lines_single header Hfree). simpl. now rewrite Hparse.
  - set (tail := Str.join (String Str.newline EmptyString) (row :: rest)).
    change ((header +:+ String Str.newline EmptyString +:+ tail))
      with (header +:+ String Str.newline tail).
    unfold Str.trim. rewrite Hstart, trimEnd_app.
    destruct (trimEnd_first Str.newline tail) as [-> | [r' ->]].
    + exists []. rewrite Hend, (split_lines_single header Hfree).
      simpl. now rewrite Hparse.
    + exists (List.map parseLine (Str.split_lines r')).
      rewrite split_lines_first by exact Hfree. simpl. now rewrite Hparse.
Qed.

Lemma sessionObject_of_export (host : Host) (row : list string) :
  asJobSession (sessionObject host Jobs.exportHeaders row) = noFields.
Proof.
  assert (forall name : string,
            In name session_columns ->
            sessionObject host Jobs.exportHeaders row !! name = None) as Hnone.
  { intros name Hin. apply forEach_absent.
    - apply sessionColumn_other.
    - simpl in Hin.
      destruct Hin as [<- | [<- | [<- | [<- | [<- | [<- | [<- | [<- | [<- | []]]]]]]]]];
        vm_compute; intuition discriminate. }
  unfold asJobSession, noFields, get_int, get_real, get_str.
  rewrite !Hnone by (vm_compute; tauto). reflexivity.
Qed.

Lemma filterSessions_noFields (host : Host) (timeRange : TimeRange) (now : Z)
    (l : list JobSession.t) :
  Forall (fun record => record = noFields) l ->
  filterSessions host timeRange now l = [].
Proof.
  unfold filterSessions. induction 1 as [|record rest -> _ IH];
    [reflexivity | exact IH].
Qed.

(** X20. An export is not a file the dashboard can read back: the loader
    finds none of its columns under the names of the export, so every
    record it reads from the text has no field at all, and the aggregation
    of these records counts no job. *)
Theorem export_not_reimportable (host : Host) (toFixed1 : float -> string)
    (jobs : list JobSession.t) (content : string) :
  Jobs.csvContent host toFixed1 jobs = Some content ->
  Forall (fun record => record = noFields) (parseJobSessions host content)
  /\ forall (now : Z) (dailyData : list DailyData.t) (timeRange : TimeRange),
       Result.totalJobs
         (processDataForTimeRange host now dailyData
            (parseJobSessions host content) timeRange) = 0.
Proof.
  intros Hcontent. unfold Jobs.csvContent in Hcontent.
  destruct (Jobs.exportRows host toFixed1 jobs) as [rows |]; [| discriminate].
  injection Hcontent as <-.
  destruct (parseCSV_of_export rows) as [data Hdata].
  assert (Forall (fun record => record = noFields)
            (parseJobSessions host
               (Str.join (String Str.newline EmptyString)
                  (Str.join (String Str.comma EmptyString) Jobs.exportHeaders
                   :: rows)))) as Hall.
  { unfold parseJobSessions. rewrite Hdata. cbv zeta.
    apply List.Forall_forall. intros record Hin. apply in_map_iff in Hin.
    destruct Hin as [row [<- _]]. apply sessionObject_of_export. }
  split; [exact Hall |].
  intros now dailyData timeRange. unfold processDataForTimeRange.
  cbn [Result.totalJobs]. now rewrite (filterSessions_noFields _ _ _ _ Hall).
Qed.

Lemma export_not_reimportable_witness :
  Forall (fun record => record = noFields)
    (parseJobSessions Utc.host
       (Sample.text
          ["Session ID,Date,Time,Material Type,Material Color,Status,Duration (min)";
           "1,2024-03-10,10:00,hyperDENT,,Completed,15.0"])).
Proof.
  refine (proj1 (export_not_reimportable Utc.host (fun _ => "15.0")
                   [Sample.session "2024-03-10" 9 (Some "hyperDENT")
                      "Completed"] _ _)).
  vm_compute. reflexivity.
Defined.

(** ** Line endings *)

Lemma trim_snoc_white (s : string) (c : ascii) :
  Str.is_white_space c = true ->
  Str.trim (s +:+ String c EmptyString) = Str.trim s.
Proof.
  intros Hc. induction s as [|x t IH].
  - unfold Str.trim. simpl. rewrite Hc. simpl. reflexivity.
  - change (String x t +:+ String c EmptyString)
      with (String x (t +:+ String c EmptyString)).
    unfold Str.trim in *. cbn [Str.trimStart].
    destruct (Str.is_white_space x); [exact IH |].
    change (String x (t +:+ String c EmptyString))
      with (String x t +:+ String c EmptyString).
    rewrite trimEnd_app. simpl. now rewrite Hc.
Qed.

Lemma white_not_separator (c : ascii) :
  Str.is_white_space c = true ->
  Ascii.eqb c Str.dquote = false /\ Ascii.eqb c Str.comma = false.
Proof.
  intros Hc. split.
  - destruct (Ascii.eqb_spec c Str.dquote) as [-> | _];
      [discriminate | reflexivity].
  - destruct (Ascii.eqb_spec c Str.comma) as [-> | _];
      [discriminate | reflexivity].
Qed.

Lemma parseLine_loop_blank (w : string) :
  blank w ->
  forall (values : list string) (current : string) (inQuotes : bool),
    parseLine_loop w values current inQuotes
    = (values ++ [Str.trim current])%list.
Proof.
  unfold blank. induction w as [|c r IH]; intros Hw values current inQuotes.
  - reflexivity.
  - cbn [parseLine_loop].
    destruct (white_not_separator c (Hw c (or_introl eq_refl))) as [-> ->].
    cbn [andb]. rewrite IH by (intros d Hd; apply Hw; now right).
    rewrite trim_snoc_white; [reflexivity |]. apply Hw. now left.
Qed.

Lemma parseLine_loop_suffix (line w : string) :
  blank w ->
  forall (values : list string) (current : string) (inQuotes : bool),
    parseLine_loop (line +:+ w) values current inQuotes
    = parseLine_loop line values current inQuotes.
Proof.
  intros Hw. induction line as [|c r IH]; intros values current inQuotes.
  - change (EmptyString +:+ w) with w. now apply parseLine_loop_blank.
  - change (String c r +:+ w) with (String c (r +:+ w)).
    cbn [parseLine_loop]. now rewrite !IH.
Qed.

Lemma crlf_empty (s : string) : crlf s = EmptyString -> s = EmptyString.
Proof.
  destruct s as [|c r]; [reflexivity |]. simpl.
  destruct (Ascii.eqb c Str.newline); discriminate.
Qed.

Lemma trimStart_crlf (s : string) :
  Str.trimStart (crlf s) = crlf (Str.trimStart s).
Proof.
  induction s as [|c r IH]; [reflexivity |]. cbn [crlf].
  destruct (Ascii.eqb_spec c Str.newline) as [-> | Hne].
  - cbn [Str.trimStart].
    change (Str.is_white_space (Ascii.ascii_of_nat 13)) with true.
    change (Str.is_white_space Str.newline) with true. cbv iota. exact IH.
  - cbn [Str.trimStart]. destruct (Str.is_white_space c); [exact IH |].
    cbn [crlf]. destruct (Ascii.eqb_spec c Str.newline); [contradiction |].
    reflexivity.
Qed.

Lemma crlf_newline (r : string) :
  crlf (String Str.newline r)
  = String (Ascii.ascii_of_nat 13) (String Str.newline (crlf r)).
Proof. reflexivity. Qed.

Lemma crlf_other (c : ascii) (r : string) :
  c <> Str.newline -> crlf (String c r) = String c (crlf r).
Proof.
  intros Hne. cbn [crlf].
  destruct (Ascii.eqb_spec c Str.newline); [contradiction | reflexivity].
Qed.

Lemma crlf_cons_first (d : ascii) (r : string) :
  exists (e : ascii) (r' : string), crlf (String d r) = String e r'.
Proof.
  cbn [crlf]. destruct (Ascii.eqb d Str.newline); now do 2 eexists.
Qed.

Lemma trimEnd_crlf (s : string) :
  Str.trimEnd (crlf s) = crlf (Str.trimEnd s).
Proof.
  induction s as [|c r IH]; [reflexivity |].
  rewrite (trimEnd_cons c r).
  destruct (Ascii.eqb_spec c Str.newline) as [-> | Hne].
  - rewrite crlf_newline, !trimEnd_cons, IH.
    change (Str.is_white_space (Ascii.ascii_of_nat 13)) with true.
    change (Str.is_white_space Str.newline) with true.
    destruct (Str.trimEnd r) as [|d r'] eqn:E; [reflexivity |].
    rewrite crlf_newline.
    destruct (crlf_cons_first d r') as [e [r'' ->]]. reflexivity.
  - rewrite crlf_other by assumption. rewrite trimEnd_cons, IH.
    destruct (Str.trimEnd r) as [|d r'] eqn:E.
    + change (crlf EmptyString) with EmptyString.
      destruct (Str.is_white_space c); [reflexivity |].
      now rewrite crlf_other.
    + rewrite (crlf_other c) by assumption.
      destruct (crlf_cons_first d r') as [e [r'' ->]]. reflexivity.
Qed.

(** The lines of the text with carriage returns are the lines of the text,
    some with a carriage return at the end. *)
Lemma split_lines_crlf (s : string) :
  Forall2
    (fun line' line =>
       line' = line \/ line' = line +:+ String (Ascii.ascii_of_nat 13) EmptyString)
    (Str.split_lines (crlf s)) (Str.split_lines s).
Proof.
  induction s as [|c r IH].
  - repeat constructor.
  - cbn [crlf]. destruct (Ascii.eqb_spec c Str.newline) as [-> | Hne].
    + cbn [Str.split_lines].
      change (Ascii.eqb (Ascii.ascii_of_nat 13) Str.newline) with false.
      rewrite Ascii.eqb_refl. cbv iota.
      constructor; [right; reflexivity | exact IH].
    + cbn [Str.split_lines].
      destruct (Ascii.eqb_spec c Str.newline); [contradiction |].
      destruct IH as [|line' line t' t [-> | ->] Ht].
      * repeat constructor.
      * constructor; [now left | exact Ht].
      * constructor; [now right | exact Ht].
Qed.

(** X21. White space at the end of a line changes none of its fields, and
    a text saved with carriage return and line feed as line break gives the
    rows, and so the records, of the same text saved with line feeds
    only. *)
Theorem line_endings_ignored (host : Host) :
  (forall line w : string,
     blank w -> parseLine (line +:+ w) = parseLine line)
  /\ (forall text : string,
        parseCSV (crlf text) = parseCSV text
        /\ parseDailyData host (crlf text) = parseDailyData host text
        /\ parseJobSessions host (crlf text) = parseJobSessions host text).
Proof.
  assert (forall line w : string,
            blank w -> parseLine (line +:+ w) = parseLine line) as Hline.
  { intros line w Hw. unfold parseLine. now apply parseLine_loop_suffix. }
  split; [exact Hline |].
  intros text.
  assert (parseCSV (crlf text) = parseCSV text) as Hrows.
  { unfold parseCSV, Str.trim. cbv zeta.
    rewrite trimStart_crlf, trimEnd_crlf.
    generalize (split_lines_crlf (Str.trimEnd (Str.trimStart text))).
    generalize (Str.split_lines (crlf (Str.trimEnd (Str.trimStart text)))).
    generalize (Str.split_lines (Str.trimEnd (Str.trimStart text))).
    intros lines lines'. induction 1 as [|line' line t' t [-> | ->] _ IH];
      simpl; [reflexivity | now rewrite IH |].
    rewrite IH, Hline; [reflexivity |].
    intros c [<- | []]. reflexivity. }
  unfold parseDailyData, parseJobSessions. now rewrite Hrows.
Qed.

Lemma line_endings_ignored_witness :
  parseLine ("a, b" +:+ String (Ascii.ascii_of_nat 13) EmptyString)
  = parseLine "a, b".
Proof.
  apply (proj1 (line_endings_ignored Utc.host)).
  intros c [<- | []]. reflexivity.
Defined.
